(** * Queue-time metrics: sampling, window store, deduplication, aggregation

    A shallow embedding of the collection and aggregation logic of

    - [k8s-queue-monitor/queue_time_collector.py] (module [Monitor]),
    - [k8s-queue-monitor/process_logs.py]         (module [ProcessLogs]),
    - [hack_webapp.py] and [queue_stats_collector.py] (module [Webapp]),

    together with the few Python and pandas primitives they rest on
    (modules [Py], [Pandas], [PandasSeries]) and the answers of the
    cluster (module [Kubectl]).  The second part states and proves the
    properties of these programs.

    Conventions.  A [DataFrame] is the list of its rows, in index order.
    Instants are integers: whole seconds since the epoch for every
    timestamp that the programs keep as a ["%Y-%m-%d %H:%M:%S"] string or
    read from the cluster (RFC 3339, one-second resolution), microseconds
    for [pd.Timestamp.now()].  A queue time is the integer number of
    seconds between two such instants (the programs hold it in a float,
    which is exact on these values). *)

From Stdlib Require Import ZArith List String Bool Lia Permutation Sorted.
From Stdlib Require Import QArith.
Import ListNotations.

Open Scope Z_scope.

(* ================================================================== *)
(** * Python: exceptions and the few built-ins the programs use       *)
(* ================================================================== *)

Module Py.

(** The exceptions that the modelled code can meet. *)
Inductive exn : Type :=
| CalledProcessError   (* subprocess.run(..., check=True), nonzero exit *)
| JSONDecodeError      (* json.loads on a payload that is not JSON     *)
| KeyError             (* d[k] on a missing key                        *)
| DateParseError       (* pd.to_datetime on a malformed string         *)
| ZeroDivisionError    (* x / 0                                        *)
| ValueError.          (* time.sleep on a negative length              *)

Inductive result (A : Type) : Type :=
| Ok (a : A)
| Raise (e : exn).
Arguments Ok {A} a.
Arguments Raise {A} e.

Definition bind {A B} (m : result A) (k : A -> result B) : result B :=
  match m with
  | Ok a => k a
  | Raise e => Raise e
  end.

(** [d[k]]: a missing key raises [KeyError]. *)
Definition getitem {A} (field : option A) : result A :=
  match field with
  | Some a => Ok a
  | None => Raise KeyError
  end.

(** [x in xs] on a list of strings. *)
Definition contains (xs : list string) (x : string) : bool :=
  existsb (String.eqb x) xs.

(** [int(a / b)] on integers: true division, then truncation towards
    zero.  The float quotient of two integers is correctly rounded, so
    below 2^53 its truncation is the truncated exact quotient. *)
Definition int_truediv (a b : Z) : result Z :=
  if b =? 0 then Raise ZeroDivisionError else Ok (Z.quot a b).



(** [range(1, n + 1)]. *)
Definition range1 (n : Z) : list Z :=
  map Z.of_nat (seq 1 (Z.to_nat n)).

(** [divmod(a, b)] for a positive [b]: floor division and its
    remainder. *)
Definition divmod (a b : Z) : Z * Z := (a / b, a mod b).

End Py.

Notation "x <- m ;; k" := (Py.bind m (fun x => k))
  (at level 61, m at next level, right associativity).

(* ================================================================== *)
(** * pandas: the DataFrame operations the programs use               *)
(* ================================================================== *)

Module Pandas.

Definition DataFrame (Row : Type) : Type := list Row.

Section Frame.
Context {Row : Type}.

(** [df.empty] *)
Definition empty (df : DataFrame Row) : bool :=
  match df with
  | [] => true
  | _ :: _ => false
  end.

(** [pd.concat([a, b], ignore_index=True)] *)
Definition concat (a b : DataFrame Row) : DataFrame Row := a ++ b.

(** [df[mask]] with a row-wise boolean mask. *)
Definition select (mask : Row -> bool) (df : DataFrame Row) : DataFrame Row :=
  filter mask df.

(** ** [sort_values]

    The programs call [sort_values] with its default [kind], which is
    ['quicksort']: pandas documents it as not stable, only ['mergesort']
    and ['stable'] are (numpy's quicksort partitions an array of more
    than sixteen elements around a pivot, which moves elements with equal
    keys past each other).  What the call promises is therefore a
    rearrangement of the rows that is ordered on the column; the order
    of rows with equal values is the algorithm's business.  The
    interface below is that promise; [le] is the order of the column
    ([<=] for [ascending=True], [>=] for [ascending=False]).  The
    algorithm itself is [Sorting.sort_values_quicksort] below. *)
Section SortValues.
Context {K : Type} (by_col : Row -> K) (le : K -> K -> bool).

Definition ordered_on : Row -> Row -> Prop :=
  fun a b => le (by_col a) (by_col b) = true.

Class SortValues : Type := {
  sort_values : DataFrame Row -> DataFrame Row;
  sort_values_perm : forall df, Permutation df (sort_values df);
  sort_values_sorted : forall df, StronglySorted ordered_on (sort_values df)
}.

(** A stable sort, for comparison and for [groupby]: insertion of each
    row, from the last to the first, in front of the first row that it
    is [before].  With [before := le] rows with equal keys keep their
    order. *)
Fixpoint insert_row (before : K -> K -> bool) (r : Row) (df : DataFrame Row)
  : DataFrame Row :=
  match df with
  | [] => [r]
  | x :: rest =>
      if before (by_col r) (by_col x) then r :: x :: rest
      else x :: insert_row before r rest
  end.

Definition insertion_sort (before : K -> K -> bool) (df : DataFrame Row)
  : DataFrame Row :=
  fold_right (insert_row before) [] df.

End SortValues.

(** ** [drop_duplicates(subset=[col])], [keep='first']: a row is kept
    when no earlier row has its value in the column. *)
Section DropDuplicates.
Context {K : Type} (subset : Row -> K) (eqb : K -> K -> bool).

Fixpoint drop_duplicates_from (seen : list K) (df : DataFrame Row)
  : DataFrame Row :=
  match df with
  | [] => []
  | r :: rest =>
      if existsb (eqb (subset r)) seen
      then drop_duplicates_from seen rest
      else r :: drop_duplicates_from (subset r :: seen) rest
  end.

Definition drop_duplicates (df : DataFrame Row) : DataFrame Row :=
  drop_duplicates_from [] df.
End DropDuplicates.

End Frame.

Arguments sort_values {Row K by_col le} sorter df : rename.
Arguments sort_values_perm {Row K by_col le} sorter df : rename.
Arguments sort_values_sorted {Row K by_col le} sorter df : rename.

(** The order of [ascending=False] on a column of means. *)
Definition Qge_bool (a b : Q) : bool := Qle_bool b a.

End Pandas.

(* ================================================================== *)
(** * numpy: [argsort] with [kind='quicksort']                        *)
(* ================================================================== *)

(** [numpy.argsort(v, kind='quicksort')] is an introsort on an array of
    positions ([aquicksort] of [npysort/quicksort]).  A segment of more
    than sixteen positions is partitioned around the median of its
    first, middle and last key; the smaller part is sorted first and the
    larger one is kept on a stack.  A segment of at most sixteen
    positions is sorted by insertion.  A segment that is taken from the
    stack after more than [2 * floor(log2 n)] partitions is sorted by
    [aheapsort].  The array is a list of positions, read and written by
    index; a pointer into it is an index; [less] is the strict order of
    the keys; the loops of the routine run on a count that bounds their
    turns. *)
Module Numpy.
Section ArgSort.
Context {K : Type} (less : K -> K -> bool) (v : list K) (d : K).

Definition SMALL_QUICKSORT : nat := 16.

(** [v[i]] *)
Definition key (i : nat) : K := nth i v d.

(** [a[p]] and [a[p] = x] *)
Definition get (a : list nat) (p : nat) : nat := nth p a 0%nat.

Fixpoint put (a : list nat) (p x : nat) : list nat :=
  match a, p with
  | [], _ => []
  | _ :: rest, O => x :: rest
  | y :: rest, S p' => y :: put rest p' x
  end.

(** [INTP_SWAP(a[p], a[q])] *)
Definition swap (a : list nat) (p q : nat) : list nat :=
  let x := get a p in
  let y := get a q in
  put (put a p y) q x.

(** [if (less(v[a[p]], v[a[q]])) INTP_SWAP(a[p], a[q])] *)
Definition swap_if_less (a : list nat) (p q : nat) : list nat :=
  if less (key (get a p)) (key (get a q)) then swap a p q else a.

(** [do { ++pi; } while (less(v[*pi], vp))] *)
Fixpoint scan_up (turns : nat) (a : list nat) (vp : K) (pi : nat) : nat :=
  match turns with
  | O => pi
  | S turns' =>
      let pi := S pi in
      if less (key (get a pi)) vp then scan_up turns' a vp pi else pi
  end.

(** [do { --pj; } while (less(vp, v[*pj]))] *)
Fixpoint scan_down (turns : nat) (a : list nat) (vp : K) (pj : nat) : nat :=
  match turns with
  | O => pj
  | S turns' =>
      let pj := (pj - 1)%nat in
      if less vp (key (get a pj)) then scan_down turns' a vp pj else pj
  end.

(** [for (;;) { scan up; scan down; if (pi >= pj) break; swap a[pi], a[pj]; }] *)
Fixpoint exchange (turns : nat) (a : list nat) (vp : K) (pi pj : nat)
  : list nat * nat :=
  match turns with
  | O => (a, pi)
  | S turns' =>
      let pi := scan_up (List.length a) a vp pi in
      let pj := scan_down (List.length a) a vp pj in
      if (pj <=? pi)%nat then (a, pi)
      else exchange turns' (swap a pi pj) vp pi pj
  end.

(** One partition of the segment from [pl] to [pr]: the median of three
    goes to [pr - 1], the exchanges run between [pl] and [pr - 1], and
    the pivot is put at [pi], the position returned. *)
Definition partition (a : list nat) (pl pr : nat) : list nat * nat :=
  let pm := (pl + Nat.div2 (pr - pl))%nat in
  let a := swap_if_less a pm pl in
  let a := swap_if_less a pr pm in
  let a := swap_if_less a pm pl in
  let vp := key (get a pm) in
  let pj := (pr - 1)%nat in
  let a := swap a pm pj in
  let (a, pi) := exchange (List.length a) a vp pl pj in
  (swap a pi (pr - 1)%nat, pi).

(** [while (pj > pl && less(vp, v[*pk])) { *pj-- = *pk--; } *pj = vi;]
    with [pk = pj - 1]. *)
Fixpoint shift (turns : nat) (a : list nat) (pl vi : nat) (vp : K) (pj : nat)
  : list nat :=
  match turns with
  | O => put a pj vi
  | S turns' =>
      if (pl <? pj)%nat && less vp (key (get a (pj - 1)%nat))
      then shift turns' (put a pj (get a (pj - 1)%nat)) pl vi vp (pj - 1)%nat
      else put a pj vi
  end.

(** [for (pi = pl + 1; pi <= pr; ++pi)]: the insertion sort of a small
    segment. *)
Fixpoint insertion_from (count : nat) (a : list nat) (pl pi : nat) : list nat :=
  match count with
  | O => a
  | S count' =>
      let vi := get a pi in
      insertion_from count' (shift (List.length a) a pl vi (key vi) pi) pl (S pi)
  end.

Definition insertion (a : list nat) (pl pr : nat) : list nat :=
  insertion_from (pr - pl) a pl (S pl).

(** [aheapsort] on the [n] positions from [pl], which it counts from
    one. *)
Definition hget (a : list nat) (pl k : nat) : nat := get a (pl + k - 1)%nat.

Definition hput (a : list nat) (pl k x : nat) : list nat := put a (pl + k - 1)%nat x.

(** [for (i, j; j <= n;) { ... } a[i] = tmp;] *)
Fixpoint sift (turns : nat) (a : list nat) (pl n tmp i j : nat) : list nat :=
  match turns with
  | O => hput a pl i tmp
  | S turns' =>
      if (j <=? n)%nat then
        let j := if (j <? n)%nat
                    && less (key (hget a pl j)) (key (hget a pl (j + 1)%nat))
                 then (j + 1)%nat else j in
        if less (key tmp) (key (hget a pl j))
        then sift turns' (hput a pl i (hget a pl j)) pl n tmp j (j + j)%nat
        else hput a pl i tmp
      else hput a pl i tmp
  end.

(** [for (l = n >> 1; l > 0; --l)] *)
Fixpoint heapify (l : nat) (a : list nat) (pl n : nat) : list nat :=
  match l with
  | O => a
  | S l' => heapify l' (sift n a pl n (hget a pl l) l (l + l)%nat) pl n
  end.

(** [for (; n > 1;) { tmp = a[n]; a[n] = a[1]; n -= 1; ... }] *)
Fixpoint extract (n : nat) (a : list nat) (pl : nat) : list nat :=
  match n with
  | O => a
  | S O => a
  | S n' =>
      let tmp := hget a pl n in
      let a := hput a pl n (hget a pl 1%nat) in
      extract n' (sift n a pl n' tmp 1%nat 2%nat) pl
  end.

Definition aheapsort (a : list nat) (pl n : nat) : list nat :=
  extract n (heapify (Nat.div2 n) a pl n) pl.

(** The loop of [aquicksort] on the segment from [pl] to [pr], with the
    stack of the segments still to sort and of their depths.  [top] is
    true at the head of the outer loop, where the depth is tested, and
    false inside the loop of the partitions. *)
Fixpoint aquicksort_loop (turns : nat) (top : bool) (a : list nat) (pl pr : nat)
    (cdepth : Z) (stack : list (nat * nat * Z)) : list nat :=
  match turns with
  | O => a
  | S turns' =>
      let stack_pop (a : list nat) :=
        match stack with
        | [] => a
        | (pl', pr', cdepth') :: stack' =>
            aquicksort_loop turns' true a pl' pr' cdepth' stack'
        end in
      if top && (cdepth <? 0) then stack_pop (aheapsort a pl (pr - pl + 1)%nat)
      else if (SMALL_QUICKSORT <=? pr - pl)%nat then
        let (a, pi) := partition a pl pr in
        let cdepth := cdepth - 1 in
        if (pi - pl <? pr - pi)%nat
        then aquicksort_loop turns' false a pl (pi - 1)%nat cdepth
               ((S pi, pr, cdepth) :: stack)
        else aquicksort_loop turns' false a (S pi) pr cdepth
               ((pl, (pi - 1)%nat, cdepth) :: stack)
      else stack_pop (insertion a pl pr)
  end.

(** [aquicksort(v, tosort, num)] on [tosort = arange(num)]; every turn
    of the loop partitions a segment or finishes one, so that
    [2 * num + 2] turns are enough. *)
Definition aquicksort (num : nat) : list nat :=
  match num with
  | O => []
  | S last =>
      aquicksort_loop (2 * num + 2) true (seq 0 num) 0 last
        (2 * Z.log2 (Z.of_nat num)) []
  end.
End ArgSort.

Definition argsort {K : Type} (less : K -> K -> bool) (v : list K) : list nat :=
  match v with
  | [] => []
  | d :: _ => aquicksort less v d (List.length v)
  end.

End Numpy.

(* ================================================================== *)
(** * pandas: [sort_values] with the default [kind]                   *)
(* ================================================================== *)

Module Sorting.

(** [pandas.core.sorting.nargsort] on a column without missing values:
    for [ascending=False] the column is reversed, sorted, and the
    positions found are mapped back and reversed. *)
Definition nargsort {K : Type} (less : K -> K -> bool) (ascending : bool)
  (items : list K) : list nat :=
  if ascending then Numpy.argsort less items
  else
    let n := List.length items in
    rev (map (fun p => (n - 1 - p)%nat) (Numpy.argsort less (rev items))).

(** [df.take(indexer)] *)
Definition take {Row : Type} (indexer : list nat) (df : list Row) : list Row :=
  flat_map (fun i => match nth_error df i with
                     | Some r => [r]
                     | None => []
                     end) indexer.

(** The two facts that numpy documents of [argsort]: the positions
    returned are a rearrangement of [0 .. n-1], and the keys taken at
    them are in order. *)
Definition rearranges (indexer : list nat) (n : nat) : bool :=
  (List.length indexer =? n)%nat
  && forallb (fun i => existsb (Nat.eqb i) indexer) (seq 0 n).

Fixpoint in_order {K : Type} (le : K -> K -> bool) (keys : list K) : bool :=
  match keys with
  | a :: (b :: _) as rest => le a b && in_order le rest
  | _ => true
  end.

(** [df.sort_values(by)] with the default [kind]: the frame taken at the
    positions of [nargsort].  The result is tested for the two facts
    above, which makes the function an implementation of the interface
    of [sort_values] without a proof that the introsort sorts; were the
    test to fail, the rows would be sorted by insertion. *)
Definition sort_values_quicksort {Row K : Type} (by_col : Row -> K)
  (le less : K -> K -> bool) (ascending : bool) (df : list Row) : list Row :=
  let indexer := nargsort less ascending (map by_col df) in
  let sorted := take indexer df in
  if rearranges indexer (List.length df) && in_order le (map by_col sorted)
  then sorted
  else Pandas.insertion_sort by_col le df.

(** The strict orders of numpy on a column of timestamps and on a
    column of means. *)
Definition datetime_less (a b : Z) : bool := a <? b.

Definition double_less (a b : Q) : bool := negb (Qle_bool b a).

End Sorting.

Module PandasSeries.

(** Aggregations of a non-empty column [x :: xs] of queue times.  An
    empty column would give NaN; the programs aggregate only frames and
    groups that hold a row. *)
Definition sum (x : Z) (xs : list Z) : Z := fold_left Z.add xs x.

Definition mean (x : Z) (xs : list Z) : Q :=
  Qmake (sum x xs) (Pos.of_succ_nat (List.length xs)).

Definition max (x : Z) (xs : list Z) : Z := fold_left Z.max xs x.

Definition min (x : Z) (xs : list Z) : Z := fold_left Z.min xs x.

(** [s.nunique()] on a column of strings. *)
Definition nunique (xs : list string) : nat :=
  List.length (nodup string_dec xs).

(** [df.loc[df[col].idxmax()]]: the first row that attains the
    maximum. *)
Definition idxmax {Row : Type} (col : Row -> Z) (r : Row) (rs : list Row) : Row :=
  fold_left (fun best x => if col best <? col x then x else best) rs r.

(** [df.groupby(col)]: the groups in ascending order of their key (the
    default [sort=True]), each with its rows in frame order.  A group
    holds at least one row: its first row and the others. *)
Section GroupBy.
Context {Row : Type} (col : Row -> string).

Definition group : Type := (string * (Row * list Row))%type.

Fixpoint add_to_group (r : Row) (groups : list group) : list group :=
  match groups with
  | [] => [(col r, (r, []))]
  | (k, (r0, rs)) :: gs =>
      if String.eqb (col r) k then (k, (r0, rs ++ [r])) :: gs
      else (k, (r0, rs)) :: add_to_group r gs
  end.

Definition groups_in_frame_order (df : list Row) : list group :=
  fold_left (fun gs r => add_to_group r gs) df [].

Definition groupby (df : list Row) : list group :=
  Pandas.insertion_sort fst String.leb (groups_in_frame_order df).
End GroupBy.

(** [s.median()] on a non-empty column: the middle value in sorted
    order, or the mean of the two middle values when the column has an
    even number of them. *)
Definition median (x : Z) (xs : list Z) : Q :=
  let sorted := Pandas.insertion_sort (fun v => v) Z.leb (x :: xs) in
  let n := List.length sorted in
  if Nat.even n
  then Qmake (nth (n / 2 - 1) sorted x + nth (n / 2) sorted x) 2
  else Qmake (nth (n / 2) sorted x) 1.

End PandasSeries.

(* ================================================================== *)
(** * The cluster data source: [kubectl get pods --all-namespaces -o json] *)
(* ================================================================== *)

Module Kubectl.

(** A timestamp of the payload: the text, and the instant (seconds
    since the epoch) that [pd.to_datetime] reads from it, [None] when
    the text is malformed and [pd.to_datetime] raises. *)
Record timestamp : Type := {
  text : string;
  instant : option Z
}.

(** One element of [pods_data['items']].  A field is [None] when the key
    (or the object that holds it) is absent; for [startTime], read with
    [pod.get('status', {}).get('startTime')], [None] stands for every
    falsy value: absent, null or empty. *)
Record pod : Type := {
  namespace : option string;
  name : option string;
  uid : option string;
  creationTimestamp : option timestamp;
  startTime : option timestamp
}.

(** What one call of the command gives. *)
Inductive response : Type :=
| NonzeroExit                          (* check=True raises CalledProcessError *)
| NotJson                              (* json.loads raises JSONDecodeError    *)
| Parsed (items : option (list pod)).  (* pods_data, with or without 'items'   *)

Definition to_datetime (t : timestamp) : Py.result Z :=
  match instant t with
  | Some z => Py.Ok z
  | None => Py.Raise Py.DateParseError
  end.

(** [subprocess.run] followed by [json.loads] and [pods_data['items']]. *)
Definition items_of (r : response) : Py.result (list pod) :=
  match r with
  | NonzeroExit => Py.Raise Py.CalledProcessError
  | NotJson => Py.Raise Py.JSONDecodeError
  | Parsed items => Py.getitem items
  end.

(** One observation of the outside world by [collect_queue_times]: the
    answer of the command, and [datetime.datetime.now()] as
    [strftime("%Y-%m-%d %H:%M:%S")] keeps it. *)
Record snapshot : Type := {
  answer : response;
  clock : Z
}.

End Kubectl.

(** [30 * 24 * 60 * 60], the ceiling on a queue time. *)
Definition ceiling_seconds : Z := 30 * 24 * 60 * 60.

(** [exclude_namespaces or ['kube-system']] *)
Definition or_kube_system (exclude_namespaces : option (list string)) : list string :=
  match exclude_namespaces with
  | None | Some [] => ["kube-system"%string]
  | Some (ns :: more) => ns :: more
  end.

(* ================================================================== *)
(** * [k8s-queue-monitor/queue_time_collector.py]                     *)
(* ================================================================== *)

Module Monitor.
Import Pandas.

(** A row of [queue_time_history.csv]. *)
Record Sample : Type := {
  Timestamp : Z;
  Namespace : string;
  Pod : string;
  PodUID : string;
  QueueTime : Z;
  CreationTime : string;
  StartTime : string
}.

(** What the collector prints. *)
Inductive line : Type :=
| Loaded (records : nat)
| CreatedNew
| StartingCollection
| ErrorCollecting (e : Py.exn)
| UpdatedStorage (new_records : nat)
| TotalInWindow (records : nat)
| CollectionCompleted
| NoDataCollected
| DataStoredIn.

(** The collector, with the file [persistent_db_path] that it owns
    ([None]: no such file) and its standard output. *)
Record QueueTimeCollector : Type := {
  exclude_namespaces : list string;
  historical_data : DataFrame Sample;
  persistent_db : option (DataFrame Sample);
  stdout : list line
}.

Definition print (l : line) (self : QueueTimeCollector) : QueueTimeCollector :=
  {| exclude_namespaces := exclude_namespaces self;
     historical_data := historical_data self;
     persistent_db := persistent_db self;
     stdout := stdout self ++ [l] |}.

(** [__init__]: [disk] is the content of the file when it exists. *)
Definition init (exclude : option (list string)) (disk : option (DataFrame Sample))
  : QueueTimeCollector :=
  match disk with
  | Some rows =>
      {| exclude_namespaces := or_kube_system exclude;
         historical_data := rows;
         persistent_db := disk;
         stdout := [Loaded (List.length rows)] |}
  | None =>
      {| exclude_namespaces := or_kube_system exclude;
         historical_data := [];
         persistent_db := disk;
         stdout := [CreatedNew] |}
  end.

(** The body of [for pod in pods_data['items']]: [Ok None] is a
    [continue] or a pod that has not started, [Ok (Some row)] a row
    appended to [queue_times]. *)
Definition process_pod (exclude : list string) (timestamp : Z) (pod : Kubectl.pod)
  : Py.result (option Sample) :=
  namespace <- Py.getitem (Kubectl.namespace pod) ;;
  if Py.contains exclude namespace then Py.Ok None
  else
    match Kubectl.startTime pod with
    | None => Py.Ok None
    | Some started =>
        pod_name <- Py.getitem (Kubectl.name pod) ;;
        pod_uid <- Py.getitem (Kubectl.uid pod) ;;
        created <- Py.getitem (Kubectl.creationTimestamp pod) ;;
        created_time <- Kubectl.to_datetime created ;;
        start_time <- Kubectl.to_datetime started ;;
        let queue_time := start_time - created_time in
        if queue_time >? ceiling_seconds then Py.Ok None
        else Py.Ok (Some {| Timestamp := timestamp;
                            Namespace := namespace;
                            Pod := pod_name;
                            PodUID := pod_uid;
                            QueueTime := queue_time;
                            CreationTime := Kubectl.text created;
                            StartTime := Kubectl.text started |})
    end.

Fixpoint for_each_pod (exclude : list string) (timestamp : Z)
  (items : list Kubectl.pod) (queue_times : list Sample)
  : Py.result (list Sample) :=
  match items with
  | [] => Py.Ok queue_times
  | pod :: rest =>
      row <- process_pod exclude timestamp pod ;;
      for_each_pod exclude timestamp rest
        (match row with
         | Some r => queue_times ++ [r]
         | None => queue_times
         end)
  end.

(** The [try] block of [collect_queue_times]. *)
Definition try_collect (exclude : list string) (world : Kubectl.snapshot)
  : Py.result (DataFrame Sample) :=
  items <- Kubectl.items_of (Kubectl.answer world) ;;
  for_each_pod exclude (Kubectl.clock world) items [].

(** [collect_queue_times]: the frame returned, and the collector after
    the call (only its output can change). *)
Definition collect_queue_times (world : Kubectl.snapshot) (self : QueueTimeCollector)
  : DataFrame Sample * QueueTimeCollector :=
  match try_collect (exclude_namespaces self) world with
  | Py.Ok queue_times => (queue_times, self)
  | Py.Raise e => ([], print (ErrorCollecting e) self)
  end.

(** [pd.Timedelta(days=7)], in microseconds. *)
Definition seven_days : Z := 7 * 86400 * 1000000.

(** The instant of a stored [Timestamp], in microseconds. *)
Definition micros (timestamp : Z) : Z := timestamp * 1000000.

(** [update_persistent_storage]; [now] is [pd.Timestamp.now()] in
    microseconds.  The column goes through [pd.to_datetime] and back
    through [strftime("%Y-%m-%d %H:%M:%S")], which leaves whole seconds
    as they are. *)
Definition update_persistent_storage (new_data : DataFrame Sample) (now : Z)
  (self : QueueTimeCollector) : QueueTimeCollector :=
  if negb (empty new_data) then
    let historical := concat (historical_data self) new_data in
    let cutoff_date := now - seven_days in
    let historical :=
      select (fun row => micros (Timestamp row) >=? cutoff_date) historical in
    {| exclude_namespaces := exclude_namespaces self;
       historical_data := historical;
       persistent_db := Some historical;
       stdout := stdout self ++ [UpdatedStorage (List.length new_data);
                                 TotalInWindow (List.length historical)] |}
  else self.

(** [run_collection]: one collection cycle. *)
Definition run_collection (world : Kubectl.snapshot) (now : Z)
  (self : QueueTimeCollector) : QueueTimeCollector :=
  let self := print StartingCollection self in
  let (new_data, self) := collect_queue_times world self in
  let self :=
    if negb (empty new_data)
    then print CollectionCompleted (update_persistent_storage new_data now self)
    else print NoDataCollected self in
  print DataStoredIn self.

(** A run of cycles, one after the other (the script is started once
    per cycle). *)
Fixpoint run_cycles (cycles : list (Kubectl.snapshot * Z)) (self : QueueTimeCollector)
  : QueueTimeCollector :=
  match cycles with
  | [] => self
  | (world, now) :: rest => run_cycles rest (run_collection world now self)
  end.

(** [format_time], without the rendering as text: the days, hours,
    minutes and seconds that it prints. *)
Definition format_time (seconds : Z) : Z * Z * Z * Z :=
  let (days, remainder) := Py.divmod seconds 86400 in
  let (hours, remainder) := Py.divmod remainder 3600 in
  let (minutes, seconds) := Py.divmod remainder 60 in
  (days, hours, minutes, seconds).

End Monitor.

(* ================================================================== *)
(** * [k8s-queue-monitor/process_logs.py]                             *)
(* ================================================================== *)

Module ProcessLogs.
Import Pandas.

(** A row of [ns_stats]. *)
Record NamespaceStats : Type := {
  Namespace : string;
  mean : Q;
  max : Z;
  count : nat
}.

Definition agg (g : PandasSeries.group (Row := Monitor.Sample)) : NamespaceStats :=
  let '(namespace, (row, rows)) := g in
  let x := Monitor.QueueTime row in
  let xs := map Monitor.QueueTime rows in
  {| Namespace := namespace;
     mean := PandasSeries.mean x xs;
     max := PandasSeries.max x xs;
     count := S (List.length rows) |}.

Section Main.
(** The two [sort_values] calls of [main]. *)
Context {by_Timestamp : SortValues Monitor.Timestamp Z.leb}.
Context {by_mean : SortValues mean Qge_bool}.

(** [raw_data.sort_values('Timestamp').drop_duplicates(subset=['PodUID'])] *)
Definition dedup_data (raw_data : DataFrame Monitor.Sample) : DataFrame Monitor.Sample :=
  drop_duplicates Monitor.PodUID String.eqb (sort_values by_Timestamp raw_data).

(** [groupby('Namespace').agg(...).sort_values(('QueueTime', 'mean'),
    ascending=False)] *)
Definition ns_stats (data : DataFrame Monitor.Sample) : DataFrame NamespaceStats :=
  sort_values by_mean
    (map agg (PandasSeries.groupby Monitor.Namespace data)).

(** [main], from the frame read to the two frames that it saves;
    [None] is [sys.exit(1)] on an empty input. *)
Definition main (raw_data : DataFrame Monitor.Sample)
  : option (DataFrame NamespaceStats * DataFrame Monitor.Sample) :=
  if empty raw_data then None
  else
    let dedup := dedup_data raw_data in
    Some (ns_stats dedup, dedup).
End Main.

(** [format_time], without the rendering as text: hours, minutes and
    seconds. *)
Definition format_time (seconds : Z) : Z * Z * Z :=
  let (hours, remainder) := Py.divmod seconds 3600 in
  let (minutes, seconds) := Py.divmod remainder 60 in
  (hours, minutes, seconds).

(** The overall statistics that [main] prints from [dedup_data]. *)
Record Overall : Type := {
  unique_pods : nat;
  true_avg_queue_time : Q;
  max_queue_time : Z;
  min_queue_time : Z;
  median_queue_time : Q
}.

Definition overall (row : Monitor.Sample) (rows : list Monitor.Sample) : Overall :=
  let x := Monitor.QueueTime row in
  let xs := map Monitor.QueueTime rows in
  {| unique_pods := S (List.length rows);
     true_avg_queue_time := PandasSeries.mean x xs;
     max_queue_time := PandasSeries.max x xs;
     min_queue_time := PandasSeries.min x xs;
     median_queue_time := PandasSeries.median x xs |}.

End ProcessLogs.

(* ================================================================== *)
(** * [hack_webapp.py] and [queue_stats_collector.py]                 *)
(* ================================================================== *)

(** The class [QueueTimeStatsCollector] is the same in the two files up
    to the channel of its messages ([self.log] in the web application,
    [print] in the script); the model follows the web application and
    keeps the messages in [logs]. *)
Module Webapp.
Import Pandas.

(** A row of [all_data].  The column [QueueTimeFormatted], a rendering
    of the four components, is left out. *)
Record Row : Type := {
  Timestamp : Z;
  Namespace : string;
  Pod : string;
  QueueTime : Z;
  Days : Z;
  Hours : Z;
  Minutes : Z;
  Seconds : Z;
  CreationTime : string;
  StartTime : string
}.

Inductive message : Type :=
| StartingFor (duration_mins : Z)
| Excluding (namespaces : list string)
| SavedTo
| RunningCommand
| SkippingPod (namespace pod_name : string) (queue_time : Z)
| ErrorRunningKubectl
| CommandOutput
| ErrorParsingJson
| UnexpectedError (e : Py.exn)
| Collecting (i iterations : Z)
| CollectedFor (pods namespaces : nat)
| AverageQueueTime (avg_queue : Q)
| MaximumQueueTime (max_queue : Z) (max_ns max_pod : string)
| NoDataInIteration
| Waiting (interval_secs : Z)
| AnalysisComplete.

Record QueueTimeStatsCollector : Type := {
  duration_mins : Z;
  interval_secs : Z;
  exclude_namespaces : list string;
  all_data : DataFrame Row;
  logs : list message
}.

Definition log (m : message) (self : QueueTimeStatsCollector) : QueueTimeStatsCollector :=
  {| duration_mins := duration_mins self;
     interval_secs := interval_secs self;
     exclude_namespaces := exclude_namespaces self;
     all_data := all_data self;
     logs := logs self ++ [m] |}.

Definition set_logs (ms : list message) (self : QueueTimeStatsCollector)
  : QueueTimeStatsCollector :=
  {| duration_mins := duration_mins self;
     interval_secs := interval_secs self;
     exclude_namespaces := exclude_namespaces self;
     all_data := all_data self;
     logs := ms |}.

Definition set_all_data (df : DataFrame Row) (self : QueueTimeStatsCollector)
  : QueueTimeStatsCollector :=
  {| duration_mins := duration_mins self;
     interval_secs := interval_secs self;
     exclude_namespaces := exclude_namespaces self;
     all_data := df;
     logs := logs self |}.

(** [__init__] *)
Definition init (duration interval : Z) (exclude : option (list string))
  : QueueTimeStatsCollector :=
  let excluded := or_kube_system exclude in
  {| duration_mins := duration;
     interval_secs := interval;
     exclude_namespaces := excluded;
     all_data := [];
     logs := [StartingFor duration; Excluding excluded; SavedTo] |}.

Record components : Type := {
  c_Days : Z;
  c_Hours : Z;
  c_Minutes : Z;
  c_Seconds : Z
}.

(** [format_time_components], without the ['Formatted'] text. *)
Definition format_time_components (seconds : Z) : components :=
  let (days, remainder) := Py.divmod seconds 86400 in
  let (hours, remainder) := Py.divmod remainder 3600 in
  let (minutes, seconds) := Py.divmod remainder 60 in
  {| c_Days := days; c_Hours := hours; c_Minutes := minutes; c_Seconds := seconds |}.

(** What one turn of [for pod in pods_data['items']] does. *)
Inductive turn : Type :=
| Continue                      (* excluded, or not started yet    *)
| ContinueLogged (m : message)  (* above the ceiling: log and skip *)
| Append (row : Row).

Definition process_pod (exclude : list string) (timestamp : Z) (pod : Kubectl.pod)
  : Py.result turn :=
  namespace <- Py.getitem (Kubectl.namespace pod) ;;
  if Py.contains exclude namespace then Py.Ok Continue
  else
    match Kubectl.startTime pod with
    | None => Py.Ok Continue
    | Some started =>
        pod_name <- Py.getitem (Kubectl.name pod) ;;
        created <- Py.getitem (Kubectl.creationTimestamp pod) ;;
        created_time <- Kubectl.to_datetime created ;;
        start_time <- Kubectl.to_datetime started ;;
        let queue_time := start_time - created_time in
        if queue_time >? ceiling_seconds
        then Py.Ok (ContinueLogged (SkippingPod namespace pod_name queue_time))
        else
          let time_components := format_time_components queue_time in
          Py.Ok (Append {| Timestamp := timestamp;
                           Namespace := namespace;
                           Pod := pod_name;
                           QueueTime := queue_time;
                           Days := c_Days time_components;
                           Hours := c_Hours time_components;
                           Minutes := c_Minutes time_components;
                           Seconds := c_Seconds time_components;
                           CreationTime := Kubectl.text created;
                           StartTime := Kubectl.text started |})
    end.

(** The loop, with the messages logged on the way: they stay logged
    when a later pod raises. *)
Fixpoint for_each_pod (exclude : list string) (timestamp : Z)
  (items : list Kubectl.pod) (queue_times : list Row) (logged : list message)
  : list message * Py.result (list Row) :=
  match items with
  | [] => (logged, Py.Ok queue_times)
  | pod :: rest =>
      match process_pod exclude timestamp pod with
      | Py.Raise e => (logged, Py.Raise e)
      | Py.Ok Continue => for_each_pod exclude timestamp rest queue_times logged
      | Py.Ok (ContinueLogged m) =>
          for_each_pod exclude timestamp rest queue_times (logged ++ [m])
      | Py.Ok (Append row) =>
          for_each_pod exclude timestamp rest (queue_times ++ [row]) logged
      end
  end.

(** The three [except] clauses: each logs and returns [pd.DataFrame()]. *)
Definition handle (e : Py.exn) (self : QueueTimeStatsCollector) : QueueTimeStatsCollector :=
  match e with
  | Py.CalledProcessError => log CommandOutput (log ErrorRunningKubectl self)
  | Py.JSONDecodeError => log ErrorParsingJson self
  | _ => log (UnexpectedError e) self
  end.

(** The [try] block of [collect_queue_times]: what is logged, and the
    rows or the exception. *)
Definition try_collect (world : Kubectl.snapshot) (self : QueueTimeStatsCollector)
  : list message * Py.result (list Row) :=
  let logged := logs self ++ [RunningCommand] in
  match Kubectl.items_of (Kubectl.answer world) with
  | Py.Raise e => (logged, Py.Raise e)
  | Py.Ok items =>
      for_each_pod (exclude_namespaces self) (Kubectl.clock world) items [] logged
  end.

Definition collect_queue_times (world : Kubectl.snapshot) (self : QueueTimeStatsCollector)
  : DataFrame Row * QueueTimeStatsCollector :=
  let (logged, outcome) := try_collect world self in
  match outcome with
  | Py.Ok queue_times => (queue_times, set_logs logged self)
  | Py.Raise e => ([], handle e (set_logs logged self))
  end.

(** What the loop does to the outside, in order. *)
Inductive event : Type :=
| Sampled (i : Z)        (* the call of collect_queue_times in iteration i *)
| Slept (seconds : Z).   (* a completed time.sleep                         *)

Record execution : Type := {
  collector : QueueTimeStatsCollector;
  trace : list event;
  raised : option Py.exn
}.

(** The block under [if not df.empty]. *)
Definition record_iteration (df : DataFrame Row) (self : QueueTimeStatsCollector)
  : QueueTimeStatsCollector :=
  match df with
  | [] => log NoDataInIteration self
  | row :: rows =>
      let self := set_all_data (concat (all_data self) df) self in
      let self := log (CollectedFor (List.length df)
                         (PandasSeries.nunique (map Namespace df))) self in
      let avg_queue := PandasSeries.mean (QueueTime row) (map QueueTime rows) in
      let max_queue := PandasSeries.max (QueueTime row) (map QueueTime rows) in
      let top := PandasSeries.idxmax QueueTime row rows in
      let self := log (AverageQueueTime avg_queue) self in
      log (MaximumQueueTime max_queue (Namespace top) (Pod top)) self
  end.

(** [for i in range(1, iterations + 1)]; [world i] is what the [i]-th
    iteration observes.  [time.sleep] raises [ValueError] on a negative
    length. *)
Fixpoint iterate (world : Z -> Kubectl.snapshot) (iterations : Z) (range : list Z)
  (self : QueueTimeStatsCollector) (done : list event) : execution :=
  match range with
  | [] => {| collector := self; trace := done; raised := None |}
  | i :: rest =>
      let self := log (Collecting i iterations) self in
      let (df, self) := collect_queue_times (world i) self in
      let done := done ++ [Sampled i] in
      let self := record_iteration df self in
      if i <? iterations then
        let self := log (Waiting (interval_secs self)) self in
        if interval_secs self <? 0
        then {| collector := self; trace := done; raised := Some Py.ValueError |}
        else iterate world iterations rest self (done ++ [Slept (interval_secs self)])
      else iterate world iterations rest self done
  end.

(** [run_collection] *)
Definition run_collection (world : Z -> Kubectl.snapshot) (self : QueueTimeStatsCollector)
  : execution :=
  match Py.int_truediv (duration_mins self * 60) (interval_secs self) with
  | Py.Raise e => {| collector := self; trace := []; raised := Some e |}
  | Py.Ok iterations => iterate world iterations (Py.range1 iterations) self []
  end.

(** ** The namespace table of [generate_statistics] *)

(** A row of [ns_stats].  [StdQueueTime] (a square root, in floating
    point) and the display columns derived from the three queue times
    are left out. *)
Record NamespaceStats : Type := {
  ns_Namespace : string;
  PodCount : nat;
  AvgQueueTime : Q;
  MaxQueueTime : Z;
  MinQueueTime : Z
}.

Definition agg (g : PandasSeries.group (Row := Row)) : NamespaceStats :=
  let '(namespace, (row, rows)) := g in
  let x := QueueTime row in
  let xs := map QueueTime rows in
  {| ns_Namespace := namespace;
     PodCount := PandasSeries.nunique (map Pod (row :: rows));
     AvgQueueTime := PandasSeries.mean x xs;
     MaxQueueTime := PandasSeries.max x xs;
     MinQueueTime := PandasSeries.min x xs |}.

(** [groupby('Namespace').agg(...).reset_index()], then
    [sort_values('AvgQueueTime', ascending=False)]. *)
Definition ns_stats {by_AvgQueueTime : SortValues AvgQueueTime Qge_bool}
  (all_data : DataFrame Row) : DataFrame NamespaceStats :=
  sort_values by_AvgQueueTime (map agg (PandasSeries.groupby Namespace all_data)).

(** ** The run coordinator of the web application *)

Inductive run_state : Type := running | completed | failed.

Record run : Type := {
  id : Z;
  duration : Z;
  interval : Z;
  run_logs : list message;
  status : run_state;
  error : option Py.exn;
  excel_path : option string
}.

(** The global [collection_status]. *)
Record collection_status : Type := {
  active : bool;
  current_run : option run;
  recent_runs : list run
}.


Inductive started : Type :=
| AlreadyInProgress         (* {"error": "Collection already in progress"} *)
| Started (run_id : Z).     (* {"success": True, ..., "run_id": run_id}    *)




(** ** The other tables of [generate_statistics] *)

(** The overall statistics. *)
Record Overall : Type := {
  total_pods : nat;
  total_namespaces : nat;
  overall_avg : Q;
  overall_max : Z;
  max_ns : string;
  max_pod : string
}.

Definition overall (row : Row) (rows : list Row) : Overall :=
  let all_data := row :: rows in
  let top := PandasSeries.idxmax QueueTime row rows in
  {| total_pods := PandasSeries.nunique (map Pod all_data);
     total_namespaces := PandasSeries.nunique (map Namespace all_data);
     overall_avg := PandasSeries.mean (QueueTime row) (map QueueTime rows);
     overall_max := PandasSeries.max (QueueTime row) (map QueueTime rows);
     max_ns := Namespace top;
     max_pod := Pod top |}.

(** The key of [drop_duplicates(['Namespace', 'Pod'])]. *)
Definition namespace_and_pod (row : Row) : string * string :=
  (Namespace row, Pod row).

Definition same_pod (a b : string * string) : bool :=
  String.eqb (fst a) (fst b) && String.eqb (snd a) (snd b).

(** [all_data.sort_values('QueueTime', ascending=False)
      .drop_duplicates(['Namespace', 'Pod']).head(10)] *)
Definition top_pods {by_QueueTime : SortValues QueueTime Z.geb}
  (all_data : DataFrame Row) : DataFrame Row :=
  firstn 10
    (drop_duplicates namespace_and_pod same_pod (sort_values by_QueueTime all_data)).

Record statistics : Type := {
  stats_overall : Overall;
  stats_by_namespace : DataFrame NamespaceStats;
  stats_top_pods : DataFrame Row
}.

(** [generate_statistics], from [all_data] to the three tables that it
    logs and saves; [None] is the early return on an empty [all_data].
    The rendering of the tables (log lines, CSV, text and Excel files) is
    left out. *)
Definition generate_statistics
  {by_AvgQueueTime : SortValues AvgQueueTime Qge_bool}
  {by_QueueTime : SortValues QueueTime Z.geb}
  (self : QueueTimeStatsCollector) : option statistics :=
  match all_data self with
  | [] => None
  | row :: rows =>
      Some {| stats_overall := overall row rows;
              stats_by_namespace := ns_stats (all_data self);
              stats_top_pods := top_pods (all_data self) |}
  end.

End Webapp.

(* ================================================================== *)
(** * Properties                                                      *)
(* ================================================================== *)

(** ** Sorting by insertion meets the [sort_values] interface *)

Section InsertionSort.
Context {Row K : Type} (by_col : Row -> K) (le before : K -> K -> bool).
Hypothesis le_trans : forall a b c, le a b = true -> le b c = true -> le a c = true.
Hypothesis before_le : forall a b, before a b = true -> le a b = true.
Hypothesis not_before_le : forall a b, before a b = false -> le b a = true.

Let R := Pandas.ordered_on by_col le.

Lemma insert_row_perm (r : Row) (df : list Row) :
  Permutation (r :: df) (Pandas.insert_row by_col before r df).
Proof.
  induction df as [|x rest IH]; simpl.
  - apply Permutation_refl.
  - destruct (before (by_col r) (by_col x)).
    + apply Permutation_refl.
    + eapply perm_trans; [apply perm_swap|]. now apply perm_skip.
Qed.

Lemma insert_row_HdRel (a r : Row) (df : list Row) :
  R a r -> HdRel R a df -> HdRel R a (Pandas.insert_row by_col before r df).
Proof.
  intros Har Hhd. destruct df as [|x rest]; simpl.
  - now constructor.
  - destruct (before (by_col r) (by_col x)); constructor; trivial.
    now inversion Hhd.
Qed.

Lemma insert_row_sorted (r : Row) (df : list Row) :
  Sorted R df -> Sorted R (Pandas.insert_row by_col before r df).
Proof.
  induction 1 as [|x rest Hs IH Hhd]; simpl.
  - repeat constructor.
  - destruct (before (by_col r) (by_col x)) eqn:E.
    + constructor; [now constructor|]. constructor. now apply before_le.
    + constructor; [exact IH|].
      apply insert_row_HdRel; [now apply not_before_le | exact Hhd].
Qed.

Lemma insertion_sort_perm (df : list Row) :
  Permutation df (Pandas.insertion_sort by_col before df).
Proof.
  induction df as [|r rest IH]; simpl.
  - constructor.
  - eapply perm_trans; [apply perm_skip, IH | apply insert_row_perm].
Qed.

Lemma insertion_sort_sorted (df : list Row) :
  StronglySorted R (Pandas.insertion_sort by_col before df).
Proof.
  apply Sorted_StronglySorted.
  - intros a b c. unfold R, Pandas.ordered_on. apply le_trans.
  - induction df as [|r rest IH]; simpl; [constructor | now apply insert_row_sorted].
Qed.

(** Sorting by insertion, as an implementation of [sort_values]. *)
Definition insertion_sorter : Pandas.SortValues by_col le :=
  {| Pandas.sort_values := Pandas.insertion_sort by_col before;
     Pandas.sort_values_perm := insertion_sort_perm;
     Pandas.sort_values_sorted := insertion_sort_sorted |}.
End InsertionSort.

(** ** The default [sort_values] meets the interface *)

Lemma rearranges_perm (indexer : list nat) (n : nat) :
  Sorting.rearranges indexer n = true -> Permutation (seq 0 n) indexer.
Proof.
  unfold Sorting.rearranges. intros H. apply andb_true_iff in H. destruct H as [Hlen Hall].
  apply Nat.eqb_eq in Hlen.
  apply NoDup_Permutation_bis.
  - apply seq_NoDup.
  - rewrite length_seq. lia.
  - intros i Hi. rewrite forallb_forall in Hall. specialize (Hall i Hi).
    apply existsb_exists in Hall. destruct Hall as (j & Hj & Hij).
    apply Nat.eqb_eq in Hij. now subst.
Qed.

Lemma take_from {Row : Type} (before df : list Row) :
  Sorting.take (seq (List.length before) (List.length df)) (before ++ df) = df.
Proof.
  revert before. induction df as [|r rest IH]; intros before; [reflexivity|].
  simpl. unfold Sorting.take in *. simpl.
  rewrite nth_error_app2 by lia. rewrite Nat.sub_diag. simpl. f_equal.
  specialize (IH (before ++ [r])).
  rewrite length_app, <- app_assoc in IH. simpl in IH.
  now rewrite Nat.add_1_r in IH.
Qed.

Lemma take_all {Row : Type} (df : list Row) :
  Sorting.take (seq 0 (List.length df)) df = df.
Proof. exact (take_from [] df). Qed.

Lemma take_rearranged {Row : Type} (indexer : list nat) (df : list Row) :
  Sorting.rearranges indexer (List.length df) = true ->
  Permutation df (Sorting.take indexer df).
Proof.
  intros H. apply rearranges_perm in H.
  rewrite <- (take_all df) at 1. unfold Sorting.take.
  now apply Permutation_flat_map.
Qed.

Section QuicksortSorter.
Context {Row K : Type} (by_col : Row -> K) (le less : K -> K -> bool) (ascending : bool).
Hypothesis le_trans : forall a b c, le a b = true -> le b c = true -> le a c = true.
Hypothesis le_total : forall a b, le a b = false -> le b a = true.

Lemma in_order_sorted (df : list Row) :
  Sorting.in_order le (map by_col df) = true ->
  StronglySorted (Pandas.ordered_on by_col le) df.
Proof.
  intros H. apply Sorted_StronglySorted.
  - intros a b c. unfold Pandas.ordered_on. apply le_trans.
  - induction df as [|x [|y rest] IH]; [constructor | repeat constructor |].
    simpl in H. apply andb_true_iff in H. destruct H as [Hxy Hrest].
    constructor; [now apply IH | now constructor].
Qed.

Lemma sort_values_quicksort_perm (df : list Row) :
  Permutation df (Sorting.sort_values_quicksort by_col le less ascending df).
Proof.
  unfold Sorting.sort_values_quicksort.
  destruct (Sorting.rearranges _ _) eqn:Hr; simpl.
  - destruct (Sorting.in_order _ _); [now apply take_rearranged|].
    apply insertion_sort_perm.
  - apply insertion_sort_perm.
Qed.

Lemma sort_values_quicksort_sorted (df : list Row) :
  StronglySorted (Pandas.ordered_on by_col le)
    (Sorting.sort_values_quicksort by_col le less ascending df).
Proof.
  unfold Sorting.sort_values_quicksort.
  destruct (Sorting.rearranges _ _); simpl.
  - destruct (Sorting.in_order _ _) eqn:Ho; [now apply in_order_sorted|].
    now apply insertion_sort_sorted.
  - now apply insertion_sort_sorted.
Qed.

(** [sort_values] with the default [kind], as an implementation of the
    interface. *)
Definition quicksort_sorter : Pandas.SortValues by_col le :=
  {| Pandas.sort_values := Sorting.sort_values_quicksort by_col le less ascending;
     Pandas.sort_values_perm := sort_values_quicksort_perm;
     Pandas.sort_values_sorted := sort_values_quicksort_sorted |}.
End QuicksortSorter.

(** The stable sort and the default sort on [Timestamp] in ascending
    order ... *)
Definition stable_by_Timestamp : Pandas.SortValues Monitor.Timestamp Z.leb.
Proof.
  refine (insertion_sorter Monitor.Timestamp Z.leb Z.leb _ _ _); intros; lia.
Defined.

Definition quicksort_by_Timestamp : Pandas.SortValues Monitor.Timestamp Z.leb.
Proof.
  refine (quicksort_sorter Monitor.Timestamp Z.leb Sorting.datetime_less true _ _);
    intros; lia.
Defined.

Lemma Qge_bool_trans (a b c : Q) :
  Pandas.Qge_bool a b = true -> Pandas.Qge_bool b c = true -> Pandas.Qge_bool a c = true.
Proof.
  unfold Pandas.Qge_bool. rewrite !Qle_bool_iff. intros H1 H2.
  now apply Qle_trans with b.
Qed.

Lemma Qge_bool_total (a b : Q) :
  Pandas.Qge_bool a b = false -> Pandas.Qge_bool b a = true.
Proof.
  unfold Pandas.Qge_bool. intros H. apply Qle_bool_iff. apply Qlt_le_weak.
  apply Qnot_le_lt. intros Hle. apply Qle_bool_iff in Hle. congruence.
Qed.

(** ... and on a column of means in descending order. *)
Definition stable_descending {Row : Type} (col : Row -> Q)
  : Pandas.SortValues col Pandas.Qge_bool :=
  insertion_sorter col Pandas.Qge_bool Pandas.Qge_bool
    Qge_bool_trans (fun a b H => H) Qge_bool_total.

Definition quicksort_descending {Row : Type} (col : Row -> Q)
  : Pandas.SortValues col Pandas.Qge_bool :=
  quicksort_sorter col Pandas.Qge_bool Sorting.double_less false
    Qge_bool_trans Qge_bool_total.

(** ** [drop_duplicates] keeps the first row of every key *)

Section DropDuplicatesFacts.
Context {Row K : Type} (subset : Row -> K) (eqb : K -> K -> bool).
Hypothesis eqb_eq : forall a b, eqb a b = true <-> a = b.

Lemma seen_spec (k : K) (seen : list K) :
  existsb (eqb k) seen = true <-> In k seen.
Proof.
  rewrite existsb_exists. split.
  - intros [x [Hin Heq]]. apply eqb_eq in Heq. now subst.
  - intros Hin. exists k. split; [exact Hin | now apply eqb_eq].
Qed.

Lemma seen_false (k : K) (seen : list K) :
  existsb (eqb k) seen = false <-> ~ In k seen.
Proof.
  rewrite <- seen_spec. destruct (existsb (eqb k) seen); split; congruence.
Qed.

Lemma drop_duplicates_from_In (seen : list K) (df : list Row) (r : Row) :
  In r (Pandas.drop_duplicates_from subset eqb seen df) ->
  In r df /\ ~ In (subset r) seen.
Proof.
  revert seen. induction df as [|x rest IH]; simpl; intros seen Hin; [easy|].
  destruct (existsb (eqb (subset x)) seen) eqn:E.
  - apply IH in Hin. tauto.
  - destruct Hin as [-> | Hin].
    + split; [now left | now apply seen_false].
    + apply IH in Hin. simpl in Hin. tauto.
Qed.

Lemma drop_duplicates_from_NoDup (seen : list K) (df : list Row) :
  NoDup (map subset (Pandas.drop_duplicates_from subset eqb seen df)).
Proof.
  revert seen. induction df as [|x rest IH]; simpl; intros seen; [constructor|].
  destruct (existsb (eqb (subset x)) seen); [apply IH|].
  simpl. constructor; [|apply IH].
  rewrite in_map_iff. intros [y [Hy Hin]].
  apply drop_duplicates_from_In in Hin. rewrite Hy in Hin. simpl in Hin. tauto.
Qed.

Lemma drop_duplicates_from_keys (seen : list K) (df : list Row) (k : K) :
  In k (map subset df) -> ~ In k seen ->
  In k (map subset (Pandas.drop_duplicates_from subset eqb seen df)).
Proof.
  revert seen. induction df as [|x rest IH]; simpl; intros seen Hin Hseen; [easy|].
  destruct (existsb (eqb (subset x)) seen) eqn:E.
  - apply seen_spec in E. destruct Hin as [<- | Hin]; [contradiction | now apply IH].
  - simpl. destruct (eqb (subset x) k) eqn:Ek.
    + left. now apply eqb_eq.
    + right. destruct Hin as [Heq | Hin].
      * apply eqb_eq in Heq. congruence.
      * apply IH; [exact Hin|]. simpl. intros [Heq | Hs]; [|contradiction].
        apply eqb_eq in Heq. congruence.
Qed.

(** A kept row is the first of its key in the frame. *)
Lemma drop_duplicates_from_first (seen : list K) (df : list Row) (r : Row) :
  In r (Pandas.drop_duplicates_from subset eqb seen df) ->
  exists before after,
    df = before ++ r :: after /\
    forall x, In x before -> subset x <> subset r.
Proof.
  revert seen. induction df as [|x rest IH]; simpl; intros seen Hin; [easy|].
  destruct (existsb (eqb (subset x)) seen) eqn:E.
  - pose proof (drop_duplicates_from_In _ _ _ Hin) as [_ Hns].
    apply IH in Hin. destruct Hin as (b & a & -> & Hb).
    exists (x :: b), a. split; [reflexivity|].
    intros y [<- | Hy]; [|now apply Hb].
    apply seen_spec in E. congruence.
  - destruct Hin as [-> | Hin].
    + exists [], rest. split; [reflexivity | easy].
    + pose proof (drop_duplicates_from_In _ _ _ Hin) as [_ Hns].
      apply IH in Hin. destruct Hin as (b & a & -> & Hb).
      exists (x :: b), a. split; [reflexivity|].
      intros y [<- | Hy]; [|now apply Hb].
      simpl in Hns. intros Heq. apply Hns. now left.
Qed.

(** On a frame without duplicates nothing is dropped. *)
Lemma drop_duplicates_from_id (seen : list K) (df : list Row) :
  NoDup (map subset df) ->
  (forall x, In x df -> ~ In (subset x) seen) ->
  Pandas.drop_duplicates_from subset eqb seen df = df.
Proof.
  revert seen. induction df as [|x rest IH]; simpl; intros seen Hnd Hseen; [reflexivity|].
  inversion Hnd as [|? ? Hx Hrest]; subst.
  assert (E : existsb (eqb (subset x)) seen = false)
    by (apply seen_false, Hseen; now left).
  rewrite E. f_equal. apply IH; [exact Hrest|].
  intros y Hy [Heq | Hs].
  - apply Hx. rewrite Heq. now apply in_map.
  - apply (Hseen y); [now right | exact Hs].
Qed.

Lemma drop_duplicates_In (df : list Row) (r : Row) :
  In r (Pandas.drop_duplicates subset eqb df) -> In r df.
Proof. intros H. now apply drop_duplicates_from_In in H. Qed.

Lemma drop_duplicates_NoDup (df : list Row) :
  NoDup (map subset (Pandas.drop_duplicates subset eqb df)).
Proof. apply drop_duplicates_from_NoDup. Qed.

Lemma drop_duplicates_keys (df : list Row) (k : K) :
  In k (map subset (Pandas.drop_duplicates subset eqb df)) <-> In k (map subset df).
Proof.
  split.
  - rewrite !in_map_iff. intros [r [Hk Hin]]. exists r.
    split; [exact Hk | now apply drop_duplicates_In].
  - intros Hin. now apply drop_duplicates_from_keys.
Qed.

Lemma drop_duplicates_id (df : list Row) :
  NoDup (map subset df) -> Pandas.drop_duplicates subset eqb df = df.
Proof. intros H. now apply drop_duplicates_from_id. Qed.

(** As many rows as there are distinct keys. *)
Lemma drop_duplicates_length (dec : forall a b : K, {a = b} + {a <> b}) (df : list Row) :
  List.length (Pandas.drop_duplicates subset eqb df) =
  List.length (nodup dec (map subset df)).
Proof.
  rewrite <- (length_map subset).
  apply Permutation_length, NoDup_Permutation.
  - apply drop_duplicates_NoDup.
  - apply NoDup_nodup.
  - intros k. rewrite nodup_In. apply drop_duplicates_keys.
Qed.
End DropDuplicatesFacts.

(** ** The sampler: [collect_queue_times] *)

Lemma contains_spec (xs : list string) (x : string) :
  Py.contains xs x = true <-> In x xs.
Proof. unfold Py.contains. apply seen_spec, String.eqb_eq. Qed.

Lemma contains_false (xs : list string) (x : string) :
  Py.contains xs x = false <-> ~ In x xs.
Proof. unfold Py.contains. apply seen_false, String.eqb_eq. Qed.

(** Case analysis along the chain of look-ups of [process_pod]. *)
Ltac along_pod H :=
  repeat match type of H with
    | context [Py.getitem ?f] => destruct f; simpl in H; try discriminate
    | context [Kubectl.to_datetime _] => unfold Kubectl.to_datetime in H
    | context [match Kubectl.instant ?t with _ => _ end] =>
        destruct (Kubectl.instant t); simpl in H; try discriminate
    | context [match Kubectl.startTime ?p with _ => _ end] =>
        destruct (Kubectl.startTime p); simpl in H; try discriminate
    | context [Py.contains ?xs ?x] =>
        let E := fresh "Excluded" in
        destruct (Py.contains xs x) eqn:E; simpl in H; try discriminate
    | context [?a >? ?b] =>
        let E := fresh "Ceiling" in
        destruct (a >? b) eqn:E; simpl in H; try discriminate
    end.

(** What the sampler lets through: a namespace that is not excluded and
    a queue time that is not above the ceiling. *)
Definition passes (exclude : list string) (namespace : string) (queue_time : Z) : Prop :=
  ~ In namespace exclude /\ queue_time <= ceiling_seconds.

Lemma Monitor_process_pod_passes exclude timestamp pod row :
  Monitor.process_pod exclude timestamp pod = Py.Ok (Some row) ->
  passes exclude (Monitor.Namespace row) (Monitor.QueueTime row).
Proof.
  unfold Monitor.process_pod. intros H. along_pod H.
  injection H as <-. simpl. split; [now apply contains_false | lia].
Qed.

Lemma Monitor_for_each_pod_passes exclude timestamp items queue_times df :
  Monitor.for_each_pod exclude timestamp items queue_times = Py.Ok df ->
  Forall (fun s => passes exclude (Monitor.Namespace s) (Monitor.QueueTime s)) queue_times ->
  Forall (fun s => passes exclude (Monitor.Namespace s) (Monitor.QueueTime s)) df.
Proof.
  revert queue_times. induction items as [|pod rest IH]; simpl; intros acc H Hacc.
  - now injection H as <-.
  - destruct (Monitor.process_pod exclude timestamp pod) as [[row|]|e] eqn:E;
      simpl in H; try discriminate.
    + apply (IH _ H). apply Forall_app. split; [exact Hacc|].
      constructor; [|constructor]. now apply Monitor_process_pod_passes in E.
    + now apply (IH _ H).
Qed.

Lemma Monitor_collect_passes world self :
  Forall (fun s => passes (Monitor.exclude_namespaces self)
                     (Monitor.Namespace s) (Monitor.QueueTime s))
    (fst (Monitor.collect_queue_times world self)).
Proof.
  unfold Monitor.collect_queue_times.
  destruct (Monitor.try_collect _ world) as [df|e] eqn:E; simpl; [|constructor].
  unfold Monitor.try_collect in E.
  destruct (Kubectl.items_of _); simpl in E; [|discriminate].
  eapply Monitor_for_each_pod_passes; [exact E | constructor].
Qed.

Lemma Webapp_process_pod_passes exclude timestamp pod row :
  Webapp.process_pod exclude timestamp pod = Py.Ok (Webapp.Append row) ->
  passes exclude (Webapp.Namespace row) (Webapp.QueueTime row).
Proof.
  unfold Webapp.process_pod. intros H. along_pod H.
  injection H as <-. simpl. split; [now apply contains_false | lia].
Qed.

Lemma Webapp_for_each_pod_passes exclude timestamp items queue_times logged logged' df :
  Webapp.for_each_pod exclude timestamp items queue_times logged = (logged', Py.Ok df) ->
  Forall (fun s => passes exclude (Webapp.Namespace s) (Webapp.QueueTime s)) queue_times ->
  Forall (fun s => passes exclude (Webapp.Namespace s) (Webapp.QueueTime s)) df.
Proof.
  revert queue_times logged.
  induction items as [|pod rest IH]; simpl; intros acc logged H Hacc.
  - now injection H as _ <-.
  - destruct (Webapp.process_pod exclude timestamp pod) as [[|m|row]|e] eqn:E;
      try discriminate.
    + now apply (IH _ _ H).
    + now apply (IH _ _ H).
    + apply (IH _ _ H). apply Forall_app. split; [exact Hacc|].
      constructor; [|constructor]. now apply Webapp_process_pod_passes in E.
Qed.

Lemma Webapp_collect_passes world self :
  Forall (fun s => passes (Webapp.exclude_namespaces self)
                     (Webapp.Namespace s) (Webapp.QueueTime s))
    (fst (Webapp.collect_queue_times world self)).
Proof.
  unfold Webapp.collect_queue_times.
  destruct (Webapp.try_collect world self) as [logged [df|e]] eqn:E; simpl; [|constructor].
  unfold Webapp.try_collect in E.
  destruct (Kubectl.items_of _); [|discriminate].
  eapply Webapp_for_each_pod_passes; [exact E | constructor].
Qed.

(** A pod that started ten seconds before it was created, as a skewed
    clock can report it. *)
Definition started_before_created : Kubectl.pod :=
  {| Kubectl.namespace := Some "default"%string;
     Kubectl.name := Some "web-0"%string;
     Kubectl.uid := Some "7d1c"%string;
     Kubectl.creationTimestamp :=
       Some {| Kubectl.text := "2024-01-01T00:00:10Z"; Kubectl.instant := Some 1704067210 |};
     Kubectl.startTime :=
       Some {| Kubectl.text := "2024-01-01T00:00:00Z"; Kubectl.instant := Some 1704067200 |} |}.

Definition skewed_cluster : Kubectl.snapshot :=
  {| Kubectl.answer := Kubectl.Parsed (Some [started_before_created]);
     Kubectl.clock := 1704067260 |}.

(** The sampler's filter as the specification words it: not excluded,
    and a queue time between zero and the ceiling. *)
Definition within_bounds (exclude : list string) (namespace : string) (queue_time : Z) : Prop :=
  ~ In namespace exclude /\ 0 <= queue_time <= ceiling_seconds.

(** C1, as stated, fails: the pod [started_before_created] is emitted by
    both samplers with a queue time of -10 seconds; nothing in
    [collect_queue_times] looks at the sign. *)
Lemma sampler_emits_negative_queue_time :
  ~ Forall (fun s => within_bounds (Monitor.exclude_namespaces (Monitor.init None None))
                       (Monitor.Namespace s) (Monitor.QueueTime s))
      (fst (Monitor.collect_queue_times skewed_cluster (Monitor.init None None)))
  /\
  ~ Forall (fun s => within_bounds (Webapp.exclude_namespaces (Webapp.init 5 60 None))
                       (Webapp.Namespace s) (Webapp.QueueTime s))
      (fst (Webapp.collect_queue_times skewed_cluster (Webapp.init 5 60 None))).
Proof.
  split; intros H; inversion H as [|s l [_ [Hneg _]] _]; subst;
    vm_compute in Hneg; now apply Hneg.
Qed.

(** C1 (amended): for every answer of the cluster, the rows that
    [collect_queue_times] returns, in the monitor and in the web
    application, have a namespace outside the exclusion list and a queue
    time of at most 30 days.  There is no lower bound: a started pod
    outside the exclusion list whose queue time is at most 30 days is
    emitted with that queue time, negative ones included. *)
Theorem sampler_excludes_and_caps :
  (forall world self,
     Forall (fun s => passes (Monitor.exclude_namespaces self)
                        (Monitor.Namespace s) (Monitor.QueueTime s))
       (fst (Monitor.collect_queue_times world self)))
  /\
  (forall world self,
     Forall (fun s => passes (Webapp.exclude_namespaces self)
                        (Webapp.Namespace s) (Webapp.QueueTime s))
       (fst (Webapp.collect_queue_times world self)))
  /\
  (forall exclude timestamp namespace pod_name pod_uid created started,
     ~ In namespace exclude ->
     started - created <= ceiling_seconds ->
     forall created_text started_text,
     let pod :=
       {| Kubectl.namespace := Some namespace;
          Kubectl.name := Some pod_name;
          Kubectl.uid := Some pod_uid;
          Kubectl.creationTimestamp :=
            Some {| Kubectl.text := created_text; Kubectl.instant := Some created |};
          Kubectl.startTime :=
            Some {| Kubectl.text := started_text; Kubectl.instant := Some started |} |} in
     (exists row, Monitor.process_pod exclude timestamp pod = Py.Ok (Some row)
                  /\ Monitor.QueueTime row = started - created)
     /\
     (exists row, Webapp.process_pod exclude timestamp pod = Py.Ok (Webapp.Append row)
                  /\ Webapp.QueueTime row = started - created)).
Proof.
  split; [exact Monitor_collect_passes|].
  split; [exact Webapp_collect_passes|].
  intros exclude timestamp namespace pod_name pod_uid created started Hns Hceil ct st pod.
  apply contains_false in Hns.
  assert (Hgt : (started - created >? ceiling_seconds) = false) by lia.
  unfold Monitor.process_pod, Webapp.process_pod, pod; simpl.
  rewrite Hns, Hgt. split; eexists; split; reflexivity.
Qed.

Lemma sampler_excludes_and_caps_witness :
  (exists row,
     Monitor.process_pod ["kube-system"%string] 1704067260 started_before_created
       = Py.Ok (Some row)
     /\ Monitor.QueueTime row = -10)
  /\
  Forall (fun s => passes ["kube-system"%string] (Monitor.Namespace s) (Monitor.QueueTime s))
    (fst (Monitor.collect_queue_times skewed_cluster (Monitor.init None None))).
Proof.
  destruct sampler_excludes_and_caps as (Hm & _ & Hp).
  split.
  - refine (proj1 (Hp ["kube-system"%string] 1704067260 "default"%string "web-0"%string
                      "7d1c"%string 1704067210 1704067200 _ _
                      "2024-01-01T00:00:10Z"%string "2024-01-01T00:00:00Z"%string)).
    + simpl. intros [H|[]]. discriminate.
    + vm_compute. discriminate.
  - exact (Hm skewed_cluster (Monitor.init None None)).
Defined.

(** ** Failures of the data source *)

Definition raises {A : Type} (r : Py.result A) : Prop := exists e, r = Py.Raise e.

(** The answers on which the [try] block cannot complete: the command
    failed, its output is not JSON, the payload has no ['items'], or one
    of the items cannot be read by [process]. *)
Definition unusable {A : Type} (process : Kubectl.pod -> Py.result A)
  (answer : Kubectl.response) : Prop :=
  match answer with
  | Kubectl.NonzeroExit | Kubectl.NotJson | Kubectl.Parsed None => True
  | Kubectl.Parsed (Some items) => exists pod, In pod items /\ raises (process pod)
  end.

Lemma Monitor_for_each_pod_raises exclude timestamp items pod queue_times :
  In pod items -> raises (Monitor.process_pod exclude timestamp pod) ->
  raises (Monitor.for_each_pod exclude timestamp items queue_times).
Proof.
  revert queue_times. induction items as [|p rest IH]; simpl; intros acc Hin Hr; [easy|].
  destruct (Monitor.process_pod exclude timestamp p) as [row|e] eqn:E; simpl.
  - destruct Hin as [-> | Hin]; [|now apply IH].
    destruct Hr as [e He]. congruence.
  - now exists e.
Qed.

Lemma Monitor_try_collect_raises exclude answer clock :
  unusable (Monitor.process_pod exclude clock) answer ->
  raises (Monitor.try_collect exclude {| Kubectl.answer := answer; Kubectl.clock := clock |}).
Proof.
  unfold Monitor.try_collect. simpl.
  destruct answer as [| |[items|]]; simpl; intros H; try (eexists; reflexivity).
  destruct H as (pod & Hin & Hr). now apply Monitor_for_each_pod_raises with pod.
Qed.

Lemma Webapp_for_each_pod_raises exclude timestamp items pod queue_times logged :
  In pod items -> raises (Webapp.process_pod exclude timestamp pod) ->
  raises (snd (Webapp.for_each_pod exclude timestamp items queue_times logged)).
Proof.
  revert queue_times logged.
  induction items as [|p rest IH]; simpl; intros acc logged Hin Hr; [easy|].
  destruct (Webapp.process_pod exclude timestamp p) as [[|m|row]|e] eqn:E; simpl;
    try (now exists e);
    (destruct Hin as [-> | Hin]; [destruct Hr as [e He]; congruence | now apply IH]).
Qed.

Lemma Webapp_try_collect_raises answer clock self :
  unusable (Webapp.process_pod (Webapp.exclude_namespaces self) clock) answer ->
  raises (snd (Webapp.try_collect {| Kubectl.answer := answer; Kubectl.clock := clock |} self)).
Proof.
  unfold Webapp.try_collect. simpl.
  destruct answer as [| |[items|]]; simpl; intros H; try (eexists; reflexivity).
  destruct H as (pod & Hin & Hr). now apply Webapp_for_each_pod_raises with pod.
Qed.

Definition at_clock (clock : Z) (answer : Kubectl.response) : Kubectl.snapshot :=
  {| Kubectl.answer := answer; Kubectl.clock := clock |}.

(** C6, as stated, fails: when the command exits with a nonzero status
    both samplers return the empty frame, which is also what they return
    for a cluster without pods. *)
Lemma failure_returns_the_empty_snapshot :
  fst (Monitor.collect_queue_times (at_clock 1704067260 Kubectl.NonzeroExit)
         (Monitor.init None None))
  = fst (Monitor.collect_queue_times (at_clock 1704067260 (Kubectl.Parsed (Some [])))
           (Monitor.init None None))
  /\
  fst (Webapp.collect_queue_times (at_clock 1704067260 Kubectl.NonzeroExit)
         (Webapp.init 5 60 None))
  = fst (Webapp.collect_queue_times (at_clock 1704067260 (Kubectl.Parsed (Some [])))
           (Webapp.init 5 60 None)).
Proof. split; reflexivity. Qed.

(** The messages of the web application that report an error, and the
    message of a pod above the ceiling. *)
Definition is_error (m : Webapp.message) : bool :=
  match m with
  | Webapp.ErrorRunningKubectl | Webapp.CommandOutput
  | Webapp.ErrorParsingJson | Webapp.UnexpectedError _ => true
  | _ => false
  end.

Definition is_skip (m : Webapp.message) : bool :=
  match m with
  | Webapp.SkippingPod _ _ _ => true
  | _ => false
  end.

Lemma Webapp_for_each_pod_skipped exclude timestamp items queue_times logged :
  exists skipped,
    fst (Webapp.for_each_pod exclude timestamp items queue_times logged) = logged ++ skipped
    /\ forallb is_skip skipped = true.
Proof.
  revert queue_times logged.
  induction items as [|pod rest IH]; simpl; intros acc logged.
  - exists []. now rewrite app_nil_r.
  - destruct (Webapp.process_pod exclude timestamp pod) as [[|m|row]|e] eqn:E; simpl.
    + apply IH.
    + destruct (IH acc (logged ++ [m])) as (skipped & Hs & Hall).
      exists (m :: skipped). rewrite Hs, <- app_assoc. split; [reflexivity|].
      simpl. rewrite Hall, andb_true_r.
      unfold Webapp.process_pod in E.
      destruct (Kubectl.namespace pod); simpl in E; [|discriminate].
      destruct (Py.contains exclude _); [discriminate|].
      destruct (Kubectl.startTime pod); [|discriminate].
      destruct (Kubectl.name pod); simpl in E; [|discriminate].
      destruct (Kubectl.creationTimestamp pod); simpl in E; [|discriminate].
      destruct (Kubectl.to_datetime _); simpl in E; [|discriminate].
      destruct (Kubectl.to_datetime _); simpl in E; [|discriminate].
      destruct (_ >? _); [|discriminate].
      now injection E as <-.
    + apply IH.
    + exists []. now rewrite app_nil_r.
Qed.

Lemma handle_reports (e : Py.exn) (self : Webapp.QueueTimeStatsCollector) :
  exists errors,
    Webapp.logs (Webapp.handle e self) = Webapp.logs self ++ errors
    /\ errors <> []
    /\ forallb is_error errors = true
    /\ Webapp.all_data (Webapp.handle e self) = Webapp.all_data self
    /\ Webapp.duration_mins (Webapp.handle e self) = Webapp.duration_mins self
    /\ Webapp.interval_secs (Webapp.handle e self) = Webapp.interval_secs self
    /\ Webapp.exclude_namespaces (Webapp.handle e self) = Webapp.exclude_namespaces self.
Proof.
  destruct e; simpl;
    try (exists [Webapp.ErrorRunningKubectl; Webapp.CommandOutput];
         rewrite <- app_assoc; repeat split; discriminate);
    (eexists [_]; repeat split; discriminate).
Qed.

(** C6 (amended): when the data source fails (nonzero exit, output that
    is not JSON, a payload without items or with an item that cannot be
    read), [collect_queue_times] returns the empty frame, whatever rows it
    had gathered before the failure, and reports the error: the monitor
    prints one line, [Error collecting queue times], on its output; the
    web application appends to its log, after the message of the command
    and the messages of the pods it had skipped, the error messages of
    the [except] clause (two for a nonzero exit, one otherwise).  For a
    valid snapshot without pods both return the same empty frame and
    report no error: the monitor prints nothing, the web application
    logs the message of the command only.  The two cases differ in the
    messages, not in the value returned, and in nothing else. *)
Theorem failure_yields_empty_frame_and_error_message
  (clock : Z) (answer : Kubectl.response)
  (m : Monitor.QueueTimeCollector) (w : Webapp.QueueTimeStatsCollector) :
  (unusable (Monitor.process_pod (Monitor.exclude_namespaces m) clock) answer ->
   exists e, Monitor.collect_queue_times (at_clock clock answer) m
             = ([], Monitor.print (Monitor.ErrorCollecting e) m)
             /\ Monitor.stdout (snd (Monitor.collect_queue_times (at_clock clock answer) m))
                = Monitor.stdout m ++ [Monitor.ErrorCollecting e])
  /\
  (unusable (Webapp.process_pod (Webapp.exclude_namespaces w) clock) answer ->
   let after := snd (Webapp.collect_queue_times (at_clock clock answer) w) in
   fst (Webapp.collect_queue_times (at_clock clock answer) w) = []
   /\ (exists skipped errors,
         Webapp.logs after
         = Webapp.logs w ++ Webapp.RunningCommand :: skipped ++ errors
         /\ forallb is_skip skipped = true
         /\ errors <> []
         /\ forallb is_error errors = true)
   /\ Webapp.all_data after = Webapp.all_data w
   /\ Webapp.duration_mins after = Webapp.duration_mins w
   /\ Webapp.interval_secs after = Webapp.interval_secs w
   /\ Webapp.exclude_namespaces after = Webapp.exclude_namespaces w)
  /\
  Webapp.logs (snd (Webapp.collect_queue_times (at_clock clock Kubectl.NonzeroExit) w))
  = Webapp.logs w
    ++ [Webapp.RunningCommand; Webapp.ErrorRunningKubectl; Webapp.CommandOutput]
  /\
  Webapp.logs (snd (Webapp.collect_queue_times (at_clock clock Kubectl.NotJson) w))
  = Webapp.logs w ++ [Webapp.RunningCommand; Webapp.ErrorParsingJson]
  /\
  Webapp.logs (snd (Webapp.collect_queue_times (at_clock clock (Kubectl.Parsed None)) w))
  = Webapp.logs w ++ [Webapp.RunningCommand; Webapp.UnexpectedError Py.KeyError]
  /\
  Monitor.collect_queue_times (at_clock clock (Kubectl.Parsed (Some []))) m = ([], m)
  /\
  Webapp.collect_queue_times (at_clock clock (Kubectl.Parsed (Some []))) w
  = ([], Webapp.log Webapp.RunningCommand w)
  /\
  Webapp.logs (snd (Webapp.collect_queue_times (at_clock clock (Kubectl.Parsed (Some []))) w))
  = Webapp.logs w ++ [Webapp.RunningCommand]
  /\
  is_error Webapp.RunningCommand = false.
Proof.
  split; [|split].
  - intros H. apply Monitor_try_collect_raises in H. destruct H as [e He].
    exists e. unfold Monitor.collect_queue_times, at_clock. rewrite He.
    split; reflexivity.
  - intros H after. subst after.
    pose proof (Webapp_try_collect_raises _ _ _ H) as Hr.
    unfold Webapp.collect_queue_times, at_clock.
    assert (Hlogged : exists skipped,
               fst (Webapp.try_collect
                      {| Kubectl.answer := answer; Kubectl.clock := clock |} w)
               = Webapp.logs w ++ Webapp.RunningCommand :: skipped
               /\ forallb is_skip skipped = true).
    { unfold Webapp.try_collect. simpl.
      destruct (Kubectl.items_of answer) as [items|e0]; simpl.
      - destruct (Webapp_for_each_pod_skipped (Webapp.exclude_namespaces w) clock items []
                    (Webapp.logs w ++ [Webapp.RunningCommand])) as (skipped & Hs & Hall).
        exists skipped. rewrite Hs, <- app_assoc. now split.
      - exists []. now split. }
    destruct (Webapp.try_collect _ w) as [logged outcome]. simpl in Hr, Hlogged.
    destruct Hr as [e ->]. destruct Hlogged as (skipped & -> & Hall).
    destruct (handle_reports e
                (Webapp.set_logs (Webapp.logs w ++ Webapp.RunningCommand :: skipped) w))
      as (errors & Hl & Hne & Herr & Hd & H1 & H2 & H3).
    simpl. split; [reflexivity|]. split.
    + exists skipped, errors. rewrite Hl. simpl. rewrite <- app_assoc. simpl.
      now repeat split.
    + now repeat split.
  - repeat split; unfold Webapp.collect_queue_times; simpl;
      rewrite <- ?app_assoc; reflexivity.
Qed.

(** A payload whose second pod has no readable creation time. *)
Definition unreadable_pod : Kubectl.pod :=
  {| Kubectl.namespace := Some "default"%string;
     Kubectl.name := Some "web-1"%string;
     Kubectl.uid := Some "9e2f"%string;
     Kubectl.creationTimestamp :=
       Some {| Kubectl.text := "yesterday"; Kubectl.instant := None |};
     Kubectl.startTime :=
       Some {| Kubectl.text := "2024-01-01T00:00:00Z"; Kubectl.instant := Some 1704067200 |} |}.

(** The first pod of the payload is read, the second one raises: the
    row of the first is not returned, and the error is logged. *)
Lemma failure_yields_empty_frame_and_error_message_witness :
  (exists e,
     Monitor.collect_queue_times
       (at_clock 1704067260 (Kubectl.Parsed (Some [started_before_created; unreadable_pod])))
       (Monitor.init None None)
     = ([], Monitor.print (Monitor.ErrorCollecting e) (Monitor.init None None)))
  /\
  fst (Webapp.collect_queue_times
         (at_clock 1704067260 (Kubectl.Parsed (Some [started_before_created; unreadable_pod])))
         (Webapp.init 5 60 None)) = []
  /\
  (exists skipped errors,
     Webapp.logs
       (snd (Webapp.collect_queue_times
               (at_clock 1704067260
                  (Kubectl.Parsed (Some [started_before_created; unreadable_pod])))
               (Webapp.init 5 60 None)))
     = Webapp.logs (Webapp.init 5 60 None) ++ Webapp.RunningCommand :: skipped ++ errors
     /\ forallb is_skip skipped = true
     /\ errors <> []
     /\ forallb is_error errors = true)
  /\
  Webapp.logs
    (snd (Webapp.collect_queue_times
            (at_clock 1704067260
               (Kubectl.Parsed (Some [started_before_created; unreadable_pod])))
            (Webapp.init 5 60 None)))
  = Webapp.logs (Webapp.init 5 60 None)
    ++ [Webapp.RunningCommand; Webapp.UnexpectedError Py.DateParseError].
Proof.
  destruct (failure_yields_empty_frame_and_error_message 1704067260
              (Kubectl.Parsed (Some [started_before_created; unreadable_pod]))
              (Monitor.init None None) (Webapp.init 5 60 None)) as (Hm & Hw & _).
  split; [|split; [|split]].
  - destruct Hm as (e & He & _).
    + exists unreadable_pod. split; [simpl; tauto|].
      exists Py.DateParseError. reflexivity.
    + now exists e.
  - apply Hw. exists unreadable_pod. split; [simpl; tauto|].
    exists Py.DateParseError. reflexivity.
  - apply Hw. exists unreadable_pod. split; [simpl; tauto|].
    exists Py.DateParseError. reflexivity.
  - reflexivity.
Defined.

(** ** The window store of the monitor *)

Definition Sample_eq_dec (a b : Monitor.Sample) : {a = b} + {a <> b}.
Proof. decide equality; (apply string_dec || apply Z.eq_dec). Defined.

(** A stored sample is inside the window at [now] (microseconds) when it
    is not older than seven days. *)
Definition in_window (now : Z) (s : Monitor.Sample) : Prop :=
  now - Monitor.seven_days <= Monitor.micros (Monitor.Timestamp s).

Definition older_than_window (now : Z) (s : Monitor.Sample) : Prop :=
  Monitor.micros (Monitor.Timestamp s) < now - Monitor.seven_days.

Lemma count_occ_filter {A : Type} (dec : forall a b : A, {a = b} + {a <> b})
  (f : A -> bool) (l : list A) (x : A) :
  f x = true -> count_occ dec (filter f l) x = count_occ dec l x.
Proof.
  intros Hx. induction l as [|a l IH]; simpl; [reflexivity|].
  destruct (f a) eqn:Ea; simpl.
  - destruct (dec a x); congruence.
  - destruct (dec a x) as [->|]; congruence.
Qed.

Lemma update_with_rows (new_data : list Monitor.Sample) (now : Z)
  (self : Monitor.QueueTimeCollector) :
  new_data <> [] ->
  Monitor.historical_data (Monitor.update_persistent_storage new_data now self)
  = filter (fun row => Monitor.micros (Monitor.Timestamp row) >=? now - Monitor.seven_days)
      (Monitor.historical_data self ++ new_data)
  /\ Monitor.persistent_db (Monitor.update_persistent_storage new_data now self)
     = Some (Monitor.historical_data (Monitor.update_persistent_storage new_data now self)).
Proof.
  intros Hne. unfold Monitor.update_persistent_storage.
  destruct new_data; [congruence|]. simpl. split; reflexivity.
Qed.

Lemma update_leaves_window_only (new_data : list Monitor.Sample) (now : Z)
  (self : Monitor.QueueTimeCollector) :
  new_data <> [] ->
  Forall (in_window now)
    (Monitor.historical_data (Monitor.update_persistent_storage new_data now self)).
Proof.
  intros Hne. destruct (update_with_rows new_data now self Hne) as [-> _].
  apply Forall_forall. intros s Hs. apply filter_In in Hs.
  unfold in_window. lia.
Qed.

(** C2: when [update_persistent_storage] appends new rows and evicts, no
    sample that it retains is older than [now] minus seven days, and every
    sample of the store or of the new rows that is inside the window is
    retained, as many times as it occurred. *)
Theorem update_evicts_exactly_the_old
  (self : Monitor.QueueTimeCollector) (new_data : list Monitor.Sample) (now : Z) :
  new_data <> [] ->
  let retained :=
    Monitor.historical_data (Monitor.update_persistent_storage new_data now self) in
  (forall s, In s retained -> ~ older_than_window now s)
  /\
  (forall s, in_window now s ->
     count_occ Sample_eq_dec retained s
     = count_occ Sample_eq_dec (Monitor.historical_data self ++ new_data) s).
Proof.
  intros Hne retained. split.
  - intros s Hs.
    pose proof (update_leaves_window_only new_data now self Hne) as Hall.
    rewrite Forall_forall in Hall. specialize (Hall s Hs).
    unfold in_window, older_than_window in *. lia.
  - intros s Hs. unfold retained.
    destruct (update_with_rows new_data now self Hne) as [-> _].
    apply count_occ_filter. unfold in_window in Hs. lia.
Qed.

(** Two samples and an instant, 2024-01-08 00:00:00.5: one sample taken
    on 2023-12-31, more than eight days before it, the other in the same
    second. *)
Definition sample_at (timestamp : Z) (pod_uid : string) (queue_time : Z) : Monitor.Sample :=
  {| Monitor.Timestamp := timestamp;
     Monitor.Namespace := "default";
     Monitor.Pod := "web-0";
     Monitor.PodUID := pod_uid;
     Monitor.QueueTime := queue_time;
     Monitor.CreationTime := "2024-01-01T00:00:00Z";
     Monitor.StartTime := "2024-01-01T00:00:10Z" |}.

Definition stale_sample : Monitor.Sample := sample_at 1703980800 "7d1c" 10.
Definition fresh_sample : Monitor.Sample := sample_at 1704672000 "9e2f" 5.
Definition load_time : Z := 1704672000500000.

Lemma update_evicts_exactly_the_old_witness :
  (forall s,
     In s (Monitor.historical_data
             (Monitor.update_persistent_storage [fresh_sample] load_time
                (Monitor.init None (Some [stale_sample])))) ->
     ~ older_than_window load_time s)
  /\ Monitor.historical_data
       (Monitor.update_persistent_storage [fresh_sample] load_time
          (Monitor.init None (Some [stale_sample]))) = [fresh_sample].
Proof.
  split.
  - apply (update_evicts_exactly_the_old (Monitor.init None (Some [stale_sample]))
             [fresh_sample] load_time).
    discriminate.
  - reflexivity.
Defined.

(** C5, as stated, fails: a file that holds a sample taken more than
    eight days before the load is loaded as it is; [__init__] does not
    read the clock. *)
Lemma load_keeps_stale_samples :
  ~ Forall (in_window load_time)
      (Monitor.historical_data (Monitor.init None (Some [stale_sample]))).
Proof.
  intros H. inversion H as [|s l Hin _]; subst.
  unfold in_window in Hin. vm_compute in Hin. now apply Hin.
Qed.

(** C5 (amended): on construction with existing persisted state, the
    store loads the file and retains every sample in it, whatever its
    timestamp, and leaves the file as it is; samples older than the window
    are discarded by the eviction of the first update that brings new
    rows. *)
Theorem load_retains_the_whole_file
  (exclude : option (list string)) (rows : list Monitor.Sample) :
  Monitor.historical_data (Monitor.init exclude (Some rows)) = rows
  /\ Monitor.persistent_db (Monitor.init exclude (Some rows)) = Some rows
  /\ forall new_data now,
       new_data <> [] ->
       Forall (in_window now)
         (Monitor.historical_data
            (Monitor.update_persistent_storage new_data now
               (Monitor.init exclude (Some rows)))).
Proof.
  repeat split. intros new_data now Hne. now apply update_leaves_window_only.
Qed.

Lemma load_retains_the_whole_file_witness :
  Monitor.historical_data (Monitor.init None (Some [stale_sample])) = [stale_sample]
  /\ Forall (in_window load_time)
       (Monitor.historical_data
          (Monitor.update_persistent_storage [fresh_sample] load_time
             (Monitor.init None (Some [stale_sample])))).
Proof.
  destruct (load_retains_the_whole_file None [stale_sample]) as (Hload & _ & Hevict).
  split; [exact Hload|].
  apply Hevict. discriminate.
Defined.

(** ** Cycles that collect nothing *)

(** The frame that [collect_queue_times] returns depends on the collector
    through its exclusion list only. *)
Definition collected (exclude : list string) (world : Kubectl.snapshot) : list Monitor.Sample :=
  match Monitor.try_collect exclude world with
  | Py.Ok queue_times => queue_times
  | Py.Raise _ => []
  end.

Lemma collect_queue_times_collected world self :
  fst (Monitor.collect_queue_times world self)
  = collected (Monitor.exclude_namespaces self) world.
Proof.
  unfold Monitor.collect_queue_times, collected.
  now destruct (Monitor.try_collect _ world).
Qed.

Lemma collect_queue_times_store world self :
  let after := snd (Monitor.collect_queue_times world self) in
  Monitor.exclude_namespaces after = Monitor.exclude_namespaces self
  /\ Monitor.historical_data after = Monitor.historical_data self
  /\ Monitor.persistent_db after = Monitor.persistent_db self.
Proof.
  unfold Monitor.collect_queue_times.
  destruct (Monitor.try_collect _ world); simpl; repeat split.
Qed.

Lemma run_collection_empty world now self :
  collected (Monitor.exclude_namespaces self) world = [] ->
  let after := Monitor.run_collection world now self in
  Monitor.exclude_namespaces after = Monitor.exclude_namespaces self
  /\ Monitor.historical_data after = Monitor.historical_data self
  /\ Monitor.persistent_db after = Monitor.persistent_db self.
Proof.
  intros Hempty. unfold Monitor.run_collection.
  set (self0 := Monitor.print Monitor.StartingCollection self).
  pose proof (collect_queue_times_collected world self0) as Hc.
  pose proof (collect_queue_times_store world self0) as Hs.
  destruct (Monitor.collect_queue_times world _) as [new_data self1].
  simpl in Hc, Hs. rewrite Hempty in Hc. subst new_data. simpl. exact Hs.
Qed.

Lemma run_cycles_empty cycles self :
  Forall (fun cycle => collected (Monitor.exclude_namespaces self) (fst cycle) = []) cycles ->
  Monitor.historical_data (Monitor.run_cycles cycles self) = Monitor.historical_data self
  /\ Monitor.persistent_db (Monitor.run_cycles cycles self) = Monitor.persistent_db self.
Proof.
  revert self. induction cycles as [|[world now] rest IH]; simpl; intros self Hall.
  - split; reflexivity.
  - inversion Hall as [|c l Hhead Hrest]; subst. simpl in Hhead.
    destruct (run_collection_empty world now self Hhead) as (He & Hh & Hp).
    rewrite <- Hh, <- Hp. apply IH. now rewrite He.
Qed.

(** C10: a collection cycle that yields no sample leaves the store as it
    was.  [update_persistent_storage] on an empty frame returns the
    collector unchanged; a cycle whose collection is empty, and any run of
    such cycles, leaves [historical_data] and the file unchanged, so that a
    sample older than the window is still in the store afterwards. *)
Theorem empty_cycle_leaves_store_alone
  (self : Monitor.QueueTimeCollector) (cycles : list (Kubectl.snapshot * Z)) (now : Z) :
  Forall (fun cycle =>
            fst (Monitor.collect_queue_times (fst cycle) self) = []) cycles ->
  Monitor.update_persistent_storage [] now self = self
  /\ Monitor.historical_data (Monitor.run_cycles cycles self) = Monitor.historical_data self
  /\ Monitor.persistent_db (Monitor.run_cycles cycles self) = Monitor.persistent_db self
  /\ forall s, In s (Monitor.historical_data self) -> older_than_window now s ->
               In s (Monitor.historical_data (Monitor.run_cycles cycles self)).
Proof.
  intros Hall.
  assert (H : Forall (fun cycle =>
                        collected (Monitor.exclude_namespaces self) (fst cycle) = []) cycles).
  { eapply Forall_impl; [|exact Hall]. intros c Hc.
    now rewrite <- collect_queue_times_collected. }
  destruct (run_cycles_empty cycles self H) as [Hh Hp].
  repeat split; trivial. intros s Hs _. now rewrite Hh.
Qed.

(** Two cycles in which the command fails, then answers with no pod, on
    a store that holds only a stale sample. *)
Lemma empty_cycle_leaves_store_alone_witness :
  Monitor.historical_data
    (Monitor.run_cycles
       [(at_clock 1704672000 Kubectl.NonzeroExit, load_time);
        (at_clock 1704672060 (Kubectl.Parsed (Some [])), load_time + 60000000)]
       (Monitor.init None (Some [stale_sample])))
  = [stale_sample]
  /\ Monitor.persistent_db
       (Monitor.run_cycles
          [(at_clock 1704672000 Kubectl.NonzeroExit, load_time);
           (at_clock 1704672060 (Kubectl.Parsed (Some [])), load_time + 60000000)]
          (Monitor.init None (Some [stale_sample])))
     = Some [stale_sample].
Proof.
  destruct (empty_cycle_leaves_store_alone
              (Monitor.init None (Some [stale_sample]))
              [(at_clock 1704672000 Kubectl.NonzeroExit, load_time);
               (at_clock 1704672060 (Kubectl.Parsed (Some [])), load_time + 60000000)]
              load_time) as (_ & Hh & Hp & _).
  - repeat constructor.
  - split; [exact Hh | exact Hp].
Defined.

(** ** Deduplication in [process_logs.py] *)

Lemma StronglySorted_after {A : Type} (R : A -> A -> Prop) (before after : list A) (x : A) :
  StronglySorted R (before ++ x :: after) -> Forall (R x) after.
Proof.
  induction before as [|b before IH]; simpl; intros H; inversion H; subst; auto.
Qed.

Lemma sorted_timestamps {Row : Type} (col : Row -> Z) (df : list Row) :
  StronglySorted (Pandas.ordered_on col Z.leb) df -> StronglySorted Z.le (map col df).
Proof.
  induction 1 as [|x l Hs IH Hall]; simpl; constructor; [exact IH|].
  apply Forall_map. eapply Forall_impl; [|exact Hall].
  unfold Pandas.ordered_on. intros y Hy. lia.
Qed.

(** Two ordered rearrangements of the same integers are equal. *)
Lemma sorted_perm_unique (l l' : list Z) :
  StronglySorted Z.le l -> StronglySorted Z.le l' -> Permutation l l' -> l = l'.
Proof.
  revert l'. induction l as [|x l IH]; intros l' Hl Hl' Hp.
  - apply Permutation_nil in Hp. now subst.
  - destruct l' as [|x' l'].
    + apply Permutation_sym, Permutation_nil in Hp. discriminate.
    + inversion Hl as [|? ? Hsl Hxl]; inversion Hl' as [|? ? Hsl' Hxl']; subst.
      assert (x = x').
      { assert (Hin : In x (x' :: l')) by (eapply Permutation_in; [exact Hp | now left]).
        assert (Hin' : In x' (x :: l))
          by (eapply Permutation_in; [apply Permutation_sym, Hp | now left]).
        rewrite Forall_forall in Hxl, Hxl'.
        destruct Hin as [|Hin]; [congruence|]. destruct Hin' as [|Hin']; [congruence|].
        specialize (Hxl _ Hin'). specialize (Hxl' _ Hin). lia. }
      subst x'. f_equal. apply IH; trivial. now apply Permutation_cons_inv in Hp.
Qed.

Section Dedup.
Context (sorter : Pandas.SortValues Monitor.Timestamp Z.leb).

Let dedup := ProcessLogs.dedup_data (by_Timestamp := sorter).

Lemma dedup_NoDup raw : NoDup (map Monitor.PodUID (dedup raw)).
Proof. apply drop_duplicates_NoDup, String.eqb_eq. Qed.

Lemma dedup_uids raw uid :
  In uid (map Monitor.PodUID (dedup raw)) <-> In uid (map Monitor.PodUID raw).
Proof.
  unfold dedup, ProcessLogs.dedup_data.
  rewrite drop_duplicates_keys by apply String.eqb_eq.
  split; apply Permutation_in, Permutation_map;
    [apply Permutation_sym|]; apply Pandas.sort_values_perm.
Qed.

Lemma dedup_In raw kept : In kept (dedup raw) -> In kept raw.
Proof.
  intros H. apply drop_duplicates_In in H; [|apply String.eqb_eq].
  eapply Permutation_in; [apply Permutation_sym, Pandas.sort_values_perm | exact H].
Qed.

Lemma dedup_earliest raw kept s :
  In kept (dedup raw) -> In s raw -> Monitor.PodUID s = Monitor.PodUID kept ->
  Monitor.Timestamp kept <= Monitor.Timestamp s.
Proof.
  intros Hk Hs Huid.
  apply (drop_duplicates_from_first _ _ String.eqb_eq) in Hk.
  destruct Hk as (before & after & Hsplit & Hbefore).
  pose proof (Pandas.sort_values_sorted sorter raw) as Hsorted.
  assert (Hin : In s (Pandas.sort_values sorter raw))
    by (eapply Permutation_in; [apply Pandas.sort_values_perm | exact Hs]).
  fold (Pandas.sort_values sorter raw) in Hsplit.
  rewrite Hsplit in Hsorted, Hin.
  apply StronglySorted_after in Hsorted. rewrite Forall_forall in Hsorted.
  apply in_app_or in Hin. destruct Hin as [Hin | [<- | Hin]].
  - now apply Hbefore in Hin.
  - lia.
  - specialize (Hsorted _ Hin). unfold Pandas.ordered_on in Hsorted. lia.
Qed.

Lemma dedup_sorted raw :
  StronglySorted Z.le (map Monitor.Timestamp (dedup raw)).
Proof.
  unfold dedup, ProcessLogs.dedup_data, Pandas.drop_duplicates.
  pose proof (Pandas.sort_values_sorted sorter raw) as Hsorted.
  apply sorted_timestamps in Hsorted.
  fold (Pandas.sort_values sorter raw).
  generalize dependent (Pandas.sort_values sorter raw). generalize (@nil string).
  intros seen df. revert seen.
  induction df as [|x rest IH]; simpl; intros seen Hs; [constructor|].
  inversion Hs as [|? ? Hrest Hx]; subst.
  destruct (existsb _ seen); [now apply IH|].
  simpl. constructor; [now apply IH|].
  rewrite Forall_forall in *. intros t Ht. apply in_map_iff in Ht.
  destruct Ht as (r & <- & Hr). apply drop_duplicates_from_In in Hr; [|apply String.eqb_eq].
  apply Hx, in_map, Hr.
Qed.

Lemma dedup_twice raw : dedup (dedup raw) = Pandas.sort_values sorter (dedup raw).
Proof.
  unfold dedup at 1. unfold ProcessLogs.dedup_data.
  apply drop_duplicates_id; [apply String.eqb_eq|].
  eapply Permutation_NoDup; [|apply (dedup_NoDup raw)].
  apply Permutation_map, Pandas.sort_values_perm.
Qed.

Lemma dedup_length raw :
  List.length (dedup raw) = List.length (nodup string_dec (map Monitor.PodUID raw)).
Proof.
  unfold dedup, ProcessLogs.dedup_data.
  rewrite (drop_duplicates_length _ _ String.eqb_eq string_dec).
  apply Permutation_length, NoDup_Permutation; try apply NoDup_nodup.
  intros uid. rewrite !nodup_In.
  split; apply Permutation_in, Permutation_map;
    [apply Permutation_sym|]; apply Pandas.sort_values_perm.
Qed.
End Dedup.

(** *** Rows of one uid taken in the same second *)

(** [kept] is, in input order, the first row of [raw] with its uid and
    its timestamp. *)
Definition same_observation (kept s : Monitor.Sample) : bool :=
  String.eqb (Monitor.PodUID s) (Monitor.PodUID kept)
  && (Monitor.Timestamp s =? Monitor.Timestamp kept).

Definition first_in_input (raw : list Monitor.Sample) (kept : Monitor.Sample) : Prop :=
  find (same_observation kept) raw = Some kept.

Lemma find_filter {A : Type} (p : A -> bool) (l : list A) :
  find p l = hd_error (filter p l).
Proof.
  induction l as [|x l IH]; simpl; [reflexivity|]. now destruct (p x).
Qed.

Lemma insert_row_stable (p : Monitor.Sample -> bool) (t : Z) r df :
  (forall s, p s = true -> Monitor.Timestamp s = t) ->
  filter p (Pandas.insert_row Monitor.Timestamp Z.leb r df) = filter p (r :: df).
Proof.
  intros Hp. induction df as [|x rest IH]; [reflexivity|].
  simpl Pandas.insert_row.
  destruct (Monitor.Timestamp r <=? Monitor.Timestamp x) eqn:E; [reflexivity|].
  simpl in *. rewrite IH.
  destruct (p r) eqn:Er, (p x) eqn:Ex; try reflexivity.
  apply Hp in Er, Ex. lia.
Qed.

Lemma insertion_sort_stable (p : Monitor.Sample -> bool) (t : Z) df :
  (forall s, p s = true -> Monitor.Timestamp s = t) ->
  filter p (Pandas.insertion_sort Monitor.Timestamp Z.leb df) = filter p df.
Proof.
  intros Hp. induction df as [|r rest IH]; [reflexivity|].
  simpl Pandas.insertion_sort. rewrite (insert_row_stable p t) by exact Hp.
  simpl. now rewrite IH.
Qed.

Lemma first_of_uid_found (before after : list Monitor.Sample) (kept : Monitor.Sample) :
  (forall x, In x before -> Monitor.PodUID x <> Monitor.PodUID kept) ->
  find (same_observation kept) (before ++ kept :: after) = Some kept.
Proof.
  induction before as [|x before IH]; simpl; intros Hb.
  - unfold same_observation. now rewrite String.eqb_refl, Z.eqb_refl.
  - unfold same_observation at 1.
    destruct (String.eqb_spec (Monitor.PodUID x) (Monitor.PodUID kept)) as [Heq|_].
    + exfalso. apply (Hb x); [now left | exact Heq].
    + simpl. apply IH. intros y Hy. apply Hb. now right.
Qed.

Lemma stable_dedup_first_in_input raw kept :
  In kept (ProcessLogs.dedup_data (by_Timestamp := stable_by_Timestamp) raw) ->
  first_in_input raw kept.
Proof.
  intros Hk. apply (drop_duplicates_from_first _ _ String.eqb_eq) in Hk.
  destruct Hk as (before & after & Hsplit & Hbefore).
  unfold first_in_input. rewrite find_filter.
  rewrite <- (insertion_sort_stable _ (Monitor.Timestamp kept)).
  - change (Pandas.insertion_sort Monitor.Timestamp Z.leb raw)
      with (Pandas.sort_values stable_by_Timestamp raw).
    rewrite Hsplit, <- find_filter. now apply first_of_uid_found.
  - unfold same_observation. intros s Hs. apply andb_true_iff in Hs. lia.
Qed.

(** Eighteen rows taken in the same second.  The pod [7d1c] was
    observed twice, with queue times that differ: [first_row] is the
    second row of the frame and [second_row] the sixteenth.  The other
    sixteen rows are of sixteen other pods. *)
Definition first_row : Monitor.Sample := sample_at 1704067260 "7d1c" 10.
Definition second_row : Monitor.Sample := sample_at 1704067260 "7d1c" 12.

Definition busy_second : list Monitor.Sample :=
  [ sample_at 1704067260 "0a00" 1;
    first_row;
    sample_at 1704067260 "0a02" 2;
    sample_at 1704067260 "0a03" 3;
    sample_at 1704067260 "0a04" 4;
    sample_at 1704067260 "0a05" 5;
    sample_at 1704067260 "0a06" 6;
    sample_at 1704067260 "0a07" 7;
    sample_at 1704067260 "0a08" 8;
    sample_at 1704067260 "0a09" 9;
    sample_at 1704067260 "0a10" 11;
    sample_at 1704067260 "0a11" 13;
    sample_at 1704067260 "0a12" 14;
    sample_at 1704067260 "0a13" 15;
    sample_at 1704067260 "0a14" 16;
    second_row;
    sample_at 1704067260 "0a16" 17;
    sample_at 1704067260 "0a17" 18 ].

(** C3, as stated, fails on ties.  On the eighteen rows of
    [busy_second] the default [sort_values] is numpy's quicksort, which
    partitions the frame: the first exchange of the partition, of the
    second position with the sixteenth, puts [second_row] in front of
    [first_row].  [dedup_data] then keeps [second_row], which is not
    the first row of pod [7d1c] in input order, and drops [first_row]. *)
Lemma dedup_tie_keeps_later_row :
  List.length busy_second = 18%nat
  /\ Pandas.sort_values quicksort_by_Timestamp busy_second
     = Sorting.take
         (Numpy.argsort Sorting.datetime_less (map Monitor.Timestamp busy_second))
         busy_second
  /\ Numpy.argsort Sorting.datetime_less (map Monitor.Timestamp busy_second)
     = [0; 15; 14; 13; 12; 11; 10; 9; 8; 7; 6; 5; 4; 3; 2; 1; 16; 17]%nat
  /\ In second_row (ProcessLogs.dedup_data (by_Timestamp := quicksort_by_Timestamp) busy_second)
  /\ ~ In first_row (ProcessLogs.dedup_data (by_Timestamp := quicksort_by_Timestamp) busy_second)
  /\ ~ (forall kept,
          In kept (ProcessLogs.dedup_data (by_Timestamp := quicksort_by_Timestamp)
                     busy_second) ->
          first_in_input busy_second kept).
Proof.
  assert (Hin : In second_row
                  (ProcessLogs.dedup_data (by_Timestamp := quicksort_by_Timestamp)
                     busy_second)).
  { vm_compute. do 1 right. left. reflexivity. }
  split; [reflexivity|].
  split; [vm_compute; reflexivity|].
  split; [vm_compute; reflexivity|].
  split; [exact Hin|].
  split.
  - vm_compute. intros H.
    repeat (destruct H as [H|H]; [discriminate H|]). exact H.
  - intros H. specialize (H second_row Hin). vm_compute in H. discriminate.
Qed.

(** C3 (amended): for every sample sequence and every implementation of
    [sort_values], [dedup_data] returns exactly one sample per distinct
    uid of the input, and the sample kept is a sample of the input with
    the earliest timestamp of its uid group.  Among samples of one uid
    with equal timestamps, the one kept is the first in input order when
    the sort is stable (as sorting by insertion is); the default
    [sort_values] that the program calls is not. *)
Theorem dedup_keeps_an_earliest_row_per_uid
  (sorter : Pandas.SortValues Monitor.Timestamp Z.leb) (raw : list Monitor.Sample) :
  let dedup := ProcessLogs.dedup_data (by_Timestamp := sorter) raw in
  NoDup (map Monitor.PodUID dedup)
  /\ (forall uid, In uid (map Monitor.PodUID dedup) <-> In uid (map Monitor.PodUID raw))
  /\ (forall kept, In kept dedup ->
        In kept raw
        /\ forall s, In s raw -> Monitor.PodUID s = Monitor.PodUID kept ->
                     Monitor.Timestamp kept <= Monitor.Timestamp s)
  /\ (forall kept,
        In kept (ProcessLogs.dedup_data (by_Timestamp := stable_by_Timestamp) raw) ->
        first_in_input raw kept).
Proof.
  intros dedup. split; [apply dedup_NoDup|].
  split; [apply dedup_uids|].
  split; [|apply stable_dedup_first_in_input].
  intros kept Hk. split; [now apply dedup_In in Hk|].
  intros s Hs Huid. now apply (dedup_earliest sorter raw).
Qed.

(** The scenario of the specification: two observations of pod [1], a
    minute apart, and one of pod [2]. *)
Definition scenario : list Monitor.Sample :=
  [ {| Monitor.Timestamp := 1704067260; Monitor.Namespace := "a"; Monitor.Pod := "p1";
       Monitor.PodUID := "1"; Monitor.QueueTime := 10;
       Monitor.CreationTime := "2024-01-01T00:00:00Z";
       Monitor.StartTime := "2024-01-01T00:00:10Z" |};
    {| Monitor.Timestamp := 1704067320; Monitor.Namespace := "a"; Monitor.Pod := "p1";
       Monitor.PodUID := "1"; Monitor.QueueTime := 12;
       Monitor.CreationTime := "2024-01-01T00:00:00Z";
       Monitor.StartTime := "2024-01-01T00:00:12Z" |};
    {| Monitor.Timestamp := 1704067260; Monitor.Namespace := "b"; Monitor.Pod := "p2";
       Monitor.PodUID := "2"; Monitor.QueueTime := 5;
       Monitor.CreationTime := "2024-01-01T00:00:00Z";
       Monitor.StartTime := "2024-01-01T00:00:05Z" |} ].

Lemma dedup_keeps_an_earliest_row_per_uid_witness :
  map Monitor.QueueTime
    (ProcessLogs.dedup_data (by_Timestamp := quicksort_by_Timestamp) scenario) = [10; 5]
  /\ forall kept,
       In kept (ProcessLogs.dedup_data (by_Timestamp := quicksort_by_Timestamp) scenario) ->
       In kept scenario
       /\ forall s, In s scenario -> Monitor.PodUID s = Monitor.PodUID kept ->
                    Monitor.Timestamp kept <= Monitor.Timestamp s.
Proof.
  split; [vm_compute; reflexivity|].
  exact (proj1 (proj2 (proj2
           (dedup_keeps_an_earliest_row_per_uid quicksort_by_Timestamp scenario)))).
Defined.

Lemma insertion_sort_of_sorted (df : list Monitor.Sample) :
  StronglySorted Z.le (map Monitor.Timestamp df) ->
  Pandas.insertion_sort Monitor.Timestamp Z.leb df = df.
Proof.
  induction df as [|x rest IH]; simpl; intros Hs; [reflexivity|].
  inversion Hs as [|? ? Hrest Hx]; subst. rewrite (IH Hrest).
  destruct rest as [|y rest]; [reflexivity|]. simpl.
  inversion Hx as [|? ? Hxy _]; subst.
  now apply Z.leb_le in Hxy as ->.
Qed.

(** Eighteen pods observed in the same second, one row each. *)
Definition eighteen_pods : list Monitor.Sample :=
  map (fun uid => sample_at 1704067260 uid 10)
    [ "0b00"; "0b01"; "0b02"; "0b03"; "0b04"; "0b05"; "0b06"; "0b07"; "0b08";
      "0b09"; "0b10"; "0b11"; "0b12"; "0b13"; "0b14"; "0b15"; "0b16"; "0b17" ]%string.

(** C4, as stated, fails.  The eighteen rows of [eighteen_pods] have
    equal timestamps and distinct uids, so that each deduplication is
    one quicksort of eighteen rows, whose partition moves rows: the
    second deduplication moves the rows that the first one returned. *)
Lemma dedup_twice_reorders_ties :
  Pandas.sort_values quicksort_by_Timestamp eighteen_pods
  = Sorting.take
      (Numpy.argsort Sorting.datetime_less (map Monitor.Timestamp eighteen_pods))
      eighteen_pods
  /\
  (let once := ProcessLogs.dedup_data (by_Timestamp := quicksort_by_Timestamp)
                 eighteen_pods in
   Pandas.sort_values quicksort_by_Timestamp once
   = Sorting.take (Numpy.argsort Sorting.datetime_less (map Monitor.Timestamp once)) once)
  /\
  map Monitor.PodUID
    (ProcessLogs.dedup_data (by_Timestamp := quicksort_by_Timestamp) eighteen_pods)
  = [ "0b00"; "0b15"; "0b14"; "0b13"; "0b12"; "0b11"; "0b10"; "0b09"; "0b08";
      "0b07"; "0b06"; "0b05"; "0b04"; "0b03"; "0b02"; "0b01"; "0b16"; "0b17" ]%string
  /\
  map Monitor.PodUID
    (ProcessLogs.dedup_data (by_Timestamp := quicksort_by_Timestamp)
       (ProcessLogs.dedup_data (by_Timestamp := quicksort_by_Timestamp) eighteen_pods))
  = [ "0b00"; "0b01"; "0b02"; "0b03"; "0b04"; "0b05"; "0b06"; "0b07"; "0b08";
      "0b09"; "0b10"; "0b11"; "0b12"; "0b13"; "0b14"; "0b15"; "0b16"; "0b17" ]%string
  /\
  ProcessLogs.dedup_data (by_Timestamp := quicksort_by_Timestamp)
    (ProcessLogs.dedup_data (by_Timestamp := quicksort_by_Timestamp) eighteen_pods)
  <> ProcessLogs.dedup_data (by_Timestamp := quicksort_by_Timestamp) eighteen_pods.
Proof.
  split; [vm_compute; reflexivity|].
  split; [vm_compute; reflexivity|].
  split; [vm_compute; reflexivity|].
  split; [vm_compute; reflexivity|].
  vm_compute; discriminate.
Qed.

(** C4 (amended): for every sample sequence [S] and every implementation
    of [sort_values], [Dedup(Dedup(S))] holds the same rows as [Dedup(S)]
    with the same column of timestamps, so that the two can differ only in
    the order of rows with equal timestamps; and the number of samples in
    [Dedup(S)] is the number of distinct uids occurring in [S] (hence at
    most that number).  With a stable sort (sorting by insertion)
    [Dedup(Dedup(S)) = Dedup(S)]. *)
Theorem dedup_idempotent_up_to_ties
  (sorter : Pandas.SortValues Monitor.Timestamp Z.leb) (S : list Monitor.Sample) :
  let Dedup := ProcessLogs.dedup_data (by_Timestamp := sorter) in
  let StableDedup := ProcessLogs.dedup_data (by_Timestamp := stable_by_Timestamp) in
  Permutation (Dedup (Dedup S)) (Dedup S)
  /\ map Monitor.Timestamp (Dedup (Dedup S)) = map Monitor.Timestamp (Dedup S)
  /\ List.length (Dedup S) = List.length (nodup string_dec (map Monitor.PodUID S))
  /\ StableDedup (StableDedup S) = StableDedup S.
Proof.
  intros Dedup StableDedup.
  assert (Hperm : Permutation (Dedup (Dedup S)) (Dedup S)).
  { unfold Dedup. rewrite dedup_twice. apply Permutation_sym, Pandas.sort_values_perm. }
  repeat split.
  - exact Hperm.
  - apply sorted_perm_unique; try apply dedup_sorted. now apply Permutation_map.
  - apply dedup_length.
  - unfold StableDedup. rewrite dedup_twice.
    apply insertion_sort_of_sorted, dedup_sorted.
Qed.

(** ** Statistics per namespace *)

Lemma StronglySorted_impl {A : Type} (R R' : A -> A -> Prop) (l : list A) :
  (forall a b, R a b -> R' a b) -> StronglySorted R l -> StronglySorted R' l.
Proof.
  intros Himpl. induction 1 as [|x l Hs IH Hall]; constructor; [exact IH|].
  eapply Forall_impl; [|exact Hall]. intros b. apply Himpl.
Qed.

(** A table is in descending order of a column of means ... *)
Definition descending {Row : Type} (col : Row -> Q) (table : list Row) : Prop :=
  StronglySorted (fun a b => (col b <= col a)%Q) table.

(** ... and its rows of equal mean are in the order of their keys, which
    is the order in which [groupby] delivers them. *)
Definition ties_by_key {Row : Type} (col : Row -> Q) (key : Row -> string)
  (table : list Row) : Prop :=
  StronglySorted (fun a b => (col a == col b)%Q -> String.leb (key a) (key b) = true) table.

Lemma sort_values_descending {Row : Type} (col : Row -> Q)
  (sorter : Pandas.SortValues col Pandas.Qge_bool) (table : list Row) :
  descending col (Pandas.sort_values sorter table).
Proof.
  eapply StronglySorted_impl; [|apply Pandas.sort_values_sorted].
  unfold Pandas.ordered_on, Pandas.Qge_bool. intros a b H. now apply Qle_bool_iff.
Qed.

Definition webapp_row (namespace pod_name : string) (queue_time : Z) : Webapp.Row :=
  {| Webapp.Timestamp := 1704067260;
     Webapp.Namespace := namespace;
     Webapp.Pod := pod_name;
     Webapp.QueueTime := queue_time;
     Webapp.Days := Webapp.c_Days (Webapp.format_time_components queue_time);
     Webapp.Hours := Webapp.c_Hours (Webapp.format_time_components queue_time);
     Webapp.Minutes := Webapp.c_Minutes (Webapp.format_time_components queue_time);
     Webapp.Seconds := Webapp.c_Seconds (Webapp.format_time_components queue_time);
     Webapp.CreationTime := "2024-01-01T00:00:00Z";
     Webapp.StartTime := "2024-01-01T00:00:05Z" |}.

Definition monitor_row (namespace pod_uid : string) (queue_time : Z) : Monitor.Sample :=
  {| Monitor.Timestamp := 1704067260;
     Monitor.Namespace := namespace;
     Monitor.Pod := pod_uid;
     Monitor.PodUID := pod_uid;
     Monitor.QueueTime := queue_time;
     Monitor.CreationTime := "2024-01-01T00:00:00Z";
     Monitor.StartTime := "2024-01-01T00:00:05Z" |}.

Lemma StronglySorted_nth_error {A : Type} (R : A -> A -> Prop) (l : list A)
  (i j : nat) (a b : A) :
  StronglySorted R l -> (i < j)%nat ->
  nth_error l i = Some a -> nth_error l j = Some b -> R a b.
Proof.
  intros Hs. revert i j. induction Hs as [|x l Hs IH Hall]; intros i j Hij Ha Hb.
  - now destruct i.
  - destruct j as [|j]; [lia|]. simpl in Hb. destruct i as [|i]; simpl in Ha.
    + injection Ha as <-. rewrite Forall_forall in Hall.
      apply Hall. eapply nth_error_In, Hb.
    + apply (IH i j); [lia | exact Ha | exact Hb].
Qed.

(** Eighteen namespaces, [team-a] to [team-r], with one pod each and
    the same queue time of five seconds. *)
Definition eighteen_namespaces : list string :=
  [ "team-a"; "team-b"; "team-c"; "team-d"; "team-e"; "team-f"; "team-g";
    "team-h"; "team-i"; "team-j"; "team-k"; "team-l"; "team-m"; "team-n";
    "team-o"; "team-p"; "team-q"; "team-r" ]%string.

(** C9, as stated, fails on ties.  The eighteen namespaces have the
    same mean; [groupby] delivers them in the order of their names, and
    the default [sort_values] on the means, numpy's quicksort on the
    reversed column, partitions the eighteen rows and moves them: the
    table, in the web application and in [process_logs.py], is not in
    the order of the names.  (Any move breaks that order, since all the
    means are equal.) *)
Lemma equal_means_not_ordered_by_key :
  (let groups :=
     map Webapp.agg
       (PandasSeries.groupby Webapp.Namespace
          (map (fun ns => webapp_row ns "web-0" 5) eighteen_namespaces)) in
   map Webapp.ns_Namespace groups = eighteen_namespaces
   /\ Forall (fun g => (Webapp.AvgQueueTime g == 5 # 1)%Q) groups
   /\ Webapp.ns_stats (by_AvgQueueTime := quicksort_descending Webapp.AvgQueueTime)
        (map (fun ns => webapp_row ns "web-0" 5) eighteen_namespaces)
      = Sorting.take
          (Sorting.nargsort Sorting.double_less false (map Webapp.AvgQueueTime groups))
          groups)
  /\
  (let groups :=
     map ProcessLogs.agg
       (PandasSeries.groupby Monitor.Namespace
          (map (fun ns => monitor_row ns ns 5) eighteen_namespaces)) in
   map ProcessLogs.Namespace groups = eighteen_namespaces
   /\ Forall (fun g => (ProcessLogs.mean g == 5 # 1)%Q) groups
   /\ ProcessLogs.ns_stats (by_mean := quicksort_descending ProcessLogs.mean)
        (map (fun ns => monitor_row ns ns 5) eighteen_namespaces)
      = Sorting.take
          (Sorting.nargsort Sorting.double_less false (map ProcessLogs.mean groups))
          groups)
  /\
  ~ ties_by_key Webapp.AvgQueueTime Webapp.ns_Namespace
      (Webapp.ns_stats (by_AvgQueueTime := quicksort_descending Webapp.AvgQueueTime)
         (map (fun ns => webapp_row ns "web-0" 5) eighteen_namespaces))
  /\
  ~ ties_by_key ProcessLogs.mean ProcessLogs.Namespace
      (ProcessLogs.ns_stats (by_mean := quicksort_descending ProcessLogs.mean)
         (map (fun ns => monitor_row ns ns 5) eighteen_namespaces)).
Proof.
  split.
  { split; [vm_compute; reflexivity|]. split; [|vm_compute; reflexivity].
    vm_compute. repeat constructor. }
  split.
  { split; [vm_compute; reflexivity|]. split; [|vm_compute; reflexivity].
    vm_compute. repeat constructor. }
  split; intros H;
    eapply StronglySorted_nth_error with (i := 2%nat) (j := 16%nat) in H;
    [ | lia | vm_compute; reflexivity | vm_compute; reflexivity
      | | lia | vm_compute; reflexivity | vm_compute; reflexivity ];
    (assert (Hfalse : String.leb "team-q" "team-c" = true)
       by (apply H; reflexivity));
    vm_compute in Hfalse; discriminate.
Qed.

(** C9 (amended): for every sample sequence and every implementation of
    [sort_values], the per-namespace table, in the web application and in
    [process_logs.py], is a rearrangement of the rows that [groupby] and
    [agg] compute, in descending (non-increasing) order of the mean queue
    time.  The program adds no tie-break: the order of namespaces with
    equal means is the one that the sort leaves, which with the default
    sort need not be the order of their names. *)
Theorem namespace_table_descending_mean
  (by_AvgQueueTime : Pandas.SortValues Webapp.AvgQueueTime Pandas.Qge_bool)
  (by_mean : Pandas.SortValues ProcessLogs.mean Pandas.Qge_bool)
  (all_data : list Webapp.Row) (dedup_data : list Monitor.Sample) :
  descending Webapp.AvgQueueTime (Webapp.ns_stats all_data)
  /\ Permutation (map Webapp.agg (PandasSeries.groupby Webapp.Namespace all_data))
       (Webapp.ns_stats all_data)
  /\ descending ProcessLogs.mean (ProcessLogs.ns_stats dedup_data)
  /\ Permutation (map ProcessLogs.agg (PandasSeries.groupby Monitor.Namespace dedup_data))
       (ProcessLogs.ns_stats dedup_data).
Proof.
  repeat split;
    try apply sort_values_descending;
    apply Pandas.sort_values_perm.
Qed.

(** ** The collection loop *)















(** A cluster that always answers with the same single started pod. *)
Definition started_pod : Kubectl.pod :=
  {| Kubectl.namespace := Some "default"%string;
     Kubectl.name := Some "web-0"%string;
     Kubectl.uid := Some "7d1c"%string;
     Kubectl.creationTimestamp :=
       Some {| Kubectl.text := "2024-01-01T00:00:00Z"; Kubectl.instant := Some 1704067200 |};
     Kubectl.startTime :=
       Some {| Kubectl.text := "2024-01-01T00:00:10Z"; Kubectl.instant := Some 1704067210 |} |}.

Definition steady_cluster (i : Z) : Kubectl.snapshot :=
  at_clock (1704067200 + 60 * i) (Kubectl.Parsed (Some [started_pod])).


(** ** Configurations that are not positive *)

Definition idle : Webapp.collection_status :=
  {| Webapp.active := false; Webapp.current_run := None; Webapp.recent_runs := [] |}.




(** ** The programs on small inputs *)

Example format_time_components_day_hour_minute_second :
  Webapp.format_time_components 90061
  = {| Webapp.c_Days := 1; Webapp.c_Hours := 1; Webapp.c_Minutes := 1;
       Webapp.c_Seconds := 1 |}.
Proof. reflexivity. Qed.

Example format_time_components_negative :
  Webapp.format_time_components (-10)
  = {| Webapp.c_Days := -1; Webapp.c_Hours := 23; Webapp.c_Minutes := 59;
       Webapp.c_Seconds := 50 |}.
Proof. reflexivity. Qed.

(** The report of [process_logs.py] on the scenario of the
    specification: namespace [a] with a mean of 10 seconds, then [b] with
    5.  On three rows the default sort is the insertion sort of a small
    segment, and agrees with the stable sort. *)
Example process_logs_on_scenario :
  option_map
    (fun report => map (fun r => (ProcessLogs.Namespace r, ProcessLogs.mean r,
                                  ProcessLogs.max r, ProcessLogs.count r))
                     (fst report))
    (ProcessLogs.main (by_Timestamp := quicksort_by_Timestamp)
       (by_mean := quicksort_descending ProcessLogs.mean) scenario)
  = Some [("a"%string, 10 # 1, 10, 1%nat); ("b"%string, 5 # 1, 5, 1%nat)]
  /\
  ProcessLogs.main (by_Timestamp := stable_by_Timestamp)
    (by_mean := stable_descending ProcessLogs.mean) scenario
  = ProcessLogs.main (by_Timestamp := quicksort_by_Timestamp)
      (by_mean := quicksort_descending ProcessLogs.mean) scenario.
Proof. split; vm_compute; reflexivity. Qed.

(** On two rows the default sort leaves rows of equal keys in their
    order: of two rows of one pod taken in the same second the first is
    kept, a second deduplication changes nothing, and two namespaces of
    equal mean come out in the order of their names. *)
Example default_sort_on_two_rows :
  ProcessLogs.dedup_data (by_Timestamp := quicksort_by_Timestamp) [first_row; second_row]
  = [first_row]
  /\
  (let observed := [sample_at 1704067260 "7d1c" 10; sample_at 1704067260 "9e2f" 5] in
   ProcessLogs.dedup_data (by_Timestamp := quicksort_by_Timestamp) observed = observed
   /\ ProcessLogs.dedup_data (by_Timestamp := quicksort_by_Timestamp)
        (ProcessLogs.dedup_data (by_Timestamp := quicksort_by_Timestamp) observed)
      = ProcessLogs.dedup_data (by_Timestamp := quicksort_by_Timestamp) observed)
  /\
  map Webapp.ns_Namespace
    (Webapp.ns_stats (by_AvgQueueTime := quicksort_descending Webapp.AvgQueueTime)
       [webapp_row "a" "p1" 5; webapp_row "b" "p2" 5])
  = ["a"%string; "b"%string].
Proof. repeat split; vm_compute; reflexivity. Qed.

(** numpy's quicksort on equal keys: sixteen positions stay as they
    are, eighteen do not; and on keys that differ it sorts. *)
Example argsort_of_equal_keys :
  Numpy.argsort Z.ltb (repeat 0 16) = seq 0 16
  /\ Numpy.argsort Z.ltb (repeat 0 18)
     = [0; 15; 14; 13; 12; 11; 10; 9; 8; 7; 6; 5; 4; 3; 2; 1; 16; 17]%nat
  /\ Numpy.argsort Z.ltb [30; 10; 20; 10] = [1; 3; 2; 0]%nat
  /\ Sorting.nargsort Z.ltb false [30; 10; 20; 10] = [0; 2; 1; 3]%nat.
Proof. repeat split; vm_compute; reflexivity. Qed.

(** One cycle of the monitor on a store that holds a stale sample: the
    new row is appended, the stale one evicted, the file rewritten. *)
Example monitor_cycle :
  let after :=
    Monitor.run_collection (steady_cluster 10080) load_time
      (Monitor.init None (Some [stale_sample])) in
  map Monitor.QueueTime (Monitor.historical_data after) = [10]
  /\ Monitor.persistent_db after = Some (Monitor.historical_data after).
Proof. split; reflexivity. Qed.

(** [groupby] delivers the namespaces in the order of their names, each
    with its rows in frame order. *)
Example groupby_orders_the_keys :
  map (fun g => (fst g, map Monitor.QueueTime (fst (snd g) :: snd (snd g))))
    (PandasSeries.groupby Monitor.Namespace
       [monitor_row "b" "1" 7; monitor_row "a" "2" 3; monitor_row "c" "3" 1;
        monitor_row "b" "4" 9])
  = [("a"%string, [3]); ("b"%string, [7; 9]); ("c"%string, [1])].
Proof. reflexivity. Qed.

(** The window is closed on the side of the past: a sample taken exactly
    seven days before [now] is retained, and evicted half a second
    later. *)
Example eviction_at_the_boundary :
  let opening := sample_at 1704067200 "7d1c" 10 in
  let store := Monitor.init None (Some [opening]) in
  Monitor.historical_data
    (Monitor.update_persistent_storage [fresh_sample] 1704672000000000 store)
  = [opening; fresh_sample]
  /\ Monitor.historical_data
       (Monitor.update_persistent_storage [fresh_sample] load_time store)
     = [fresh_sample].
Proof. split; reflexivity. Qed.

(* ================================================================== *)
(** * Further properties of the programs                              *)
(* ================================================================== *)

(** ** Durations as days, hours, minutes and seconds *)

(** X1: [format_time_components] (and [format_time] of the monitor, which
    is the same computation) splits a whole number of seconds exactly:
    the four components add up to the input, with hours, minutes and
    seconds in their clock ranges; the sign of the input is carried by
    the days alone. *)
Theorem format_time_components_exact (seconds : Z) :
  let c := Webapp.format_time_components seconds in
  Webapp.c_Days c * 86400 + Webapp.c_Hours c * 3600
    + Webapp.c_Minutes c * 60 + Webapp.c_Seconds c = seconds
  /\ 0 <= Webapp.c_Hours c < 24
  /\ 0 <= Webapp.c_Minutes c < 60
  /\ 0 <= Webapp.c_Seconds c < 60
  /\ (0 <= Webapp.c_Days c <-> 0 <= seconds)
  /\ Monitor.format_time seconds
     = (Webapp.c_Days c, Webapp.c_Hours c, Webapp.c_Minutes c, Webapp.c_Seconds c).
Proof.
  unfold Webapp.format_time_components, Monitor.format_time, Py.divmod. simpl.
  repeat split; try (Z.div_mod_to_equations; lia);
    Z.div_mod_to_equations; lia.
Qed.

(** X2: [format_time] of [process_logs.py] splits a whole number of
    seconds exactly into hours, minutes and seconds, minutes and seconds
    in their clock ranges; its hours are the days and hours of the
    monitor's [format_time] put together. *)
Theorem format_time_hours_exact (seconds : Z) :
  let '(hours, minutes, secs) := ProcessLogs.format_time seconds in
  let '(d, h, m, s) := Monitor.format_time seconds in
  hours * 3600 + minutes * 60 + secs = seconds
  /\ 0 <= minutes < 60
  /\ 0 <= secs < 60
  /\ hours = d * 24 + h /\ minutes = m /\ secs = s.
Proof.
  unfold ProcessLogs.format_time, Monitor.format_time, Py.divmod. simpl.
  repeat split; Z.div_mod_to_equations; lia.
Qed.

(** ** What a collection cycle returns *)

(** The row, if any, that one pod contributes. *)
Definition Monitor_row_of (exclude : list string) (timestamp : Z) (pod : Kubectl.pod)
  : list Monitor.Sample :=
  match Monitor.process_pod exclude timestamp pod with
  | Py.Ok (Some row) => [row]
  | _ => []
  end.

Definition Webapp_row_of (exclude : list string) (timestamp : Z) (pod : Kubectl.pod)
  : list Webapp.Row :=
  match Webapp.process_pod exclude timestamp pod with
  | Py.Ok (Webapp.Append row) => [row]
  | _ => []
  end.

Definition Webapp_message_of (exclude : list string) (timestamp : Z) (pod : Kubectl.pod)
  : list Webapp.message :=
  match Webapp.process_pod exclude timestamp pod with
  | Py.Ok (Webapp.ContinueLogged m) => [m]
  | _ => []
  end.

Lemma Monitor_for_each_pod_rows exclude timestamp items queue_times df :
  Monitor.for_each_pod exclude timestamp items queue_times = Py.Ok df ->
  df = queue_times ++ flat_map (Monitor_row_of exclude timestamp) items.
Proof.
  revert queue_times. induction items as [|pod rest IH]; simpl; intros acc H.
  - injection H as <-. now rewrite app_nil_r.
  - unfold Monitor_row_of at 1.
    destruct (Monitor.process_pod exclude timestamp pod) as [[row|]|e];
      simpl in H; try discriminate.
    + rewrite (IH _ H), <- app_assoc. reflexivity.
    + exact (IH _ H).
Qed.

Lemma Monitor_for_each_pod_total exclude timestamp items queue_times :
  Forall (fun pod => ~ raises (Monitor.process_pod exclude timestamp pod)) items ->
  Monitor.for_each_pod exclude timestamp items queue_times
  = Py.Ok (queue_times ++ flat_map (Monitor_row_of exclude timestamp) items).
Proof.
  revert queue_times. induction items as [|pod rest IH]; simpl; intros acc Hall.
  - now rewrite app_nil_r.
  - inversion Hall as [|? ? Hpod Hrest]; subst. unfold Monitor_row_of at 1.
    destruct (Monitor.process_pod exclude timestamp pod) as [[row|]|e]; simpl.
    + rewrite (IH _ Hrest), <- app_assoc. reflexivity.
    + exact (IH _ Hrest).
    + exfalso. apply Hpod. now exists e.
Qed.

Lemma Webapp_for_each_pod_rows exclude timestamp items queue_times logged logged' df :
  Webapp.for_each_pod exclude timestamp items queue_times logged = (logged', Py.Ok df) ->
  df = queue_times ++ flat_map (Webapp_row_of exclude timestamp) items
  /\ logged' = logged ++ flat_map (Webapp_message_of exclude timestamp) items.
Proof.
  revert queue_times logged.
  induction items as [|pod rest IH]; simpl; intros acc logged H.
  - injection H as <- <-. now rewrite !app_nil_r.
  - unfold Webapp_row_of at 1, Webapp_message_of at 1.
    destruct (Webapp.process_pod exclude timestamp pod) as [[|m|row]|e];
      try discriminate; simpl.
    + exact (IH _ _ H).
    + destruct (IH _ _ H) as [-> ->]. now rewrite <- app_assoc.
    + destruct (IH _ _ H) as [-> ->]. now rewrite <- app_assoc.
Qed.

Lemma Webapp_for_each_pod_total exclude timestamp items queue_times logged :
  Forall (fun pod => ~ raises (Webapp.process_pod exclude timestamp pod)) items ->
  Webapp.for_each_pod exclude timestamp items queue_times logged
  = (logged ++ flat_map (Webapp_message_of exclude timestamp) items,
     Py.Ok (queue_times ++ flat_map (Webapp_row_of exclude timestamp) items)).
Proof.
  revert queue_times logged.
  induction items as [|pod rest IH]; simpl; intros acc logged Hall.
  - now rewrite !app_nil_r.
  - inversion Hall as [|? ? Hpod Hrest]; subst.
    unfold Webapp_row_of at 1, Webapp_message_of at 1.
    destruct (Webapp.process_pod exclude timestamp pod) as [[|m|row]|e]; simpl.
    + exact (IH _ _ Hrest).
    + rewrite (IH _ _ Hrest), <- !app_assoc. reflexivity.
    + rewrite (IH _ _ Hrest), <- !app_assoc. reflexivity.
    + exfalso. apply Hpod. now exists e.
Qed.

(** The loop logs as it goes: what it had logged stays, also when a pod
    raises. *)
Lemma Webapp_for_each_pod_logged exclude timestamp items queue_times logged :
  exists more,
    fst (Webapp.for_each_pod exclude timestamp items queue_times logged) = logged ++ more.
Proof.
  revert queue_times logged.
  induction items as [|pod rest IH]; simpl; intros acc logged.
  - exists []. now rewrite app_nil_r.
  - destruct (Webapp.process_pod exclude timestamp pod) as [[|m|row]|e]; simpl.
    + apply IH.
    + destruct (IH acc (logged ++ [m])) as [more Hm].
      exists (m :: more). now rewrite Hm, <- app_assoc.
    + apply IH.
    + exists []. now rewrite app_nil_r.
Qed.

(** The fields of a started pod of the payload, as a row reports them. *)
Definition read_from (pod : Kubectl.pod)
  (namespace pod_name created_text started_text : string) (queue_time : Z) : Prop :=
  Kubectl.namespace pod = Some namespace
  /\ Kubectl.name pod = Some pod_name
  /\ exists created started created_time start_time,
       Kubectl.creationTimestamp pod = Some created
       /\ Kubectl.startTime pod = Some started
       /\ Kubectl.instant created = Some created_time
       /\ Kubectl.instant started = Some start_time
       /\ Kubectl.text created = created_text
       /\ Kubectl.text started = started_text
       /\ queue_time = start_time - created_time.

Lemma Monitor_process_pod_reads exclude timestamp pod row :
  Monitor.process_pod exclude timestamp pod = Py.Ok (Some row) ->
  Monitor.Timestamp row = timestamp
  /\ Kubectl.uid pod = Some (Monitor.PodUID row)
  /\ read_from pod (Monitor.Namespace row) (Monitor.Pod row)
       (Monitor.CreationTime row) (Monitor.StartTime row) (Monitor.QueueTime row).
Proof.
  unfold Monitor.process_pod, read_from. intros H.
  destruct (Kubectl.namespace pod) as [ns|]; simpl in H; [|discriminate].
  destruct (Py.contains exclude ns); [discriminate|].
  destruct (Kubectl.startTime pod) as [st|]; [|discriminate].
  destruct (Kubectl.name pod) as [nm|]; simpl in H; [|discriminate].
  destruct (Kubectl.uid pod) as [u|]; simpl in H; [|discriminate].
  destruct (Kubectl.creationTimestamp pod) as [ct|]; simpl in H; [|discriminate].
  unfold Kubectl.to_datetime in H.
  destruct (Kubectl.instant ct) as [zc|] eqn:Ec; simpl in H; [|discriminate].
  destruct (Kubectl.instant st) as [zs|] eqn:Es; simpl in H; [|discriminate].
  destruct (zs - zc >? ceiling_seconds); [discriminate|].
  injection H as <-. simpl. repeat split.
  exists ct, st, zc, zs. repeat split; assumption.
Qed.

Lemma Webapp_process_pod_reads exclude timestamp pod row :
  Webapp.process_pod exclude timestamp pod = Py.Ok (Webapp.Append row) ->
  Webapp.Timestamp row = timestamp
  /\ {| Webapp.c_Days := Webapp.Days row; Webapp.c_Hours := Webapp.Hours row;
        Webapp.c_Minutes := Webapp.Minutes row; Webapp.c_Seconds := Webapp.Seconds row |}
     = Webapp.format_time_components (Webapp.QueueTime row)
  /\ read_from pod (Webapp.Namespace row) (Webapp.Pod row)
       (Webapp.CreationTime row) (Webapp.StartTime row) (Webapp.QueueTime row).
Proof.
  unfold Webapp.process_pod, read_from. intros H.
  destruct (Kubectl.namespace pod) as [ns|]; simpl in H; [|discriminate].
  destruct (Py.contains exclude ns); [discriminate|].
  destruct (Kubectl.startTime pod) as [st|]; [|discriminate].
  destruct (Kubectl.name pod) as [nm|]; simpl in H; [|discriminate].
  destruct (Kubectl.creationTimestamp pod) as [ct|]; simpl in H; [|discriminate].
  unfold Kubectl.to_datetime in H.
  destruct (Kubectl.instant ct) as [zc|] eqn:Ec; simpl in H; [|discriminate].
  destruct (Kubectl.instant st) as [zs|] eqn:Es; simpl in H; [|discriminate].
  destruct (zs - zc >? ceiling_seconds); [discriminate|].
  injection H as <-. simpl. split; [reflexivity|]. split.
  - unfold Webapp.format_time_components, Py.divmod. reflexivity.
  - repeat split. exists ct, st, zc, zs. repeat split; assumption.
Qed.

Lemma flat_map_at_most_one {A B : Type} (f : A -> list B) (l : list A) :
  (forall a, (List.length (f a) <= 1)%nat) ->
  (List.length (flat_map f l) <= List.length l)%nat.
Proof.
  intros Hf. induction l as [|a l IH]; simpl; [lia|].
  rewrite length_app. specialize (Hf a). lia.
Qed.

Lemma Monitor_collect_rows clock items self :
  let df := fst (Monitor.collect_queue_times
                   (at_clock clock (Kubectl.Parsed (Some items))) self) in
  df = [] \/ df = flat_map (Monitor_row_of (Monitor.exclude_namespaces self) clock) items.
Proof.
  unfold Monitor.collect_queue_times, Monitor.try_collect, at_clock. simpl.
  destruct (Monitor.for_each_pod _ clock items []) as [df|e] eqn:E; simpl; [|now left].
  right. now apply Monitor_for_each_pod_rows in E.
Qed.

Lemma Webapp_collect_rows clock items self :
  let df := fst (Webapp.collect_queue_times
                   (at_clock clock (Kubectl.Parsed (Some items))) self) in
  df = [] \/ df = flat_map (Webapp_row_of (Webapp.exclude_namespaces self) clock) items.
Proof.
  unfold Webapp.collect_queue_times, Webapp.try_collect, at_clock. simpl.
  destruct (Webapp.for_each_pod _ clock items [] _) as [logged [df|e]] eqn:E; simpl;
    [|now left].
  right. now apply Webapp_for_each_pod_rows in E.
Qed.

(** X3: every row that a collection cycle returns carries the time of
    the cycle and reports a started pod of the payload: its namespace, its
    name, its uid (monitor), the two timestamps as the payload writes
    them, and their difference as queue time; in the web application the
    four components of the row are those of its queue time.  A cycle
    returns at most one row per pod. *)
Theorem sampled_rows_come_from_the_payload
  (clock : Z) (items : list Kubectl.pod)
  (m : Monitor.QueueTimeCollector) (w : Webapp.QueueTimeStatsCollector) :
  let world := at_clock clock (Kubectl.Parsed (Some items)) in
  Forall (fun s =>
            Monitor.Timestamp s = clock
            /\ exists pod, In pod items
                 /\ Kubectl.uid pod = Some (Monitor.PodUID s)
                 /\ read_from pod (Monitor.Namespace s) (Monitor.Pod s)
                      (Monitor.CreationTime s) (Monitor.StartTime s) (Monitor.QueueTime s))
    (fst (Monitor.collect_queue_times world m))
  /\
  Forall (fun r =>
            Webapp.Timestamp r = clock
            /\ {| Webapp.c_Days := Webapp.Days r; Webapp.c_Hours := Webapp.Hours r;
                  Webapp.c_Minutes := Webapp.Minutes r;
                  Webapp.c_Seconds := Webapp.Seconds r |}
               = Webapp.format_time_components (Webapp.QueueTime r)
            /\ exists pod, In pod items
                 /\ read_from pod (Webapp.Namespace r) (Webapp.Pod r)
                      (Webapp.CreationTime r) (Webapp.StartTime r) (Webapp.QueueTime r))
    (fst (Webapp.collect_queue_times world w))
  /\ (List.length (fst (Monitor.collect_queue_times world m)) <= List.length items)%nat
  /\ (List.length (fst (Webapp.collect_queue_times world w)) <= List.length items)%nat.
Proof.
  intros world.
  pose proof (Monitor_collect_rows clock items m) as Hm.
  pose proof (Webapp_collect_rows clock items w) as Hw.
  fold world in Hm, Hw. cbn zeta in Hm, Hw.
  repeat split.
  - destruct Hm as [-> | ->]; [constructor|].
    apply Forall_forall. intros s Hs. apply in_flat_map in Hs.
    destruct Hs as (pod & Hpod & Hs). unfold Monitor_row_of in Hs.
    destruct (Monitor.process_pod _ clock pod) as [[row|]|e] eqn:E; try easy.
    destruct Hs as [<- | []]. apply Monitor_process_pod_reads in E.
    destruct E as (Ht & Hu & Hr). split; [exact Ht|]. now exists pod.
  - destruct Hw as [-> | ->]; [constructor|].
    apply Forall_forall. intros r Hr. apply in_flat_map in Hr.
    destruct Hr as (pod & Hpod & Hr). unfold Webapp_row_of in Hr.
    destruct (Webapp.process_pod _ clock pod) as [[|msg|row]|e] eqn:E; try easy.
    destruct Hr as [<- | []]. apply Webapp_process_pod_reads in E.
    destruct E as (Ht & Hc & Hr). split; [exact Ht|]. split; [exact Hc|]. now exists pod.
  - destruct Hm as [-> | ->]; [simpl; lia|].
    apply flat_map_at_most_one. intros pod. unfold Monitor_row_of.
    destruct (Monitor.process_pod _ clock pod) as [[row|]|e]; simpl; lia.
  - destruct Hw as [-> | ->]; [simpl; lia|].
    apply flat_map_at_most_one. intros pod. unfold Webapp_row_of.
    destruct (Webapp.process_pod _ clock pod) as [[|msg|row]|e]; simpl; lia.
Qed.

(** X4: when a cycle of the monitor does not fail, no pod is lost: each
    started pod of the payload whose namespace is not excluded and whose
    queue time is at most the ceiling has its row in the frame. *)
Theorem successful_cycle_samples_every_started_pod
  (exclude : list string) (clock : Z) (items : list Kubectl.pod)
  (df : list Monitor.Sample)
  (pod : Kubectl.pod) (namespace pod_name pod_uid created_text started_text : string)
  (queue_time : Z) :
  Monitor.try_collect exclude (at_clock clock (Kubectl.Parsed (Some items))) = Py.Ok df ->
  In pod items ->
  read_from pod namespace pod_name created_text started_text queue_time ->
  Kubectl.uid pod = Some pod_uid ->
  ~ In namespace exclude ->
  queue_time <= ceiling_seconds ->
  In {| Monitor.Timestamp := clock; Monitor.Namespace := namespace;
        Monitor.Pod := pod_name; Monitor.PodUID := pod_uid;
        Monitor.QueueTime := queue_time; Monitor.CreationTime := created_text;
        Monitor.StartTime := started_text |} df.
Proof.
  unfold Monitor.try_collect, at_clock. simpl. intros Hdf Hin Hread Huid Hns Hq.
  apply Monitor_for_each_pod_rows in Hdf. subst df. simpl.
  apply in_flat_map. exists pod. split; [exact Hin|].
  destruct Hread as (Hn & Hname & ct & st & zc & zs & Hct & Hst & Hzc & Hzs & <- & <- & ->).
  unfold Monitor_row_of, Monitor.process_pod, Kubectl.to_datetime.
  rewrite Hn. simpl. apply contains_false in Hns. rewrite Hns, Hst, Hname. simpl.
  rewrite Huid, Hct. simpl. rewrite Hzc, Hzs. simpl.
  assert (E : (zs - zc >? ceiling_seconds) = false) by lia. rewrite E.
  now left.
Qed.

Lemma successful_cycle_samples_every_started_pod_witness :
  In {| Monitor.Timestamp := 1704067260; Monitor.Namespace := "default";
        Monitor.Pod := "web-0"; Monitor.PodUID := "7d1c";
        Monitor.QueueTime := 10; Monitor.CreationTime := "2024-01-01T00:00:00Z";
        Monitor.StartTime := "2024-01-01T00:00:10Z" |}
    [sample_at 1704067260 "7d1c" 10].
Proof.
  apply (successful_cycle_samples_every_started_pod ["kube-system"%string] 1704067260
           [started_pod] [sample_at 1704067260 "7d1c" 10] started_pod).
  - reflexivity.
  - now left.
  - repeat split. eexists _, _, _, _. repeat split; reflexivity.
  - reflexivity.
  - simpl. intros [H|[]]. discriminate.
  - vm_compute. discriminate.
Defined.

(** ** Pods that a cycle passes over *)

(** A pod in an excluded namespace, or that has not started. *)
Definition skipped (exclude : list string) (pod : Kubectl.pod) : bool :=
  match Kubectl.namespace pod with
  | Some namespace =>
      Py.contains exclude namespace
      || match Kubectl.startTime pod with Some _ => false | None => true end
  | None => false
  end.

Lemma skipped_process_pod exclude timestamp pod :
  skipped exclude pod = true ->
  Monitor.process_pod exclude timestamp pod = Py.Ok None
  /\ Webapp.process_pod exclude timestamp pod = Py.Ok Webapp.Continue.
Proof.
  unfold skipped, Monitor.process_pod, Webapp.process_pod.
  destruct (Kubectl.namespace pod) as [ns|]; [|discriminate]. simpl.
  destruct (Py.contains exclude ns); [now split|]. simpl.
  destruct (Kubectl.startTime pod); [discriminate | now split].
Qed.

Lemma Monitor_for_each_pod_without_skipped exclude timestamp items queue_times :
  Monitor.for_each_pod exclude timestamp items queue_times
  = Monitor.for_each_pod exclude timestamp
      (filter (fun pod => negb (skipped exclude pod)) items) queue_times.
Proof.
  revert queue_times. induction items as [|pod rest IH]; intros acc; [reflexivity|].
  simpl. destruct (skipped exclude pod) eqn:E; simpl.
  - apply (skipped_process_pod exclude timestamp) in E. destruct E as [-> _].
    simpl. apply IH.
  - destruct (Monitor.process_pod exclude timestamp pod) as [row|e]; simpl;
      [apply IH | reflexivity].
Qed.

Lemma Webapp_for_each_pod_without_skipped exclude timestamp items queue_times logged :
  Webapp.for_each_pod exclude timestamp items queue_times logged
  = Webapp.for_each_pod exclude timestamp
      (filter (fun pod => negb (skipped exclude pod)) items) queue_times logged.
Proof.
  revert queue_times logged.
  induction items as [|pod rest IH]; intros acc logged; [reflexivity|].
  simpl. destruct (skipped exclude pod) eqn:E; simpl.
  - apply (skipped_process_pod exclude timestamp) in E. destruct E as [_ ->].
    apply IH.
  - destruct (Webapp.process_pod exclude timestamp pod) as [[|m|row]|e];
      [apply IH | apply IH | apply IH | reflexivity].
Qed.

(** X5: pods in an excluded namespace and pods that have not started are
    invisible to a cycle: it returns, prints and logs what it would if
    they were not in the payload, whatever their other fields, missing or
    malformed as they may be. *)
Theorem skipped_pods_are_invisible
  (clock : Z) (items : list Kubectl.pod)
  (m : Monitor.QueueTimeCollector) (w : Webapp.QueueTimeStatsCollector) :
  Monitor.collect_queue_times (at_clock clock (Kubectl.Parsed (Some items))) m
  = Monitor.collect_queue_times
      (at_clock clock
         (Kubectl.Parsed
            (Some (filter (fun pod => negb (skipped (Monitor.exclude_namespaces m) pod))
                     items)))) m
  /\
  Webapp.collect_queue_times (at_clock clock (Kubectl.Parsed (Some items))) w
  = Webapp.collect_queue_times
      (at_clock clock
         (Kubectl.Parsed
            (Some (filter (fun pod => negb (skipped (Webapp.exclude_namespaces w) pod))
                     items)))) w.
Proof.
  unfold Monitor.collect_queue_times, Monitor.try_collect,
    Webapp.collect_queue_times, Webapp.try_collect, at_clock. simpl.
  now rewrite <- Monitor_for_each_pod_without_skipped,
    <- Webapp_for_each_pod_without_skipped.
Qed.

(** ** The two samplers agree *)

(** A row of the monitor as the web application reports it. *)
Definition webapp_view (s : Monitor.Sample) : Webapp.Row :=
  let time_components := Webapp.format_time_components (Monitor.QueueTime s) in
  {| Webapp.Timestamp := Monitor.Timestamp s;
     Webapp.Namespace := Monitor.Namespace s;
     Webapp.Pod := Monitor.Pod s;
     Webapp.QueueTime := Monitor.QueueTime s;
     Webapp.Days := Webapp.c_Days time_components;
     Webapp.Hours := Webapp.c_Hours time_components;
     Webapp.Minutes := Webapp.c_Minutes time_components;
     Webapp.Seconds := Webapp.c_Seconds time_components;
     Webapp.CreationTime := Monitor.CreationTime s;
     Webapp.StartTime := Monitor.StartTime s |}.

Lemma process_pod_agree exclude timestamp pod :
  match Monitor.process_pod exclude timestamp pod with
  | Py.Ok (Some row) =>
      Webapp.process_pod exclude timestamp pod = Py.Ok (Webapp.Append (webapp_view row))
  | Py.Ok None =>
      Webapp.process_pod exclude timestamp pod = Py.Ok Webapp.Continue
      \/ exists m, Webapp.process_pod exclude timestamp pod = Py.Ok (Webapp.ContinueLogged m)
  | Py.Raise _ => True
  end.
Proof.
  unfold Monitor.process_pod, Webapp.process_pod, Kubectl.to_datetime.
  destruct (Kubectl.namespace pod) as [ns|]; simpl; [|trivial].
  destruct (Py.contains exclude ns); [now left|].
  destruct (Kubectl.startTime pod) as [st|]; [|now left].
  destruct (Kubectl.name pod) as [nm|]; simpl; [|trivial].
  destruct (Kubectl.uid pod) as [u|]; simpl; [|trivial].
  destruct (Kubectl.creationTimestamp pod) as [ct|]; simpl; [|trivial].
  destruct (Kubectl.instant ct) as [zc|]; simpl; [|trivial].
  destruct (Kubectl.instant st) as [zs|]; simpl; [|trivial].
  destruct (zs - zc >? ceiling_seconds); [right; eexists; reflexivity | reflexivity].
Qed.

Lemma for_each_pod_agree exclude timestamp items queue_times logged df :
  Monitor.for_each_pod exclude timestamp items queue_times = Py.Ok df ->
  snd (Webapp.for_each_pod exclude timestamp items (map webapp_view queue_times) logged)
  = Py.Ok (map webapp_view df).
Proof.
  revert queue_times logged. induction items as [|pod rest IH]; simpl; intros acc logged H.
  - now injection H as <-.
  - pose proof (process_pod_agree exclude timestamp pod) as Hpod.
    destruct (Monitor.process_pod exclude timestamp pod) as [[row|]|e];
      simpl in H; [| |discriminate].
    + rewrite Hpod. specialize (IH _ logged H). now rewrite map_app in IH.
    + destruct Hpod as [-> | [msg ->]]; now apply IH.
Qed.

(** X6: on a payload that the monitor can read, the web application
    returns the same rows: the same pods in the same order, with the same
    namespace, name, queue time and timestamps (it has no column for the
    uid, which it does not read). *)
Theorem samplers_agree
  (world : Kubectl.snapshot) (w : Webapp.QueueTimeStatsCollector)
  (df : list Monitor.Sample) :
  Monitor.try_collect (Webapp.exclude_namespaces w) world = Py.Ok df ->
  fst (Webapp.collect_queue_times world w) = map webapp_view df.
Proof.
  unfold Monitor.try_collect, Webapp.collect_queue_times, Webapp.try_collect.
  destruct (Kubectl.items_of (Kubectl.answer world)) as [items|e]; simpl; [|discriminate].
  intros H.
  apply (for_each_pod_agree _ _ _ [] (Webapp.logs w ++ [Webapp.RunningCommand])) in H.
  simpl in H.
  destruct (Webapp.for_each_pod _ _ items [] _) as [logged outcome]. simpl in H.
  now subst outcome.
Qed.

Lemma samplers_agree_witness :
  fst (Webapp.collect_queue_times (steady_cluster 1) (Webapp.init 5 60 None))
  = map webapp_view [sample_at 1704067260 "7d1c" 10].
Proof.
  apply (samplers_agree (steady_cluster 1) (Webapp.init 5 60 None)).
  reflexivity.
Defined.

(** ** The default exclusion *)

(** X7: a collector created without a list of excluded namespaces, or
    with an empty one, excludes [kube-system]: no cycle returns a row of
    that namespace.  An empty list does not switch the exclusion off. *)
Theorem kube_system_excluded_by_default
  (exclude : option (list string)) (world : Kubectl.snapshot)
  (duration interval : Z) (disk : option (list Monitor.Sample)) :
  exclude = None \/ exclude = Some [] ->
  Forall (fun s => Monitor.Namespace s <> "kube-system"%string)
    (fst (Monitor.collect_queue_times world (Monitor.init exclude disk)))
  /\
  Forall (fun r => Webapp.Namespace r <> "kube-system"%string)
    (fst (Webapp.collect_queue_times world (Webapp.init duration interval exclude))).
Proof.
  intros Hex.
  assert (Hdefault : or_kube_system exclude = ["kube-system"%string])
    by (destruct Hex as [-> | ->]; reflexivity).
  split.
  - pose proof (Monitor_collect_passes world (Monitor.init exclude disk)) as H.
    eapply Forall_impl; [|exact H]. intros s [Hs _] Heq. apply Hs.
    destruct disk; simpl; rewrite Hdefault, Heq; now left.
  - pose proof (Webapp_collect_passes world (Webapp.init duration interval exclude)) as H.
    eapply Forall_impl; [|exact H]. intros r [Hr _] Heq. apply Hr.
    simpl. rewrite Hdefault, Heq. now left.
Qed.

Lemma kube_system_excluded_by_default_witness :
  Forall (fun s => Monitor.Namespace s <> "kube-system"%string)
    (fst (Monitor.collect_queue_times skewed_cluster (Monitor.init (Some []) None))).
Proof.
  apply (kube_system_excluded_by_default (Some []) skewed_cluster 5 60 None).
  now right.
Defined.

(** ** The store over a run of cycles *)

(** The file holds what the collector holds. *)
Definition in_sync (self : Monitor.QueueTimeCollector) : Prop :=
  match Monitor.persistent_db self with
  | Some rows => Monitor.historical_data self = rows
  | None => Monitor.historical_data self = []
  end.

Lemma init_in_sync exclude disk : in_sync (Monitor.init exclude disk).
Proof. now destruct disk. Qed.

Lemma run_collection_store world now self :
  let after := Monitor.run_collection world now self in
  Monitor.exclude_namespaces after = Monitor.exclude_namespaces self
  /\ ((Monitor.historical_data after = Monitor.historical_data self
       /\ Monitor.persistent_db after = Monitor.persistent_db self)
      \/ (collected (Monitor.exclude_namespaces self) world <> []
          /\ Monitor.historical_data after
             = filter (fun row => Monitor.micros (Monitor.Timestamp row)
                                  >=? now - Monitor.seven_days)
                 (Monitor.historical_data self
                    ++ collected (Monitor.exclude_namespaces self) world)
          /\ Monitor.persistent_db after = Some (Monitor.historical_data after))).
Proof.
  unfold Monitor.run_collection.
  set (self0 := Monitor.print Monitor.StartingCollection self).
  pose proof (collect_queue_times_collected world self0) as Hc.
  pose proof (collect_queue_times_store world self0) as Hs.
  destruct (Monitor.collect_queue_times world self0) as [new_data self1].
  simpl in Hc, Hs. destruct Hs as (He & Hh & Hp).
  change (Monitor.exclude_namespaces self0) with (Monitor.exclude_namespaces self) in *.
  change (Monitor.historical_data self0) with (Monitor.historical_data self) in *.
  change (Monitor.persistent_db self0) with (Monitor.persistent_db self) in *.
  rewrite <- Hc. destruct new_data as [|row rows].
  - simpl. split; [exact He|]. left. now split.
  - simpl. split; [exact He|]. right. rewrite Hh.
    split; [discriminate|]. split; reflexivity.
Qed.

Lemma run_collection_in_sync world now self :
  in_sync self -> in_sync (Monitor.run_collection world now self).
Proof.
  intros Hsync. destruct (run_collection_store world now self) as (_ & [[Hh Hp] | (_ & _ & Hp)]).
  - unfold in_sync. now rewrite Hh, Hp.
  - unfold in_sync. now rewrite Hp.
Qed.

Lemma run_cycles_in_sync cycles self :
  in_sync self -> in_sync (Monitor.run_cycles cycles self).
Proof.
  revert self. induction cycles as [|[world now] rest IH]; simpl; intros self H;
    [exact H|]. now apply IH, run_collection_in_sync.
Qed.

(** X8: the file follows the store.  A cycle that returns rows rewrites
    the file with exactly the rows that the collector retains: the rows
    it held and the new ones, without those older than the window, so
    that no evicted row stays in the file.  A cycle that returns none
    leaves file and memory as they are.  Hence a collector whose memory
    is the content of its file keeps it so over every run of cycles. *)
Theorem file_follows_the_store
  (world : Kubectl.snapshot) (now : Z) (self : Monitor.QueueTimeCollector) :
  let new_data := fst (Monitor.collect_queue_times world self) in
  let after := Monitor.run_collection world now self in
  (new_data <> [] ->
     Monitor.persistent_db after = Some (Monitor.historical_data after)
     /\ Monitor.historical_data after
        = filter (fun row => Monitor.micros (Monitor.Timestamp row)
                             >=? now - Monitor.seven_days)
            (Monitor.historical_data self ++ new_data)
     /\ Forall (in_window now) (Monitor.historical_data after))
  /\ (new_data = [] ->
        Monitor.persistent_db after = Monitor.persistent_db self
        /\ Monitor.historical_data after = Monitor.historical_data self)
  /\ (forall cycles, in_sync self -> in_sync (Monitor.run_cycles cycles self)).
Proof.
  intros new_data after. unfold new_data. rewrite collect_queue_times_collected.
  assert (Hcases :
            (collected (Monitor.exclude_namespaces self) world = []
             /\ Monitor.historical_data after = Monitor.historical_data self
             /\ Monitor.persistent_db after = Monitor.persistent_db self)
            \/ (collected (Monitor.exclude_namespaces self) world <> []
                /\ Monitor.historical_data after
                   = filter (fun row => Monitor.micros (Monitor.Timestamp row)
                                        >=? now - Monitor.seven_days)
                       (Monitor.historical_data self
                          ++ collected (Monitor.exclude_namespaces self) world)
                /\ Monitor.persistent_db after = Some (Monitor.historical_data after))).
  { unfold after, Monitor.run_collection.
    set (self0 := Monitor.print Monitor.StartingCollection self).
    pose proof (collect_queue_times_collected world self0) as Hc.
    pose proof (collect_queue_times_store world self0) as Hs.
    destruct (Monitor.collect_queue_times world self0) as [df self1].
    simpl in Hc, Hs. destruct Hs as (He & Hh & Hp).
    change (Monitor.exclude_namespaces self0) with (Monitor.exclude_namespaces self) in *.
    change (Monitor.historical_data self0) with (Monitor.historical_data self) in *.
    change (Monitor.persistent_db self0) with (Monitor.persistent_db self) in *.
    rewrite <- Hc. destruct df as [|row rows].
    - simpl. left. now repeat split.
    - simpl. right. rewrite Hh. split; [discriminate|]. split; reflexivity. }
  split; [|split].
  - intros Hne. destruct Hcases as [(Hnil & _) | (_ & Hh & Hp)]; [now elim Hne|].
    split; [exact Hp|]. split; [exact Hh|]. rewrite Hh.
    apply Forall_forall. intros s Hs. apply filter_In in Hs. destruct Hs as [_ Hs].
    unfold in_window. lia.
  - intros Hnil. destruct Hcases as [(_ & Hh & Hp) | (Hne & _)]; [now split | now elim Hne].
  - intros cycles. apply run_cycles_in_sync.
Qed.

Lemma file_follows_the_store_witness :
  let after :=
    Monitor.run_collection (steady_cluster 10080) load_time
      (Monitor.init None (Some [stale_sample])) in
  Monitor.persistent_db after = Some (Monitor.historical_data after)
  /\ map Monitor.Timestamp (Monitor.historical_data after) = [1704672000]
  /\ Forall (in_window load_time) (Monitor.historical_data after).
Proof.
  destruct (file_follows_the_store (steady_cluster 10080) load_time
              (Monitor.init None (Some [stale_sample]))) as (H & _).
  destruct H as (Hp & Hh & Hw); [vm_compute; discriminate|].
  split; [exact Hp|]. split; [|exact Hw].
  rewrite Hh. vm_compute. reflexivity.
Defined.

(** X9: whatever the cycles, the store holds only rows that were in it
    at the start and rows that passed the sampler's filter: a namespace
    outside the exclusion list and a queue time of at most 30 days. *)
Theorem store_holds_loaded_and_sampled_rows
  (cycles : list (Kubectl.snapshot * Z)) (self : Monitor.QueueTimeCollector) :
  Forall (fun s => In s (Monitor.historical_data self)
                   \/ passes (Monitor.exclude_namespaces self)
                        (Monitor.Namespace s) (Monitor.QueueTime s))
    (Monitor.historical_data (Monitor.run_cycles cycles self)).
Proof.
  revert self. induction cycles as [|[world now] rest IH]; simpl; intros self.
  - apply Forall_forall. intros s Hs. now left.
  - specialize (IH (Monitor.run_collection world now self)).
    eapply Forall_impl; [|exact IH]. clear IH. intros s Hs.
    destruct (run_collection_store world now self) as (He & Hstore).
    rewrite He in Hs. destruct Hs as [Hs | Hs]; [|now right].
    destruct Hstore as [[Hh _] | (_ & Hh & _)]; rewrite Hh in Hs; [now left|].
    apply filter_In in Hs. destruct Hs as [Hs _].
    apply in_app_or in Hs. destruct Hs as [Hs | Hs]; [now left | right].
    pose proof (Monitor_collect_passes world self) as Hp.
    rewrite collect_queue_times_collected in Hp.
    rewrite Forall_forall in Hp. now apply Hp.
Qed.

Lemma collected_at_clock exclude world :
  Forall (fun s => Monitor.Timestamp s = Kubectl.clock world) (collected exclude world).
Proof.
  unfold collected, Monitor.try_collect.
  destruct (Kubectl.items_of (Kubectl.answer world)) as [items|e]; simpl; [|constructor].
  destruct (Monitor.for_each_pod exclude (Kubectl.clock world) items []) as [df|e] eqn:E;
    [|constructor].
  apply Monitor_for_each_pod_rows in E. subst df. simpl.
  apply Forall_forall. intros s Hs. apply in_flat_map in Hs.
  destruct Hs as (pod & _ & Hs). unfold Monitor_row_of in Hs.
  destruct (Monitor.process_pod exclude _ pod) as [[row|]|e] eqn:E; try easy.
  destruct Hs as [<- | []]. now apply Monitor_process_pod_reads in E.
Qed.

Lemma StronglySorted_filter {A : Type} (R : A -> A -> Prop) (f : A -> bool) (l : list A) :
  StronglySorted R l -> StronglySorted R (filter f l).
Proof.
  induction 1 as [|x l Hs IH Hall]; simpl; [constructor|].
  destruct (f x); [|exact IH]. constructor; [exact IH|].
  rewrite Forall_forall in *. intros y Hy. apply filter_In in Hy. now apply Hall.
Qed.

Lemma StronglySorted_append {A : Type} (R : A -> A -> Prop) (l l' : list A) :
  StronglySorted R l -> StronglySorted R l' ->
  (forall x y, In x l -> In y l' -> R x y) ->
  StronglySorted R (l ++ l').
Proof.
  intros Hl Hl' Hcross. induction Hl as [|x l Hs IH Hall]; simpl; [exact Hl'|].
  constructor.
  - apply IH. intros a b Ha Hb. apply Hcross; [now right | exact Hb].
  - apply Forall_app. split; [exact Hall|].
    apply Forall_forall. intros y Hy. apply Hcross; [now left | exact Hy].
Qed.

Lemma StronglySorted_constant {A : Type} (col : A -> Z) (c : Z) (l : list A) :
  Forall (fun x => col x = c) l -> StronglySorted (fun a b => col a <= col b) l.
Proof.
  induction 1 as [|x l Hx Hall IH]; constructor; [exact IH|].
  eapply Forall_impl; [|exact Hall]. intros y Hy. simpl in Hy. lia.
Qed.

(** The cycles are taken in the order of their clocks, none before
    [bound]. *)
Fixpoint clocks_from (bound : Z) (cycles : list (Kubectl.snapshot * Z)) : Prop :=
  match cycles with
  | [] => True
  | (world, _) :: rest =>
      bound <= Kubectl.clock world /\ clocks_from (Kubectl.clock world) rest
  end.

Definition chronological (rows : list Monitor.Sample) : Prop :=
  StronglySorted (fun a b => Monitor.Timestamp a <= Monitor.Timestamp b) rows.

Lemma run_collection_chronological world now self bound :
  chronological (Monitor.historical_data self) ->
  Forall (fun s => Monitor.Timestamp s <= bound) (Monitor.historical_data self) ->
  bound <= Kubectl.clock world ->
  chronological (Monitor.historical_data (Monitor.run_collection world now self))
  /\ Forall (fun s => Monitor.Timestamp s <= Kubectl.clock world)
       (Monitor.historical_data (Monitor.run_collection world now self)).
Proof.
  intros Hsorted Hbound Hclock.
  pose proof (collected_at_clock (Monitor.exclude_namespaces self) world) as Hnew.
  assert (Hold : Forall (fun s => Monitor.Timestamp s <= Kubectl.clock world)
                   (Monitor.historical_data self)).
  { eapply Forall_impl; [|exact Hbound]. intros s Hs. simpl in Hs. lia. }
  destruct (run_collection_store world now self) as (_ & [[-> _] | (_ & -> & _)]).
  - now split.
  - split.
    + apply StronglySorted_filter, StronglySorted_append; trivial.
      * now apply StronglySorted_constant with (c := Kubectl.clock world).
      * rewrite Forall_forall in Hold, Hnew. intros x y Hx Hy.
        rewrite (Hnew y Hy). now apply Hold.
    + apply Forall_forall. intros s Hs. apply filter_In in Hs. destruct Hs as [Hs _].
      rewrite Forall_forall in Hold, Hnew.
      apply in_app_or in Hs. destruct Hs as [Hs | Hs]; [now apply Hold|].
      rewrite (Hnew s Hs). lia.
Qed.

(** X10: the store stays in the order of time: if its rows are ordered
    by timestamp and the cycles are run in the order of their clocks, none
    before the latest row, then after the run the rows of the store, and
    so those of the file, are ordered by timestamp. *)
Theorem store_stays_chronological
  (cycles : list (Kubectl.snapshot * Z)) (self : Monitor.QueueTimeCollector) (bound : Z) :
  chronological (Monitor.historical_data self) ->
  Forall (fun s => Monitor.Timestamp s <= bound) (Monitor.historical_data self) ->
  clocks_from bound cycles ->
  chronological (Monitor.historical_data (Monitor.run_cycles cycles self)).
Proof.
  revert self bound. induction cycles as [|[world now] rest IH]; simpl;
    intros self bound Hsorted Hbound Hclocks; [exact Hsorted|].
  destruct Hclocks as [Hclock Hrest].
  destruct (run_collection_chronological world now self bound Hsorted Hbound Hclock)
    as [Hs Hb].
  now apply (IH _ (Kubectl.clock world)).
Qed.

Lemma store_stays_chronological_witness :
  chronological
    (Monitor.historical_data
       (Monitor.run_cycles
          [(steady_cluster 10080, load_time); (steady_cluster 10081, load_time + 60000000)]
          (Monitor.init None (Some [stale_sample])))).
Proof.
  apply (store_stays_chronological
           [(steady_cluster 10080, load_time); (steady_cluster 10081, load_time + 60000000)]
           (Monitor.init None (Some [stale_sample])) 1703980800).
  - repeat constructor.
  - repeat constructor. simpl. lia.
  - simpl. lia.
Defined.

(** ** What a run of the loop accumulates *)

Definition same_configuration (a b : Webapp.QueueTimeStatsCollector) : Prop :=
  Webapp.duration_mins a = Webapp.duration_mins b
  /\ Webapp.interval_secs a = Webapp.interval_secs b
  /\ Webapp.exclude_namespaces a = Webapp.exclude_namespaces b.

Definition log_extends (a b : Webapp.QueueTimeStatsCollector) : Prop :=
  exists more, Webapp.logs b = Webapp.logs a ++ more.

Lemma log_extends_refl a : log_extends a a.
Proof. exists []. now rewrite app_nil_r. Qed.

Lemma log_extends_trans a b c : log_extends a b -> log_extends b c -> log_extends a c.
Proof.
  intros [m1 H1] [m2 H2]. exists (m1 ++ m2). now rewrite H2, H1, app_assoc.
Qed.

Lemma log_extends_log m a : log_extends a (Webapp.log m a).
Proof. now exists [m]. Qed.

Lemma Webapp_for_each_pod_outcome exclude timestamp items queue_times logged logged' :
  snd (Webapp.for_each_pod exclude timestamp items queue_times logged)
  = snd (Webapp.for_each_pod exclude timestamp items queue_times logged').
Proof.
  revert queue_times logged logged'.
  induction items as [|pod rest IH]; simpl; intros acc l l'; [reflexivity|].
  destruct (Webapp.process_pod exclude timestamp pod) as [[|m|row]|e];
    simpl; try apply IH; reflexivity.
Qed.

(** The frame of a cycle depends on the collector through its exclusion
    list only. *)
Lemma Webapp_collect_frame world a b :
  Webapp.exclude_namespaces a = Webapp.exclude_namespaces b ->
  fst (Webapp.collect_queue_times world a) = fst (Webapp.collect_queue_times world b).
Proof.
  intros He. unfold Webapp.collect_queue_times, Webapp.try_collect. rewrite He.
  destruct (Kubectl.items_of (Kubectl.answer world)) as [items|e]; [|reflexivity].
  pose proof (Webapp_for_each_pod_outcome (Webapp.exclude_namespaces b)
                (Kubectl.clock world) items []
                (Webapp.logs a ++ [Webapp.RunningCommand])
                (Webapp.logs b ++ [Webapp.RunningCommand])) as H.
  destruct (Webapp.for_each_pod _ _ items [] (Webapp.logs a ++ _)) as [la oa].
  destruct (Webapp.for_each_pod _ _ items [] (Webapp.logs b ++ _)) as [lb ob].
  simpl in H. subst ob. now destruct oa.
Qed.

Lemma log_extends_handle e a : log_extends a (Webapp.handle e a).
Proof.
  destruct e; simpl; try apply log_extends_log.
  eapply log_extends_trans; apply log_extends_log.
Qed.

Lemma Webapp_collect_collector world self :
  let after := snd (Webapp.collect_queue_times world self) in
  same_configuration after self
  /\ Webapp.all_data after = Webapp.all_data self
  /\ log_extends self after.
Proof.
  unfold Webapp.collect_queue_times, Webapp.try_collect.
  destruct (Kubectl.items_of (Kubectl.answer world)) as [items|e].
  - pose proof (Webapp_for_each_pod_logged (Webapp.exclude_namespaces self)
                  (Kubectl.clock world) items []
                  (Webapp.logs self ++ [Webapp.RunningCommand])) as [more Hm].
    destruct (Webapp.for_each_pod _ _ items [] _) as [logged [df|e]]; simpl in *; subst.
    + repeat split. exists (Webapp.RunningCommand :: more). now rewrite <- app_assoc.
    + split; [|split].
      * now destruct e.
      * now destruct e.
      * eapply log_extends_trans; [|apply log_extends_handle].
        exists (Webapp.RunningCommand :: more). simpl. now rewrite <- app_assoc.
  - simpl. split; [|split].
    + now destruct e.
    + now destruct e.
    + eapply log_extends_trans; [|apply log_extends_handle]. now exists [Webapp.RunningCommand].
Qed.

Lemma record_iteration_collector df self :
  let after := Webapp.record_iteration df self in
  same_configuration after self
  /\ Webapp.all_data after = Webapp.all_data self ++ df
  /\ log_extends self after.
Proof.
  destruct df as [|row rows]; simpl.
  - repeat split; [now rewrite app_nil_r | apply log_extends_log].
  - repeat split. eexists [_; _; _]. simpl. now rewrite <- !app_assoc.
Qed.

(** The rows that the sampled iterations of a trace returned. *)
Definition frames_of (world : Z -> Kubectl.snapshot) (self : Webapp.QueueTimeStatsCollector)
  (t : list Webapp.event) : list Webapp.Row :=
  flat_map (fun e => match e with
                     | Webapp.Sampled i => fst (Webapp.collect_queue_times (world i) self)
                     | Webapp.Slept _ => []
                     end) t.

Lemma iterate_accumulates world self iterations range c done :
  Webapp.exclude_namespaces c = Webapp.exclude_namespaces self ->
  let r := Webapp.iterate world iterations range c done in
  exists suffix,
    Webapp.trace r = done ++ suffix
    /\ Webapp.all_data (Webapp.collector r) = Webapp.all_data c ++ frames_of world self suffix
    /\ same_configuration (Webapp.collector r) c
    /\ log_extends c (Webapp.collector r).
Proof.
  revert c done. induction range as [|i rest IH]; intros c done He; simpl.
  - exists []. rewrite !app_nil_r. repeat split. apply log_extends_refl.
  - set (c1 := Webapp.log (Webapp.Collecting i iterations) c).
    pose proof (Webapp_collect_collector (world i) c1) as (Hcfg2 & Hdata2 & Hlog2).
    pose proof (Webapp_collect_frame (world i) c1 self He) as Hframe.
    destruct (Webapp.collect_queue_times (world i) c1) as [df c2]. simpl in *.
    pose proof (record_iteration_collector df c2) as (Hcfg3 & Hdata3 & Hlog3).
    set (c3 := Webapp.record_iteration df c2) in *.
    assert (Hcfg : same_configuration c3 c).
    { destruct Hcfg2 as (A1 & A2 & A3), Hcfg3 as (B1 & B2 & B3).
      repeat split; simpl in *; congruence. }
    assert (Hlog : log_extends c c3).
    { eapply log_extends_trans; [apply (log_extends_log (Webapp.Collecting i iterations))|].
      eapply log_extends_trans; [exact Hlog2 | exact Hlog3]. }
    assert (Hdata : Webapp.all_data c3 = Webapp.all_data c ++ df).
    { rewrite Hdata3, Hdata2. reflexivity. }
    destruct (i <? iterations).
    + destruct (Webapp.interval_secs c3 <? 0); simpl.
      * exists [Webapp.Sampled i]. simpl. rewrite app_nil_r, <- Hframe.
        repeat split; try apply Hcfg; trivial.
        eapply log_extends_trans; [exact Hlog | apply log_extends_log].
      * destruct (IH (Webapp.log (Webapp.Waiting (Webapp.interval_secs c3)) c3)
                    ((done ++ [Webapp.Sampled i]) ++ [Webapp.Slept (Webapp.interval_secs c3)]))
          as (suffix & Ht & Hd & Hc & Hl).
        { simpl. destruct Hcfg as (_ & _ & ->). exact He. }
        exists (Webapp.Sampled i :: Webapp.Slept (Webapp.interval_secs c3) :: suffix).
        split; [now rewrite Ht, <- !app_assoc|].
        split; [rewrite Hd; simpl; rewrite Hdata, <- Hframe, <- app_assoc; reflexivity|].
        split.
        -- destruct Hc as (C1 & C2 & C3), Hcfg as (D1 & D2 & D3).
           repeat split; simpl in *; congruence.
        -- eapply log_extends_trans; [exact Hlog|].
           eapply log_extends_trans; [apply log_extends_log | exact Hl].
    + destruct (IH c3 (done ++ [Webapp.Sampled i])) as (suffix & Ht & Hd & Hc & Hl).
      { destruct Hcfg as (_ & _ & ->). exact He. }
      exists (Webapp.Sampled i :: suffix).
      split; [now rewrite Ht, <- !app_assoc|].
      split; [rewrite Hd; simpl; rewrite Hdata, <- Hframe, <- app_assoc; reflexivity|].
      split.
      * destruct Hc as (C1 & C2 & C3), Hcfg as (D1 & D2 & D3).
        repeat split; simpl in *; congruence.
      * eapply log_extends_trans; [exact Hlog | exact Hl].
Qed.

Lemma frames_of_pass world self t :
  Forall (fun r => passes (Webapp.exclude_namespaces self)
                     (Webapp.Namespace r) (Webapp.QueueTime r))
    (frames_of world self t).
Proof.
  unfold frames_of. apply Forall_forall. intros r Hr. apply in_flat_map in Hr.
  destruct Hr as ([i|secs] & _ & Hr); [|easy].
  pose proof (Webapp_collect_passes (world i) self) as H.
  rewrite Forall_forall in H. now apply H.
Qed.

Lemma run_collection_adds world self :
  let r := Webapp.run_collection world self in
  Webapp.all_data (Webapp.collector r)
  = Webapp.all_data self ++ frames_of world self (Webapp.trace r)
  /\ (exists more, Webapp.logs (Webapp.collector r) = Webapp.logs self ++ more)
  /\ same_configuration (Webapp.collector r) self.
Proof.
  unfold Webapp.run_collection.
  destruct (Py.int_truediv _ _) as [iterations|e]; simpl.
  - destruct (iterate_accumulates world self iterations (Py.range1 iterations) self []
                eq_refl) as (suffix & Ht & Hd & Hc & Hl).
    simpl in Ht. rewrite Ht. repeat split; trivial; apply Hc.
  - rewrite app_nil_r. repeat split. exists []. now rewrite app_nil_r.
Qed.

(** X11: whatever the configuration and the answers of the cluster, and
    whether the loop completes or raises, a run only adds: the data after
    the run is the data before it followed by the frames of the sampled
    iterations, in order, all of them rows that pass the sampler's filter;
    the log after the run begins with the log before it; duration,
    interval and exclusion list are unchanged. *)
Theorem run_collection_only_adds
  (world : Z -> Kubectl.snapshot) (self : Webapp.QueueTimeStatsCollector) :
  let r := Webapp.run_collection world self in
  Webapp.all_data (Webapp.collector r)
  = Webapp.all_data self ++ frames_of world self (Webapp.trace r)
  /\ Forall (fun row => passes (Webapp.exclude_namespaces self)
                          (Webapp.Namespace row) (Webapp.QueueTime row))
       (frames_of world self (Webapp.trace r))
  /\ (exists more, Webapp.logs (Webapp.collector r) = Webapp.logs self ++ more)
  /\ Webapp.duration_mins (Webapp.collector r) = Webapp.duration_mins self
  /\ Webapp.interval_secs (Webapp.collector r) = Webapp.interval_secs self
  /\ Webapp.exclude_namespaces (Webapp.collector r) = Webapp.exclude_namespaces self.
Proof.
  intros r. destruct (run_collection_adds world self) as (Hd & Hl & C1 & C2 & C3).
  repeat split; trivial. apply frames_of_pass.
Qed.

(** X12: [generate_statistics] returns without statistics exactly when
    the collector had no data before the run and no sampled iteration of
    the run returned a row; otherwise it produces its three tables. *)
Theorem statistics_need_a_row
  (by_AvgQueueTime : Pandas.SortValues Webapp.AvgQueueTime Pandas.Qge_bool)
  (by_QueueTime : Pandas.SortValues Webapp.QueueTime Z.geb)
  (world : Z -> Kubectl.snapshot) (self : Webapp.QueueTimeStatsCollector) :
  let r := Webapp.run_collection world self in
  Webapp.generate_statistics (Webapp.collector r) = None
  <-> (Webapp.all_data self = []
       /\ forall i, In (Webapp.Sampled i) (Webapp.trace r) ->
                    fst (Webapp.collect_queue_times (world i) self) = []).
Proof.
  intros r. destruct (run_collection_adds world self) as (Hd & _ & _).
  fold r in Hd. unfold Webapp.generate_statistics. rewrite Hd.
  split.
  - intros H.
    destruct (Webapp.all_data self ++ frames_of world self (Webapp.trace r)) eqn:E;
      [|discriminate].
    apply app_eq_nil in E. destruct E as [E1 E2]. split; [exact E1|].
    intros i Hi. unfold frames_of in E2.
    destruct (fst (Webapp.collect_queue_times (world i) self)) as [|row rows] eqn:Ef;
      [reflexivity|].
    assert (Hin : In row (flat_map
                            (fun e => match e with
                                      | Webapp.Sampled i =>
                                          fst (Webapp.collect_queue_times (world i) self)
                                      | Webapp.Slept _ => []
                                      end) (Webapp.trace r))).
    { apply in_flat_map. exists (Webapp.Sampled i). split; [exact Hi|].
      rewrite Ef. now left. }
    rewrite E2 in Hin. destruct Hin.
  - intros [E1 E2]. rewrite E1. simpl.
    assert (E : frames_of world self (Webapp.trace r) = []).
    { unfold frames_of. revert E2. generalize (Webapp.trace r).
      intros t. induction t as [|[i|secs] t IH]; intros E2; simpl.
      - reflexivity.
      - rewrite (E2 i) by now left. simpl. apply IH. intros j Hj. apply E2. now right.
      - apply IH. intros j Hj. apply E2. now right. }
    now rewrite E.
Qed.

(** ** Aggregates of a column *)

Lemma max_upper (xs : list Z) (x : Z) :
  x <= PandasSeries.max x xs /\ Forall (fun y => y <= PandasSeries.max x xs) xs.
Proof.
  unfold PandasSeries.max. revert x. induction xs as [|y xs IH]; simpl; intros x.
  - split; [lia | constructor].
  - destruct (IH (Z.max x y)) as [H1 H2]. split; [lia|]. constructor; [lia | exact H2].
Qed.

Lemma max_attained (xs : list Z) (x : Z) : In (PandasSeries.max x xs) (x :: xs).
Proof.
  unfold PandasSeries.max. revert x. induction xs as [|y xs IH]; simpl; intros x.
  - now left.
  - destruct (IH (Z.max x y)) as [H | H]; [|now right; right].
    rewrite <- H. destruct (Z.max_spec x y) as [[_ ->] | [_ ->]]; [right|]; now left.
Qed.

Lemma min_lower (xs : list Z) (x : Z) :
  PandasSeries.min x xs <= x /\ Forall (fun y => PandasSeries.min x xs <= y) xs.
Proof.
  unfold PandasSeries.min. revert x. induction xs as [|y xs IH]; simpl; intros x.
  - split; [lia | constructor].
  - destruct (IH (Z.min x y)) as [H1 H2]. split; [lia|]. constructor; [lia | exact H2].
Qed.

Lemma min_attained (xs : list Z) (x : Z) : In (PandasSeries.min x xs) (x :: xs).
Proof.
  unfold PandasSeries.min. revert x. induction xs as [|y xs IH]; simpl; intros x.
  - now left.
  - destruct (IH (Z.min x y)) as [H | H]; [|now right; right].
    rewrite <- H. destruct (Z.min_spec x y) as [[_ ->] | [_ ->]]; [|right]; now left.
Qed.

Lemma sum_between (lo hi : Z) (xs : list Z) (x : Z) :
  Forall (fun y => lo <= y <= hi) xs ->
  x + lo * Z.of_nat (List.length xs) <= PandasSeries.sum x xs
  <= x + hi * Z.of_nat (List.length xs).
Proof.
  unfold PandasSeries.sum. intros H. revert x.
  induction H as [|y xs Hy Hall IH]; intros x; simpl List.length; simpl fold_left.
  - lia.
  - specialize (IH (x + y)). lia.
Qed.

Lemma mean_between (xs : list Z) (x : Z) :
  (inject_Z (PandasSeries.min x xs) <= PandasSeries.mean x xs)%Q
  /\ (PandasSeries.mean x xs <= inject_Z (PandasSeries.max x xs))%Q.
Proof.
  destruct (max_upper xs x) as [Hx Hxs], (min_lower xs x) as [Hx' Hxs'].
  assert (Hall : Forall (fun y => PandasSeries.min x xs <= y <= PandasSeries.max x xs) xs).
  { rewrite Forall_forall in *. intros y Hy. split; [now apply Hxs' | now apply Hxs]. }
  pose proof (sum_between _ _ xs x Hall) as Hsum.
  unfold PandasSeries.mean, Qle. simpl. rewrite Zpos_P_of_succ_nat. split; nia.
Qed.


Lemma nunique_bounds (x : string) (xs : list string) :
  (1 <= PandasSeries.nunique (x :: xs) <= List.length (x :: xs))%nat.
Proof.
  unfold PandasSeries.nunique. split.
  - assert (Hin : In x (nodup string_dec (x :: xs))) by (apply nodup_In; now left).
    destruct (nodup string_dec (x :: xs)); [destruct Hin | simpl; lia].
  - apply NoDup_incl_length; [apply NoDup_nodup|].
    intros y Hy. now apply nodup_In in Hy.
Qed.


Lemma median_between (xs : list Z) (x : Z) :
  (inject_Z (PandasSeries.min x xs) <= PandasSeries.median x xs)%Q
  /\ (PandasSeries.median x xs <= inject_Z (PandasSeries.max x xs))%Q.
Proof.
  destruct (max_upper xs x) as [Hx Hxs], (min_lower xs x) as [Hx' Hxs'].
  assert (Hall : forall y, In y (x :: xs) ->
                           PandasSeries.min x xs <= y <= PandasSeries.max x xs).
  { rewrite Forall_forall in *. intros y [<- | Hy]; [lia|].
    split; [now apply Hxs' | now apply Hxs]. }
  unfold PandasSeries.median.
  set (sorted := Pandas.insertion_sort (fun v => v) Z.leb (x :: xs)).
  assert (Hperm : Permutation (x :: xs) sorted) by apply insertion_sort_perm.
  assert (Hlen : List.length sorted = S (List.length xs))
    by (rewrite <- (Permutation_length Hperm); reflexivity).
  assert (Hnth : forall k, (k < List.length sorted)%nat ->
                           PandasSeries.min x xs <= nth k sorted x <= PandasSeries.max x xs).
  { intros k Hk. apply Hall. eapply Permutation_in; [apply Permutation_sym, Hperm|].
    now apply nth_In. }
  assert (Hhalf : (List.length sorted / 2 < List.length sorted)%nat)
    by (apply Nat.div_lt; lia).
  pose proof (Hnth _ Hhalf) as H2.
  assert (H1 : PandasSeries.min x xs <= nth (List.length sorted / 2 - 1) sorted x
               <= PandasSeries.max x xs) by (apply Hnth; lia).
  set (a := nth (List.length sorted / 2 - 1) sorted x) in *.
  set (b := nth (List.length sorted / 2) sorted x) in *.
  clearbody a b.
  destruct (Nat.even (List.length sorted)); unfold Qle; simpl; split; lia.
Qed.

(** X16: in the overall statistics of [process_logs.py], minimum and
    maximum are queue times of rows of the deduplicated data, and the
    average and the median lie between them. *)
Theorem process_logs_overall_sound (row : Monitor.Sample) (rows : list Monitor.Sample) :
  let o := ProcessLogs.overall row rows in
  In (ProcessLogs.min_queue_time o) (map Monitor.QueueTime (row :: rows))
  /\ In (ProcessLogs.max_queue_time o) (map Monitor.QueueTime (row :: rows))
  /\ Forall (fun s => ProcessLogs.min_queue_time o <= Monitor.QueueTime s
                      <= ProcessLogs.max_queue_time o) (row :: rows)
  /\ (inject_Z (ProcessLogs.min_queue_time o) <= ProcessLogs.true_avg_queue_time o
      <= inject_Z (ProcessLogs.max_queue_time o))%Q
  /\ (inject_Z (ProcessLogs.min_queue_time o) <= ProcessLogs.median_queue_time o
      <= inject_Z (ProcessLogs.max_queue_time o))%Q
  /\ ProcessLogs.unique_pods o = List.length (row :: rows).
Proof.
  intros o.
  destruct (max_upper (map Monitor.QueueTime rows) (Monitor.QueueTime row)) as [Hx Hxs].
  destruct (min_lower (map Monitor.QueueTime rows) (Monitor.QueueTime row)) as [Hx' Hxs'].
  split; [apply min_attained|]. split; [apply max_attained|].
  split; [|split; [apply mean_between | split; [apply median_between | reflexivity]]].
  constructor; [split; assumption|].
  rewrite Forall_forall in *.
  intros s Hs. split; [apply Hxs' | apply Hxs]; now apply in_map.
Qed.

(** ** The pods with the longest queue times *)

Lemma same_pod_eq (a b : string * string) : Webapp.same_pod a b = true <-> a = b.
Proof.
  unfold Webapp.same_pod. destruct a as [a1 a2], b as [b1 b2]. simpl.
  rewrite andb_true_iff, !String.eqb_eq. split; [intros [-> ->] | intros [= -> ->]]; auto.
Qed.

Definition pod_key_dec (a b : string * string) : {a = b} + {a <> b}.
Proof. decide equality; apply string_dec. Defined.

Lemma StronglySorted_split {A : Type} (R : A -> A -> Prop) (l1 l2 : list A) :
  StronglySorted R (l1 ++ l2) ->
  StronglySorted R l1 /\ StronglySorted R l2
  /\ forall x y, In x l1 -> In y l2 -> R x y.
Proof.
  induction l1 as [|a l1 IH]; simpl; intros H.
  - repeat split; [constructor | exact H | easy].
  - inversion H as [|? ? Hs Hall]; subst. destruct (IH Hs) as (H1 & H2 & Hc).
    rewrite Forall_forall in Hall. repeat split; trivial.
    + constructor; [exact H1|]. apply Forall_forall. intros y Hy.
      apply Hall, in_or_app. now left.
    + intros x y [<- | Hx] Hy; [apply Hall, in_or_app; now right | now apply Hc].
Qed.

Section DropDuplicatesOfSorted.
Context {Row K : Type} (subset : Row -> K) (eqb : K -> K -> bool).
Hypothesis eqb_eq : forall a b, eqb a b = true <-> a = b.
Context (R : Row -> Row -> Prop).

Lemma drop_duplicates_from_sorted (seen : list K) (df : list Row) :
  StronglySorted R df ->
  StronglySorted R (Pandas.drop_duplicates_from subset eqb seen df).
Proof.
  intros Hs. revert seen. induction Hs as [|x l Hs IH Hall]; simpl; intros seen;
    [constructor|].
  destruct (existsb _ seen); [apply IH|]. constructor; [apply IH|].
  rewrite Forall_forall in *. intros y Hy.
  apply (drop_duplicates_from_In subset eqb eqb_eq) in Hy. now apply Hall.
Qed.

(** In a sorted frame the row kept for a key comes before the other rows
    of that key. *)
Lemma kept_row_first (df : list Row) (kept r : Row) :
  StronglySorted R df ->
  In kept (Pandas.drop_duplicates subset eqb df) ->
  In r df -> subset r = subset kept ->
  r = kept \/ R kept r.
Proof.
  intros Hs Hk Hr Hkey.
  apply (drop_duplicates_from_first subset eqb eqb_eq) in Hk.
  destruct Hk as (before & after & -> & Hbefore).
  apply StronglySorted_after in Hs. rewrite Forall_forall in Hs.
  apply in_app_or in Hr. destruct Hr as [Hr | [<- | Hr]].
  - now apply Hbefore in Hr.
  - now left.
  - right. now apply Hs.
Qed.
End DropDuplicatesOfSorted.

(** X17: [top_pods] holds at most ten rows, one per pod (namespace and
    name), in descending order of queue time; each is a row of the data
    with the longest queue time observed for its pod; a pod that is not in
    the table has no queue time longer than any in the table; and the
    table has ten rows as soon as there are ten pods, all pods otherwise.
    This holds for every implementation of [sort_values]. *)
Theorem top_pods_are_the_longest
  (by_QueueTime : Pandas.SortValues Webapp.QueueTime Z.geb)
  (all_data : list Webapp.Row) :
  let top := Webapp.top_pods all_data in
  (List.length top <= 10)%nat
  /\ NoDup (map Webapp.namespace_and_pod top)
  /\ StronglySorted (fun a b => Webapp.QueueTime b <= Webapp.QueueTime a) top
  /\ Forall (fun t => In t all_data
                      /\ forall r, In r all_data ->
                           Webapp.namespace_and_pod r = Webapp.namespace_and_pod t ->
                           Webapp.QueueTime r <= Webapp.QueueTime t) top
  /\ (forall r, In r all_data ->
        In (Webapp.namespace_and_pod r) (map Webapp.namespace_and_pod top)
        \/ Forall (fun t => Webapp.QueueTime r <= Webapp.QueueTime t) top)
  /\ List.length top
     = Nat.min 10 (List.length (nodup pod_key_dec
                                  (map Webapp.namespace_and_pod all_data))).
Proof.
  intros top. unfold Webapp.top_pods in top.
  set (sorted := Pandas.sort_values by_QueueTime all_data) in *.
  set (dedup := Pandas.drop_duplicates Webapp.namespace_and_pod Webapp.same_pod sorted) in *.
  pose proof (Pandas.sort_values_perm by_QueueTime all_data) as Hperm. fold sorted in Hperm.
  assert (Hsorted : StronglySorted (fun a b => Webapp.QueueTime b <= Webapp.QueueTime a) sorted).
  { eapply StronglySorted_impl; [|apply (Pandas.sort_values_sorted by_QueueTime)].
    unfold Pandas.ordered_on. intros a b H. lia. }
  assert (Hdedup : StronglySorted (fun a b => Webapp.QueueTime b <= Webapp.QueueTime a) dedup)
    by now apply drop_duplicates_from_sorted; [apply same_pod_eq|].
  assert (Hsplit : dedup = top ++ skipn 10 dedup) by (symmetry; apply firstn_skipn).
  assert (Hkept : forall t r, In t dedup -> In r all_data ->
                    Webapp.namespace_and_pod r = Webapp.namespace_and_pod t ->
                    Webapp.QueueTime r <= Webapp.QueueTime t).
  { intros t r Ht Hr Hkey.
    destruct (kept_row_first _ _ same_pod_eq _ sorted t r Hsorted Ht) as [-> | H];
      trivial; [|lia].
    eapply Permutation_in; [exact Hperm | exact Hr]. }
  assert (Htop : forall t, In t top -> In t dedup).
  { intros t Ht. rewrite Hsplit. apply in_or_app. now left. }
  split; [apply firstn_le_length|].
  split.
  { pose proof (drop_duplicates_NoDup Webapp.namespace_and_pod _ same_pod_eq sorted) as Hnd.
    fold dedup in Hnd. rewrite Hsplit, map_app in Hnd.
    now apply NoDup_app_remove_r in Hnd. }
  split.
  { rewrite Hsplit in Hdedup. now apply StronglySorted_split in Hdedup. }
  split.
  { apply Forall_forall. intros t Ht. apply Htop in Ht. split.
    - eapply Permutation_in; [apply Permutation_sym, Hperm|].
      now apply (drop_duplicates_In _ _ same_pod_eq) in Ht.
    - intros r Hr Hkey. now apply Hkept. }
  split.
  { intros r Hr.
    assert (Hkey : In (Webapp.namespace_and_pod r) (map Webapp.namespace_and_pod dedup)).
    { apply (drop_duplicates_keys _ _ same_pod_eq). apply in_map.
      eapply Permutation_in; [exact Hperm | exact Hr]. }
    apply in_map_iff in Hkey. destruct Hkey as (k & Hk & Hin).
    pose proof (Hkept k r Hin Hr (eq_sym Hk)) as Hle.
    rewrite Hsplit in Hin. apply in_app_or in Hin. destruct Hin as [Hin | Hin].
    - left. rewrite <- Hk. now apply in_map.
    - right. rewrite Hsplit in Hdedup. apply StronglySorted_split in Hdedup.
      destruct Hdedup as (_ & _ & Hcross). apply Forall_forall. intros t Ht.
      specialize (Hcross t k Ht Hin). simpl in Hcross. lia. }
  unfold top. rewrite length_firstn. f_equal. unfold dedup.
  rewrite (drop_duplicates_length _ _ same_pod_eq pod_key_dec).
  apply Permutation_length, NoDup_Permutation; try apply NoDup_nodup.
  intros k. rewrite !nodup_In.
  split; apply Permutation_in, Permutation_map; [apply Permutation_sym|]; exact Hperm.
Qed.

(** ** Grouping by namespace *)

Section GroupByFacts.
Context {Row : Type} (col : Row -> string).

Let rows_of (key : string) (df : list Row) : list Row :=
  filter (fun x => String.eqb (col x) key) df.

Let size (g : PandasSeries.group (Row := Row)) : nat := S (List.length (snd (snd g))).

(** What holds of the groups built from the rows read so far. *)
Definition grouped (read : list Row) (groups : list (PandasSeries.group (Row := Row)))
  : Prop :=
  NoDup (map fst groups)
  /\ (forall key r rs, In (key, (r, rs)) groups -> rows_of key read = r :: rs)
  /\ (forall x, In x read -> In (col x) (map fst groups))
  /\ list_sum (map size groups) = List.length read.

Lemma rows_of_app key read r :
  rows_of key (read ++ [r])
  = rows_of key read ++ (if String.eqb (col r) key then [r] else []).
Proof. unfold rows_of. now rewrite filter_app. Qed.

Lemma add_to_group_new r groups :
  ~ In (col r) (map fst groups) ->
  PandasSeries.add_to_group col r groups = groups ++ [(col r, (r, []))].
Proof.
  induction groups as [|[k [r0 rs]] gs IH]; simpl; intros Hnew; [reflexivity|].
  destruct (String.eqb_spec (col r) k) as [Heq | Hne];
    [exfalso; apply Hnew; left; now symmetry|].
  rewrite IH; tauto.
Qed.

Lemma add_to_group_old r groups :
  In (col r) (map fst groups) ->
  exists before r0 rs after,
    groups = before ++ (col r, (r0, rs)) :: after
    /\ ~ In (col r) (map fst before)
    /\ PandasSeries.add_to_group col r groups
       = before ++ (col r, (r0, rs ++ [r])) :: after.
Proof.
  induction groups as [|[k [r0 rs]] gs IH]; simpl; intros Hold; [easy|].
  destruct (String.eqb_spec (col r) k) as [Heq | Hne].
  - subst k. exists [], r0, rs, gs. repeat split. easy.
  - destruct IH as (before & r1 & rs1 & after & -> & Hb & Hadd);
      [destruct Hold; congruence|].
    exists ((k, (r0, rs)) :: before), r1, rs1, after. simpl. rewrite Hadd.
    repeat split. intros [H | H]; [congruence | tauto].
Qed.

Lemma add_to_group_grouped read r groups :
  grouped read groups -> grouped (read ++ [r]) (PandasSeries.add_to_group col r groups).
Proof.
  intros (Hnd & Hrows & Hkeys & Hsum).
  destruct (in_dec string_dec (col r) (map fst groups)) as [Hold | Hnew].
  - destruct (add_to_group_old r groups Hold)
      as (before & r0 & rs & after & Hg & Hb & ->).
    subst groups. unfold grouped. rewrite !map_app in *. simpl in *.
    split; [exact Hnd|]. split; [|split].
    + intros key r1 rs1 Hin. rewrite rows_of_app.
      apply in_app_or in Hin. destruct Hin as [Hin | [Hin | Hin]].
      * assert (Hne : col r <> key).
        { intros <-. apply Hb. change (col r) with (fst (col r, (r1, rs1))).
          now apply in_map. }
        apply String.eqb_neq in Hne. rewrite Hne, app_nil_r.
        apply Hrows, in_or_app. now left.
      * injection Hin as <- <- <-. rewrite String.eqb_refl.
        rewrite (Hrows (col r) r0 rs); [reflexivity|]. apply in_or_app. right. now left.
      * assert (Hne : col r <> key).
        { intros <-. apply NoDup_remove_2 in Hnd. apply Hnd, in_or_app. right.
          change (col r) with (fst (col r, (r1, rs1))). now apply in_map. }
        apply String.eqb_neq in Hne. rewrite Hne, app_nil_r.
        apply Hrows, in_or_app. right. now right.
    + intros x Hx. apply in_app_or in Hx. destruct Hx as [Hx | [<- | []]].
      * now apply Hkeys.
      * apply in_or_app. right. now left.
    + rewrite length_app, <- Hsum, ?map_app, !list_sum_app. simpl.
      unfold size. simpl. rewrite ?length_app. simpl. lia.
  - rewrite (add_to_group_new r groups Hnew). unfold grouped. rewrite !map_app. simpl.
    split; [|split; [|split]].
    + apply NoDup_app_remove_l with (l := []). simpl.
      apply Permutation_NoDup with (l := col r :: map fst groups).
      * apply Permutation_cons_append.
      * now constructor.
    + intros key r1 rs1 Hin. rewrite rows_of_app.
      apply in_app_or in Hin. destruct Hin as [Hin | [Hin | []]].
      * assert (Hne : col r <> key).
        { intros <-. apply Hnew. change (col r) with (fst (col r, (r1, rs1))).
          now apply in_map. }
        apply String.eqb_neq in Hne. rewrite Hne, app_nil_r. now apply Hrows.
      * injection Hin as <- <- <-. rewrite String.eqb_refl.
        assert (Hnone : rows_of (col r) read = []).
        { unfold rows_of. destruct (filter _ read) as [|y l] eqn:E; [reflexivity|].
          assert (Hy : In y (filter (fun x => String.eqb (col x) (col r)) read))
            by (rewrite E; now left).
          apply filter_In in Hy. destruct Hy as [Hy Heq].
          apply String.eqb_eq in Heq. apply Hkeys in Hy. congruence. }
        now rewrite Hnone.
    + intros x Hx. apply in_app_or in Hx. destruct Hx as [Hx | [<- | []]].
      * apply in_or_app. left. now apply Hkeys.
      * apply in_or_app. right. now left.
    + rewrite length_app, <- Hsum, list_sum_app. reflexivity.
Qed.

Lemma fold_add_to_group_grouped df read groups :
  grouped read groups ->
  grouped (read ++ df) (fold_left (fun gs r => PandasSeries.add_to_group col r gs) df groups).
Proof.
  revert read groups. induction df as [|r df IH]; simpl; intros read groups H.
  - now rewrite app_nil_r.
  - replace (read ++ r :: df) with ((read ++ [r]) ++ df) by now rewrite <- app_assoc.
    apply IH. now apply add_to_group_grouped.
Qed.

Lemma groupby_grouped df : grouped df (PandasSeries.groupby col df).
Proof.
  assert (H : grouped df (PandasSeries.groups_in_frame_order col df)).
  { apply (fold_add_to_group_grouped df [] []). repeat split; simpl; try easy. constructor. }
  unfold PandasSeries.groupby.
  pose proof (insertion_sort_perm (@fst string (Row * list Row)) String.leb
                (PandasSeries.groups_in_frame_order col df)) as Hperm.
  destruct H as (Hnd & Hrows & Hkeys & Hsum). split; [|split; [|split]].
  - eapply Permutation_NoDup; [apply Permutation_map, Hperm | exact Hnd].
  - intros key r rs Hin. apply Hrows.
    eapply Permutation_in; [apply Permutation_sym, Hperm | exact Hin].
  - intros x Hx. eapply Permutation_in; [apply Permutation_map, Hperm | now apply Hkeys].
  - rewrite <- Hsum. apply Permutation_list_sum, Permutation_map, Permutation_sym, Hperm.
Qed.
End GroupByFacts.

Section NamespaceTable.
Context {Row Stat : Type} (col : Row -> string).
Context (agg : PandasSeries.group (Row := Row) -> Stat) (key : Stat -> string).
Hypothesis agg_key : forall g, key (agg g) = fst g.
Context (mean : Stat -> Q) (sorter : Pandas.SortValues mean Pandas.Qge_bool).

(** The rows of a namespace, in frame order. *)
Definition rows_in (namespace : string) (df : list Row) : list Row :=
  filter (fun r => String.eqb (col r) namespace) df.

Lemma namespace_table_spec (df : list Row) :
  let table := Pandas.sort_values sorter (map agg (PandasSeries.groupby col df)) in
  NoDup (map key table)
  /\ (forall namespace, In namespace (map key table) <-> In namespace (map col df))
  /\ Forall (fun stat => exists row rows,
                 rows_in (key stat) df = row :: rows
                 /\ stat = agg (key stat, (row, rows))) table.
Proof.
  intros table.
  destruct (groupby_grouped col df) as (Hnd & Hrows & Hkeys & _).
  set (groups := PandasSeries.groupby col df) in *.
  pose proof (Pandas.sort_values_perm sorter (map agg groups)) as Hperm. fold table in Hperm.
  assert (Hmap : map key (map agg groups) = map fst groups).
  { rewrite map_map. apply map_ext. exact agg_key. }
  assert (Hstat : forall stat, In stat table ->
                    exists row rows, In (key stat, (row, rows)) groups
                                     /\ stat = agg (key stat, (row, rows))).
  { intros stat Hin. apply (Permutation_in _ (Permutation_sym Hperm)) in Hin.
    apply in_map_iff in Hin. destruct Hin as ([k [row rows]] & <- & Hg).
    exists row, rows. rewrite agg_key. simpl. now split. }
  split; [|split].
  - eapply Permutation_NoDup; [apply Permutation_map, Hperm|]. now rewrite Hmap.
  - intros ns. split.
    + intros Hin. apply in_map_iff in Hin. destruct Hin as (stat & <- & Hin).
      destruct (Hstat stat Hin) as (row & rows & Hg & _).
      apply Hrows in Hg.
      assert (Hrow : In row (filter (fun r => String.eqb (col r) (key stat)) df))
        by (rewrite Hg; now left).
      apply filter_In in Hrow. destruct Hrow as [Hrow Heq].
      apply String.eqb_eq in Heq. rewrite <- Heq. now apply in_map.
    + intros Hin. apply in_map_iff in Hin. destruct Hin as (x & <- & Hx).
      eapply Permutation_in; [apply Permutation_map, Hperm|].
      rewrite Hmap. now apply Hkeys.
  - apply Forall_forall. intros stat Hin.
    destruct (Hstat stat Hin) as (row & rows & Hg & Heq).
    exists row, rows. split; [now apply Hrows | exact Heq].
Qed.
End NamespaceTable.

(** X18: the namespace table of the web application has one row for
    each namespace of the data and no other; the row of a namespace
    aggregates the rows of that namespace and only those, its mean lies
    between its minimum and its maximum, and its pod count is at least
    one.  This holds for every implementation of [sort_values]. *)
Theorem namespace_table_covers_the_data
  (by_AvgQueueTime : Pandas.SortValues Webapp.AvgQueueTime Pandas.Qge_bool)
  (all_data : list Webapp.Row) :
  NoDup (map Webapp.ns_Namespace (Webapp.ns_stats all_data))
  /\ (forall namespace,
        In namespace (map Webapp.ns_Namespace (Webapp.ns_stats all_data))
        <-> In namespace (map Webapp.Namespace all_data))
  /\ Forall (fun stat =>
               (exists row rows,
                  rows_in Webapp.Namespace (Webapp.ns_Namespace stat) all_data = row :: rows
                  /\ stat = Webapp.agg (Webapp.ns_Namespace stat, (row, rows)))
               /\ (inject_Z (Webapp.MinQueueTime stat) <= Webapp.AvgQueueTime stat
                   <= inject_Z (Webapp.MaxQueueTime stat))%Q
               /\ (1 <= Webapp.PodCount stat)%nat)
       (Webapp.ns_stats all_data).
Proof.
  destruct (namespace_table_spec Webapp.Namespace Webapp.agg Webapp.ns_Namespace
              (fun g => match g with (k, (r, rs)) => eq_refl end)
              Webapp.AvgQueueTime by_AvgQueueTime all_data) as (Hnd & Hkeys & Hall).
  split; [exact Hnd|]. split; [exact Hkeys|].
  eapply Forall_impl; [|exact Hall]. intros stat (row & rows & Hrows & Heq).
  split; [now exists row, rows|]. rewrite Heq. simpl. split.
  - apply mean_between.
  - apply (nunique_bounds (Webapp.Pod row) (map Webapp.Pod rows)).
Qed.

(** ** Deduplication of small logs *)



Section SmallSegments.
Context {K : Type} (less : K -> K -> bool) (v : list K) (d : K).

Let key := Numpy.key v d.








(** Positions whose keys are not comparable by [less] keep their
    order. *)
Section Stable.
Context (q : nat -> bool).
Hypothesis q_ties : forall i j, q i = true -> q j = true -> less (key i) (key j) = false.


End Stable.


End SmallSegments.

Section SmallFrames.
Context {Row K : Type} (by_col : Row -> K) (less : K -> K -> bool).






End SmallFrames.






(** Sorting by insertion on [QueueTime], longest first. *)
Definition descending_by_QueueTime : Pandas.SortValues Webapp.QueueTime Z.geb.
Proof.
  refine (insertion_sorter Webapp.QueueTime Z.geb Z.geb _ _ _); intros; lia.
Defined.

(** The tables of [generate_statistics] on four rows of three pods, two
    of which have the same name in different namespaces. *)
Example generate_statistics_on_four_rows :
  let self :=
    Webapp.set_all_data
      [webapp_row "a" "web" 5; webapp_row "b" "web" 90061; webapp_row "a" "db" 7;
       webapp_row "a" "web" 9]
      (Webapp.init 5 60 None) in
  option_map
    (fun s => (Webapp.total_pods (Webapp.stats_overall s),
               Webapp.total_namespaces (Webapp.stats_overall s),
               Webapp.overall_avg (Webapp.stats_overall s),
               Webapp.max_ns (Webapp.stats_overall s),
               map (fun n => (Webapp.ns_Namespace n, Webapp.PodCount n, Webapp.AvgQueueTime n))
                 (Webapp.stats_by_namespace s),
               map (fun r => (Webapp.Namespace r, Webapp.Pod r, Webapp.QueueTime r))
                 (Webapp.stats_top_pods s)))
    (Webapp.generate_statistics
       (by_AvgQueueTime := stable_descending Webapp.AvgQueueTime)
       (by_QueueTime := descending_by_QueueTime) self)
  = Some (2%nat, 2%nat, 90082 # 4, "b"%string,
          [("b"%string, 1%nat, 90061 # 1); ("a"%string, 2%nat, 21 # 3)],
          [("b"%string, "web"%string, 90061); ("a"%string, "web"%string, 9);
           ("a"%string, "db"%string, 7)]).
Proof. reflexivity. Qed.

Example process_logs_overall_on_scenario :
  ProcessLogs.overall (sample_at 1 "a" 10) [sample_at 2 "b" 5; sample_at 3 "c" 7;
                                            sample_at 4 "d" 20]
  = {| ProcessLogs.unique_pods := 4;
       ProcessLogs.true_avg_queue_time := 42 # 4;
       ProcessLogs.max_queue_time := 20;
       ProcessLogs.min_queue_time := 5;
       ProcessLogs.median_queue_time := 17 # 2 |}.
Proof. reflexivity. Qed.
